(** * The plugin loader of payment_go (pkg/plugin/loader.go)

    A shallow embedding of the [PluginLoader]: the registry map from
    channel identifiers to [*LoadedPlugin], its read/write mutex, the
    map objects and record cells behind the pointers, and the operations
    [LoadPlugin], [GetPlugin], [UnloadPlugin], [ListPlugins],
    [GetPluginInfo], [validatePluginInfo], [ReloadPlugin] and
    [HealthCheck].

    Go code runs in a small monad [Go] over a [World]; a call either
    returns, panics, or parks the goroutine for ever on the mutex.

    After the loader come the helpers of the demo programs, the
    [PaymentGateway] of cmd/multi_channel_demo and the mock channel, the
    plugin module that the demo programs load through the loader. *)

From Stdlib Require Import ZArith Lia.
From Stdlib Require PrimFloat.
From stdpp Require Import base option strings list gmap fin_maps pretty.

Local Open Scope Z_scope.
Local Open Scope string_scope.

(** ** pkg/interfaces *)

Module interfaces.

(** [type PluginInfo struct]; [ConfigSchema] is never inspected by the
    loader, its values are kept as text. *)
Record PluginInfo := {
  Name : string;
  Version : string;
  Description : string;
  Author : string;
  ChannelType : string;
  Capabilities : list string;
  ConfigSchema : list (string * string)
}.

(** How a call of a method of a module ends: the method returns, or the
    code of the module panics. *)
Inductive answer :=
| Returned (info : option PluginInfo)
| Panicked (msg : string).

(** [type Plugin interface].  The loader calls exactly one method of an
    instance, [GetInfo() *PluginInfo].  The method is code of the
    module: it may panic instead of returning, and it may answer
    differently each time it is called.  [GetInfo i n] is what the
    instance [i] does when its [GetInfo] is called after [n] earlier
    calls have left the loader (the calls in the log of outside calls);
    [Returned None] is the nil pointer.  The eight remaining methods are
    never called by the loader. *)
Record Plugin := {
  GetInfo : nat -> answer
}.

End interfaces.

(** ** The standard library package [plugin], as far as the loader uses it *)

Module dl.

(** What [Lookup] hands back: a value that the type assertion
    [.(func() interfaces.Plugin)] accepts, or any other symbol.
    The factory returns an interface value, [None] being nil. *)
Inductive Symbol :=
| Factory (newPlugin : unit -> option interfaces.Plugin)
| OtherSymbol.

(** [*plugin.Plugin]. *)
Record Plugin := {
  pluginpath : string;
  syms : string -> option Symbol
}.

Definition Lookup (p : Plugin) (symName : string) : Symbol + string :=
  match syms p symName with
  | Some s => inl s
  | None =>
      inr ("plugin: symbol " +:+ symName +:+ " not found in plugin " +:+ pluginpath p)
  end.

End dl.

(** ** Errors built with [fmt.Errorf] *)

Inductive validation_error :=
| InfoIsNil
| NameRequired
| VersionRequired
| ChannelTypeRequired
| CapabilityRequired.

Inductive error :=
| AlreadyLoaded (channelID : string)
| OpenFailed (pluginPath : string) (err : string)
| MissingNewPlugin (pluginPath : string) (err : string)
| WrongSignature (pluginPath : string)
| ValidationFailed (pluginPath : string) (err : validation_error)
| NotFound (channelID : string).

Definition validation_message (e : validation_error) : string :=
  match e with
  | InfoIsNil => "plugin info is nil"
  | NameRequired => "plugin name is required"
  | VersionRequired => "plugin version is required"
  | ChannelTypeRequired => "plugin channel type is required"
  | CapabilityRequired => "plugin must declare at least one capability"
  end.

(** [err.Error()] *)
Definition Error (e : error) : string :=
  match e with
  | AlreadyLoaded channelID =>
      "plugin for channel " +:+ channelID +:+ " is already loaded"
  | OpenFailed pluginPath err =>
      "failed to open plugin " +:+ pluginPath +:+ ": " +:+ err
  | MissingNewPlugin pluginPath err =>
      "plugin " +:+ pluginPath +:+ " missing NewPlugin function: " +:+ err
  | WrongSignature pluginPath =>
      "plugin " +:+ pluginPath +:+ " NewPlugin function has wrong signature"
  | ValidationFailed pluginPath err =>
      "plugin " +:+ pluginPath +:+ " validation failed: " +:+ validation_message err
  | NotFound channelID =>
      "plugin for channel " +:+ channelID +:+ " not found"
  end.

(** ** Data of package plugin *)

(** [time.Time] as a count of clock ticks; the zero value is [0]. *)
Abbreviation Time := Z (only parsing).

(** Addresses of [LoadedPlugin] cells and of [map[string]*LoadedPlugin]
    objects.  Both kinds of value are references in Go: two variables may
    name the same cell or the same map. *)
Abbreviation loc := nat (only parsing).
Abbreviation mapref := nat (only parsing).

(** [int64] arithmetic wraps around. *)
Definition wrap64 (z : Z) : Z := (z + 2 ^ 63) mod 2 ^ 64 - 2 ^ 63.

(** [type LoadedPlugin struct]; [Instance] is an interface value and
    [Info] a pointer, [None] is nil for both. *)
Record LoadedPlugin := {
  Path : string;
  Plugin : dl.Plugin;
  Instance : option interfaces.Plugin;
  Info : option interfaces.PluginInfo;
  LoadedAt : Time;
  LastUsed : Time;
  UsageCount : Z
}.

(** [sync.RWMutex]: free, held by one writer, or held by [n] readers. *)
Inductive RWMutex :=
| Free
| Writer
| Readers (n : nat).

(** [type PluginLoader struct] *)
Record PluginLoader := {
  plugins : mapref;
  mutex : RWMutex
}.

(** Calls that leave the loader: into package [plugin] and into the
    code of a loaded module. *)
Inductive Call :=
| CallOpen (pluginPath : string)
| CallLookup (pluginPath symName : string)
| CallNewPlugin (pluginPath : string)
| CallGetInfo (instance : interfaces.Plugin).

(** Everything an operation of the loader can read or write. *)
Record World := {
  pl : PluginLoader;
  maps : list (gmap string loc);
  heap : list LoadedPlugin;
  clock : Time;
  disk : string -> dl.Plugin + string;
  calls : list Call
}.

Definition with_mutex (mu : RWMutex) (w : World) : World :=
  {| pl := {| plugins := plugins (pl w); mutex := mu |};
     maps := maps w; heap := heap w; clock := clock w;
     disk := disk w; calls := calls w |}.

Definition with_maps (ms : list (gmap string loc)) (w : World) : World :=
  {| pl := pl w; maps := ms; heap := heap w; clock := clock w;
     disk := disk w; calls := calls w |}.

Definition with_heap (h : list LoadedPlugin) (w : World) : World :=
  {| pl := pl w; maps := maps w; heap := h; clock := clock w;
     disk := disk w; calls := calls w |}.

Definition with_clock (t : Time) (w : World) : World :=
  {| pl := pl w; maps := maps w; heap := heap w; clock := t;
     disk := disk w; calls := calls w |}.

Definition with_call (c : Call) (w : World) : World :=
  {| pl := pl w; maps := maps w; heap := heap w; clock := clock w;
     disk := disk w; calls := (calls w ++ [c])%list |}.

(** ** The monad of Go code *)

(** How a call made by one goroutine ends: it returns a value, it
    panics, or it waits on a mutex that nothing will release.  [Blocks]
    is used where the goroutine waits for a lock while no running
    goroutine can unlock it; the goroutines of [GetPlugin_step] below,
    which do release their locks, retry instead. *)
Inductive outcome (A : Type) :=
| Returns (a : A)
| Panics (msg : string)
| Blocks.
Arguments Returns {A} a.
Arguments Panics {A} msg.
Arguments Blocks {A}.

Definition Go (A : Type) : Type := World -> outcome A * World.

Definition ret {A} (a : A) : Go A := fun w => (Returns a, w).

Definition bind {A B} (m : Go A) (k : A -> Go B) : Go B := fun w =>
  match m w with
  | (Returns a, w1) => k a w1
  | (Panics msg, w1) => (Panics msg, w1)
  | (Blocks, w1) => (Blocks, w1)
  end.

Declare Scope go_scope.
Delimit Scope go_scope with go.
Notation "x <- m ;; k" := (bind m (fun x => k))
  (at level 100, m at level 90, right associativity) : go_scope.
Notation "m ;; k" := (bind m (fun _ => k))
  (at level 100, right associativity) : go_scope.
Local Open Scope go_scope.

Definition panic {A} (msg : string) : Go A := fun w => (Panics msg, w).

(** [defer d] registered before [body]: [d] runs when [body] returns and
    when it panics, not when the goroutine is parked inside [body]. *)
Definition defer {A} (d : Go unit) (body : Go A) : Go A := fun w =>
  match body w with
  | (Returns a, w1) =>
      match d w1 with
      | (Returns _, w2) => (Returns a, w2)
      | (Panics msg, w2) => (Panics msg, w2)
      | (Blocks, w2) => (Blocks, w2)
      end
  | (Panics msg, w1) =>
      match d w1 with
      | (Returns _, w2) => (Panics msg, w2)
      | (Panics msg', w2) => (Panics msg', w2)
      | (Blocks, w2) => (Blocks, w2)
      end
  | (Blocks, w1) => (Blocks, w1)
  end.

(** *** sync.RWMutex

    The mutex is not reentrant: [Lock] waits while anybody, the caller
    included, holds it for reading or writing; [RLock] waits while it is
    held for writing. *)

Definition Lock : Go unit := fun w =>
  match mutex (pl w) with
  | Free => (Returns tt, with_mutex Writer w)
  | _ => (Blocks, w)
  end.

Definition Unlock : Go unit := fun w =>
  match mutex (pl w) with
  | Writer => (Returns tt, with_mutex Free w)
  | _ => (Panics "sync: Unlock of unlocked RWMutex", w)
  end.

Definition RLock : Go unit := fun w =>
  match mutex (pl w) with
  | Free => (Returns tt, with_mutex (Readers 1) w)
  | Readers n => (Returns tt, with_mutex (Readers (S n)) w)
  | Writer => (Blocks, w)
  end.

Definition RUnlock : Go unit := fun w =>
  match mutex (pl w) with
  | Readers (S (S n)) => (Returns tt, with_mutex (Readers (S n)) w)
  | Readers _ => (Returns tt, with_mutex Free w)
  | _ => (Panics "sync: RUnlock of unlocked RWMutex", w)
  end.

(** *** Memory, clock and outside calls *)

Definition nil_dereference : string :=
  "runtime error: invalid memory address or nil pointer dereference".

(** The receiver [pl]. *)
Definition this : Go PluginLoader := fun w => (Returns (pl w), w).

(** [make(map[string]*LoadedPlugin)] *)
Definition make_map : Go mapref := fun w =>
  (Returns (length (maps w)), with_maps (maps w ++ [∅])%list w).

(** The entries of the map behind [m].  A [mapref] comes from [make_map]:
    [NewPluginLoader] is the only code of the repository that builds a
    [PluginLoader], and it makes the map (TestNewPluginLoader fails a
    loader without one).  Go's nil map, the map of a zero-value
    [PluginLoader], which reads as empty and panics on assignment, is
    not a [mapref] and is not modelled: where [m] names no map, which
    no loader built by the repository's code does, the operations below
    stop with a panic.  The properties of a call's result are stated for
    loaders whose map exists ([lookup_channel] answers, or the loader is
    [consistent]). *)
Definition map_entries (m : mapref) : Go (gmap string loc) := fun w =>
  match maps w !! m with
  | Some ps => (Returns ps, w)
  | None => (Panics nil_dereference, w)
  end.

(** [v, exists := m[k]] *)
Definition map_index (m : mapref) (k : string) : Go (option loc) :=
  ps <- map_entries m ;; ret (ps !! k).

(** [m[k] = v] *)
Definition map_assign (m : mapref) (k : string) (v : loc) : Go unit := fun w =>
  match maps w !! m with
  | Some ps => (Returns tt, with_maps (<[m := <[k := v]> ps]> (maps w)) w)
  | None => (Panics nil_dereference, w)
  end.

(** [delete(m, k)] *)
Definition map_delete (m : mapref) (k : string) : Go unit := fun w =>
  match maps w !! m with
  | Some ps => (Returns tt, with_maps (<[m := delete k ps]> (maps w)) w)
  | None => (Panics nil_dereference, w)
  end.

(** [for k, v := range m { body }] *)
Definition map_range (m : mapref) (body : string -> loc -> Go unit) : Go unit :=
  ps <- map_entries m ;;
  map_fold (fun k v before => before ;; body k v) (ret tt) ps.

(** [&LoadedPlugin{...}] *)
Definition new (r : LoadedPlugin) : Go loc := fun w =>
  (Returns (length (heap w)), with_heap (heap w ++ [r])%list w).

(** [*p] *)
Definition deref (p : loc) : Go LoadedPlugin := fun w =>
  match heap w !! p with
  | Some r => (Returns r, w)
  | None => (Panics nil_dereference, w)
  end.

(** [*p = r] *)
Definition assign (p : loc) (r : LoadedPlugin) : Go unit := fun w =>
  match heap w !! p with
  | Some _ => (Returns tt, with_heap (<[p := r]> (heap w)) w)
  | None => (Panics nil_dereference, w)
  end.

Definition set_LastUsed (t : Time) (r : LoadedPlugin) : LoadedPlugin :=
  {| Path := Path r; Plugin := Plugin r; Instance := Instance r; Info := Info r;
     LoadedAt := LoadedAt r; LastUsed := t; UsageCount := UsageCount r |}.

Definition set_UsageCount (c : Z) (r : LoadedPlugin) : LoadedPlugin :=
  {| Path := Path r; Plugin := Plugin r; Instance := Instance r; Info := Info r;
     LoadedAt := LoadedAt r; LastUsed := LastUsed r; UsageCount := c |}.

(** [p.LastUsed = t] and [p.UsageCount = c] *)
Definition store_LastUsed (p : loc) (t : Time) : Go unit :=
  r <- deref p ;; assign p (set_LastUsed t r).

Definition store_UsageCount (p : loc) (c : Z) : Go unit :=
  r <- deref p ;; assign p (set_UsageCount c r).

(** [time.Now()] *)
Definition time_Now : Go Time := fun w => (Returns (clock w), w).

(** Time passing outside the loader: the clock shows [t]. *)
Definition clock_shows (t : Time) : Go unit := fun w => (Returns tt, with_clock t w).

(** [plugin.Open(pluginPath)] *)
Definition plugin_Open (pluginPath : string) : Go (dl.Plugin + string) := fun w =>
  (Returns (disk w pluginPath), with_call (CallOpen pluginPath) w).

(** [p.Lookup(symName)] *)
Definition plugin_Lookup (p : dl.Plugin) (symName : string) : Go (dl.Symbol + string) := fun w =>
  (Returns (dl.Lookup p symName), with_call (CallLookup (dl.pluginpath p) symName) w).

(** [newPlugin()]: the factory that the module exports.  What it returns
    is a datum of the module; the properties of a load below are stated
    for a factory call that returned, and name what it returned. *)
Definition call_newPlugin (p : dl.Plugin) (newPlugin : unit -> option interfaces.Plugin)
  : Go (option interfaces.Plugin) := fun w =>
  (Returns (newPlugin tt), with_call (CallNewPlugin (dl.pluginpath p)) w).

(** [instance.GetInfo()]: a method call on the nil interface panics
    before any code of a module runs; on an instance the call is logged
    and the module returns or panics.  The loader never recovers from a
    panic. *)
Definition call_GetInfo (instance : option interfaces.Plugin)
  : Go (option interfaces.PluginInfo) := fun w =>
  match instance with
  | Some i =>
      match interfaces.GetInfo i (length (calls w)) with
      | interfaces.Returned info => (Returns info, with_call (CallGetInfo i) w)
      | interfaces.Panicked msg => (Panics msg, with_call (CallGetInfo i) w)
      end
  | None => (Panics nil_dereference, w)
  end.

(** [info != nil] *)
Definition not_nil {A} (p : option A) : bool :=
  match p with Some _ => true | None => false end.

(** ** pkg/plugin/loader.go *)

(** [NewPluginLoader()]: a loader over a map of its own. *)
Definition NewPluginLoader : Go PluginLoader :=
  m <- make_map ;; ret {| plugins := m; mutex := Free |}.

(** [validatePluginInfo(info)]: [None] is the nil error. *)
Definition validatePluginInfo (info : option interfaces.PluginInfo) : option validation_error :=
  match info with
  | None => Some InfoIsNil
  | Some info =>
      if String.eqb (interfaces.Name info) "" then Some NameRequired
      else if String.eqb (interfaces.Version info) "" then Some VersionRequired
      else if String.eqb (interfaces.ChannelType info) "" then Some ChannelTypeRequired
      else if (length (interfaces.Capabilities info) =? 0)%nat then Some CapabilityRequired
      else None
  end.

(** [LoadPlugin] below its [pl.mutex.Lock(); defer pl.mutex.Unlock()]. *)
Definition LoadPlugin_locked (pluginPath channelID : string) : Go (option error) :=
  pl <- this ;;
  loaded <- map_index (plugins pl) channelID ;;
  match loaded with
  | Some _ => ret (Some (AlreadyLoaded channelID))
  | None =>
      opened <- plugin_Open pluginPath ;;
      match opened with
      | inr err => ret (Some (OpenFailed pluginPath err))
      | inl p =>
          found <- plugin_Lookup p "NewPlugin" ;;
          match found with
          | inr err => ret (Some (MissingNewPlugin pluginPath err))
          | inl dl.OtherSymbol => ret (Some (WrongSignature pluginPath))
          | inl (dl.Factory newPlugin) =>
              instance <- call_newPlugin p newPlugin ;;
              info <- call_GetInfo instance ;;
              match validatePluginInfo info with
              | Some err => ret (Some (ValidationFailed pluginPath err))
              | None =>
                  now <- time_Now ;;
                  cell <- new {| Path := pluginPath; Plugin := p;
                                 Instance := instance; Info := info;
                                 LoadedAt := now; LastUsed := 0;
                                 UsageCount := 0 |} ;;
                  map_assign (plugins pl) channelID cell ;;
                  ret None
              end
          end
      end
  end.

Definition LoadPlugin (pluginPath channelID : string) : Go (option error) :=
  Lock ;; defer Unlock (LoadPlugin_locked pluginPath channelID).

Definition GetPlugin (channelID : string)
  : Go (option interfaces.Plugin * option error) :=
  RLock ;; defer RUnlock (
    pl <- this ;;
    loaded <- map_index (plugins pl) channelID ;;
    match loaded with
    | None => ret (None, Some (NotFound channelID))
    | Some loadedPlugin =>
        now <- time_Now ;;
        store_LastUsed loadedPlugin now ;;
        r <- deref loadedPlugin ;;
        store_UsageCount loadedPlugin (wrap64 (UsageCount r + 1)) ;;
        r <- deref loadedPlugin ;;
        ret (Instance r, None)
    end).

Definition UnloadPlugin (channelID : string) : Go (option error) :=
  Lock ;; defer Unlock (
    pl <- this ;;
    loaded <- map_index (plugins pl) channelID ;;
    match loaded with
    | None => ret (Some (NotFound channelID))
    | Some _ =>
        map_delete (plugins pl) channelID ;;
        ret None
    end).

Definition ListPlugins : Go mapref :=
  RLock ;; defer RUnlock (
    pl <- this ;;
    result <- make_map ;;
    map_range (plugins pl) (fun k v => map_assign result k v) ;;
    ret result).

Definition GetPluginInfo (channelID : string)
  : Go (option interfaces.PluginInfo * option error) :=
  RLock ;; defer RUnlock (
    pl <- this ;;
    loaded <- map_index (plugins pl) channelID ;;
    match loaded with
    | None => ret (None, Some (NotFound channelID))
    | Some loadedPlugin =>
        r <- deref loadedPlugin ;;
        info <- call_GetInfo (Instance r) ;;
        ret (info, None)
    end).

Definition ReloadPlugin (channelID : string) : Go (option error) :=
  Lock ;; defer Unlock (
    pl <- this ;;
    loaded <- map_index (plugins pl) channelID ;;
    match loaded with
    | None => ret (Some (NotFound channelID))
    | Some loadedPlugin =>
        map_delete (plugins pl) channelID ;;
        r <- deref loadedPlugin ;;
        LoadPlugin (Path r) channelID
    end).

(** One turn of the loop of [HealthCheck]; [health] is the map under
    construction, returned by value since nothing else ever names it. *)
Definition HealthCheck_turn (channelID : string) (loadedPlugin : loc)
    (before : Go (gmap string bool)) : Go (gmap string bool) :=
  health <- before ;;
  r <- deref loadedPlugin ;;
  info <- call_GetInfo (Instance r) ;;
  ret (<[channelID := not_nil info]> health).

Definition HealthCheck : Go (gmap string bool) :=
  RLock ;; defer RUnlock (
    pl <- this ;;
    ps <- map_entries (plugins pl) ;;
    map_fold HealthCheck_turn (ret ∅) ps).

(** ** Reading the registry from outside *)

(** [pl.plugins[channelID]] as seen in [w]: [None] when the loader has no
    map, [Some None] when the channel is absent, [Some (Some p)] when it
    is registered with the cell at [p]. *)
Definition lookup_channel (w : World) (channelID : string) : option (option loc) :=
  (fun ps : gmap string loc => ps !! channelID) <$> maps w !! plugins (pl w).

(** The record a channel is registered with. *)
Definition record_of (w : World) (channelID : string) : option LoadedPlugin :=
  match lookup_channel w channelID with
  | Some (Some p) => heap w !! p
  | _ => None
  end.

(** The channels of [ListPlugins], by name. *)
Definition channels (w : World) : option (list string) :=
  (fun ps : gmap string loc => (map_to_list ps).*1) <$> maps w !! plugins (pl w).

(** The state the loader starts every call from: nobody holds the mutex,
    the map exists, every registered pointer names a cell, and that cell
    holds a non-nil instance (the one [LoadPlugin] called [GetInfo] on). *)
Definition live_cell (w : World) (p : loc) : bool :=
  match heap w !! p with
  | Some r => not_nil (Instance r)
  | None => false
  end.

Definition consistent (w : World) : bool :=
  match maps w !! plugins (pl w) with
  | Some ps => forallb (fun kv => live_cell w kv.2) (map_to_list ps)
  | None => false
  end.

Definition idle (w : World) : bool :=
  match mutex (pl w) with Free => true | _ => false end.

(** [w'] is [w] except for the log of outside calls. *)
Definition calls_only (w w' : World) : Prop :=
  pl w' = pl w /\ maps w' = maps w /\ heap w' = heap w /\
  clock w' = clock w /\ disk w' = disk w.

(** Between [w] and [w'] the loader called [GetInfo] on the instance [i],
    and the call ended as [a]. *)
Definition answered (w w' : World) (i : interfaces.Plugin) (a : interfaces.answer) : Prop :=
  exists n, (length (calls w) <= n)%nat /\ calls w' !! n = Some (CallGetInfo i) /\
            interfaces.GetInfo i n = a.

(** The loader, its registry map and all cells are in [w'] as in [w]. *)
Definition same_registry (w w' : World) : Prop :=
  pl w' = pl w /\ heap w' = heap w /\
  maps w' !! plugins (pl w') = maps w !! plugins (pl w).

(** ** Callers *)

(** [k] calls of [GetPlugin] one after the other, the clock showing
    [t1], ..., [tk] when they are made. *)
Fixpoint GetPlugin_each (channelID : string) (ts : list Time)
  : Go (list (option interfaces.Plugin * option error)) :=
  match ts with
  | [] => ret []
  | t :: ts =>
      clock_shows t ;;
      r <- GetPlugin channelID ;;
      rs <- GetPlugin_each channelID ts ;;
      ret (r :: rs)
  end.

(** What a caller can do to the value [ListPlugins] returned:
    [snap[k] = v], [delete(snap, k)] and [*snap[k] = r]. *)
Inductive mutation :=
| SetEntry (k : string) (v : loc)
| DeleteEntry (k : string)
| WriteRecord (k : string) (r : LoadedPlugin).

Definition mutate (snap : mapref) (mu : mutation) : Go unit :=
  match mu with
  | SetEntry k v => map_assign snap k v
  | DeleteEntry k => map_delete snap k
  | WriteRecord k r =>
      p <- map_index snap k ;;
      match p with
      | Some p => assign p r
      | None => panic nil_dereference
      end
  end.

(** ** Goroutines inside [GetPlugin]

    [GetPlugin] takes the read lock only, so several goroutines can be
    inside it at once.  Its statements are cut at the points where the
    Go memory model lets another goroutine run: [time.Now()] and the
    store to [LastUsed] are two steps, [UsageCount++] is a load and a
    store. *)

Inductive GetPlugin_pc :=
| AtRLock
| AtLookup
| AtNow (loadedPlugin : loc)
| AtStoreLastUsed (loadedPlugin : loc) (now : Time)
| AtLoadCount (loadedPlugin : loc)
| AtStoreCount (loadedPlugin : loc) (count : Z)
| AtReturn (loadedPlugin : loc)
| AtRUnlock (result : option interfaces.Plugin * option error)
| Finished (result : option interfaces.Plugin * option error).

Definition GetPlugin_step (channelID : string) (pc : GetPlugin_pc) : Go GetPlugin_pc :=
  match pc with
  | AtRLock => RLock ;; ret AtLookup
  | AtLookup =>
      pl <- this ;;
      loaded <- map_index (plugins pl) channelID ;;
      match loaded with
      | None => ret (AtRUnlock (None, Some (NotFound channelID)))
      | Some loadedPlugin => ret (AtNow loadedPlugin)
      end
  | AtNow loadedPlugin =>
      now <- time_Now ;; ret (AtStoreLastUsed loadedPlugin now)
  | AtStoreLastUsed loadedPlugin now =>
      store_LastUsed loadedPlugin now ;; ret (AtLoadCount loadedPlugin)
  | AtLoadCount loadedPlugin =>
      r <- deref loadedPlugin ;; ret (AtStoreCount loadedPlugin (UsageCount r))
  | AtStoreCount loadedPlugin count =>
      store_UsageCount loadedPlugin (wrap64 (count + 1)) ;; ret (AtReturn loadedPlugin)
  | AtReturn loadedPlugin =>
      r <- deref loadedPlugin ;; ret (AtRUnlock (Instance r, None))
  | AtRUnlock result => RUnlock ;; ret (Finished result)
  | Finished result => ret (Finished result)
  end.

(** One goroutine running [n] steps with nobody in between. *)
Fixpoint GetPlugin_steps (n : nat) (channelID : string) (pc : GetPlugin_pc)
  : Go GetPlugin_pc :=
  match n with
  | O => ret pc
  | S n => pc' <- GetPlugin_step channelID pc ;; GetPlugin_steps n channelID pc'
  end.

(** A pool of goroutines, all calling [GetPlugin(channelID)].  The
    scheduler picks goroutine [i]; it makes one step, or stays parked if
    the step blocks; the clock moves on by one tick either way.  A panic
    ends the process ([None]). *)
Definition schedule_one (channelID : string) (i : nat)
    (cfg : World * list GetPlugin_pc) : option (World * list GetPlugin_pc) :=
  let '(w, pool) := cfg in
  match pool !! i with
  | None => Some cfg
  | Some pc =>
      match GetPlugin_step channelID pc w with
      | (Returns pc', w') => Some (with_clock (clock w' + 1) w', <[i := pc']> pool)
      | (Blocks, _) => Some (with_clock (clock w + 1) w, pool)
      | (Panics _, _) => None
      end
  end.

Fixpoint schedule (channelID : string) (order : list nat)
    (cfg : World * list GetPlugin_pc) : option (World * list GetPlugin_pc) :=
  match order with
  | [] => Some cfg
  | i :: order =>
      match schedule_one channelID i cfg with
      | Some cfg' => schedule channelID order cfg'
      | None => None
      end
  end.

(** [n] goroutines about to call [GetPlugin]. *)
Definition goroutines (n : nat) : list GetPlugin_pc := replicate n AtRLock.

(** Whether a goroutine has returned an instance and no error. *)
Definition succeeded (pc : GetPlugin_pc) : bool :=
  match pc with
  | Finished (Some _, None) => true
  | _ => false
  end.

(** ** A module on disk, for the examples *)

Definition mockInfo : interfaces.PluginInfo :=
  {| interfaces.Name := "Mock";
     interfaces.Version := "1.0.0";
     interfaces.Description := "";
     interfaces.Author := "";
     interfaces.ChannelType := "mock";
     interfaces.Capabilities := ["collect_order"];
     interfaces.ConfigSchema := [] |}.

(** An instance like [MockPlugin] of loader_test.go: [GetInfo] returns
    the stored pointer, every time. *)
Definition MockPlugin (info : option interfaces.PluginInfo) : interfaces.Plugin :=
  {| interfaces.GetInfo := fun _ => interfaces.Returned info |}.

(** A loadable file exporting [NewPlugin] as [newPlugin], and one
    exporting it with another type. *)
Definition shared_object (path : string)
    (newPlugin : unit -> option interfaces.Plugin) : dl.Plugin :=
  {| dl.pluginpath := path;
     dl.syms := fun s => if String.eqb s "NewPlugin" then Some (dl.Factory newPlugin) else None |}.

Definition mock_so : dl.Plugin :=
  shared_object "/plugins/mock.so" (fun _ => Some (MockPlugin (Some mockInfo))).

(** Its factory returns the nil interface. *)
Definition nil_so : dl.Plugin :=
  shared_object "/plugins/nil.so" (fun _ => None).

(** Its instance answers [GetInfo] with nil. *)
Definition mute_so : dl.Plugin :=
  shared_object "/plugins/mute.so" (fun _ => Some (MockPlugin None)).

Definition example_disk (path : string) : dl.Plugin + string :=
  if String.eqb path "/plugins/mock.so" then inl mock_so
  else if String.eqb path "/plugins/nil.so" then inl nil_so
  else if String.eqb path "/plugins/mute.so" then inl mute_so
  else inr ("plugin.Open(" +:+ path +:+ "): realpath failed").

(** The world right after [pl := NewPluginLoader()] in a process that
    has allocated nothing yet. *)
Definition fresh_world : World :=
  let blank :=
    {| pl := {| plugins := 0%nat; mutex := Free |}; maps := []; heap := [];
       clock := 0; disk := example_disk; calls := [] |} in
  match NewPluginLoader blank with
  | (Returns loader, w) =>
      {| pl := loader; maps := maps w; heap := heap w; clock := clock w;
         disk := disk w; calls := calls w |}
  | (_, w) => w
  end.

(** The record that [LoadPlugin("/plugins/mock.so", _)] builds at time 100. *)
Definition mock_record : LoadedPlugin :=
  {| Path := "/plugins/mock.so"; Plugin := mock_so;
     Instance := Some (MockPlugin (Some mockInfo)); Info := Some mockInfo;
     LoadedAt := 100; LastUsed := 0; UsageCount := 0 |}.

(** ... and after [LoadPlugin("/plugins/mock.so", "mock")] at time 100. *)
Definition mock_world : World :=
  ((clock_shows 100 ;; LoadPlugin "/plugins/mock.so" "mock") fresh_world).2.

(** A registry with two live channels, built by hand: the instance of
    "mute" answers [GetInfo] with nil. *)
Definition mute_record : LoadedPlugin :=
  {| Path := "/plugins/mute.so"; Plugin := mute_so;
     Instance := Some (MockPlugin None); Info := Some mockInfo;
     LoadedAt := 200; LastUsed := 0; UsageCount := 0 |}.

Definition sweep_world : World :=
  {| pl := {| plugins := 0%nat; mutex := Free |};
     maps := [ <["mute" := 1%nat]> (<["mock" := 0%nat]> ∅) ];
     heap := [mock_record; mute_record];
     clock := 300; disk := example_disk; calls := [] |}.






(** ** More of the code *)

(** The composite literal that [LoadPlugin] stores (loader.go, lines
    76 to 82) for the instance a factory returned and the info that its
    [GetInfo] returned. *)
Definition new_record (pluginPath : string) (p : dl.Plugin)
    (instance : interfaces.Plugin) (info : option interfaces.PluginInfo)
    (now : Time) : LoadedPlugin :=
  {| Path := pluginPath; Plugin := p;
     Instance := Some instance; Info := info;
     LoadedAt := now; LastUsed := 0; UsageCount := 0 |}.

(** The outside calls of a load that gets as far as [GetInfo]. *)
Definition load_calls (pluginPath : string) (p : dl.Plugin)
    (instance : interfaces.Plugin) : list Call :=
  [CallOpen pluginPath; CallLookup (dl.pluginpath p) "NewPlugin";
   CallNewPlugin (dl.pluginpath p); CallGetInfo instance].





(** Counting the goroutines of a pool that are at a given stage. *)
Fixpoint tally (at_stage : GetPlugin_pc -> bool) (pool : list GetPlugin_pc) : nat :=
  match pool with
  | [] => 0
  | pc :: pool => (if at_stage pc then 1 else 0) + tally at_stage pool
  end.

(** Between its [RLock] and its [RUnlock] a goroutine holds the read lock. *)
Definition holds_RLock (pc : GetPlugin_pc) : bool :=
  match pc with
  | AtRLock | Finished _ => false
  | _ => true
  end.

(** The goroutine has executed the store of [UsageCount++]. *)
Definition has_stored (pc : GetPlugin_pc) : bool :=
  match pc with
  | AtReturn _ | AtRUnlock _ | Finished _ => true
  | _ => false
  end.

Definition finished (pc : GetPlugin_pc) : bool :=
  match pc with
  | Finished _ => true
  | _ => false
  end.

(** The steps a goroutine has left, at most. *)
Definition steps_left (pc : GetPlugin_pc) : nat :=
  match pc with
  | AtRLock => 8
  | AtLookup => 7
  | AtNow _ => 6
  | AtStoreLastUsed _ _ => 5
  | AtLoadCount _ => 4
  | AtStoreCount _ _ => 3
  | AtReturn _ => 2
  | AtRUnlock _ => 1
  | Finished _ => 0
  end.

(** The state of a mutex with [n] readers and no writer. *)
Definition mutex_with (n : nat) : RWMutex :=
  match n with
  | O => Free
  | S _ => Readers n
  end.

(** What holds of a goroutine on the way through [GetPlugin] for the
    record at [p]: it carries that pointer, a count it loaded lies
    between the first count and the number of stores made so far, and
    its result is [result]. *)
Definition pc_sound (p : loc) (result : option interfaces.Plugin * option error)
    (first : Z) (stored : nat) (pc : GetPlugin_pc) : Prop :=
  match pc with
  | AtRLock | AtLookup => True
  | AtNow q | AtStoreLastUsed q _ | AtLoadCount q | AtReturn q => q = p
  | AtStoreCount q count => q = p /\ first <= count <= first + Z.of_nat stored
  | AtRUnlock res | Finished res => res = result
  end.

(** What every schedule keeps true of a pool of [n] goroutines that
    call [GetPlugin] on the channel registered in [w0] with the record
    [r0] at [p]. *)
Definition race_invariant (w0 : World) (p : loc) (r0 : LoadedPlugin) (n : nat)
    (cfg : World * list GetPlugin_pc) : Prop :=
  let '(w, pool) := cfg in
  length pool = n /\
  plugins (pl w) = plugins (pl w0) /\
  mutex (pl w) = mutex_with (tally holds_RLock pool) /\
  maps w = maps w0 /\ calls w = calls w0 /\ disk w = disk w0 /\
  (forall q, q <> p -> heap w !! q = heap w0 !! q) /\
  (exists r,
     heap w !! p = Some r /\
     Path r = Path r0 /\ Plugin r = Plugin r0 /\ Instance r = Instance r0 /\
     Info r = Info r0 /\ LoadedAt r = LoadedAt r0 /\
     UsageCount r0 <= UsageCount r <= UsageCount r0 + Z.of_nat (tally has_stored pool) /\
     ((1 <= tally has_stored pool)%nat -> UsageCount r0 + 1 <= UsageCount r)) /\
  Forall (pc_sound p (Instance r0, None) (UsageCount r0) (tally has_stored pool)) pool.

(** How often the scheduler picks goroutine [i] in [order]. *)
Definition turns (i : nat) (order : list nat) : nat :=
  length (List.filter (Nat.eqb i) order).

(** ** Helpers of the demo programs *)

(** [repeatString(s, count)] (loader.go, line 740, and
    cmd/multi_channel_demo/main.go, line 207): the loop
    [for i := 0; i < count; i++ { result += s }] makes [count] turns, none
    when [count] is not positive. *)
Fixpoint repeatString_loop (turns_left : nat) (s result : string) : string :=
  match turns_left with
  | O => result
  | S turns_left => repeatString_loop turns_left s (result +:+ s)
  end.

Definition repeatString (s : string) (count : Z) : string :=
  repeatString_loop (Z.to_nat count) s "".

(** [Time.UnixNano()], a tick of the clock being a nanosecond and tick 0
    the zero [Time], 1 January of year 1: the nanoseconds since 1 January
    1970 as an [int64], computed with wrap-around.  [unixToInternal] is
    the constant of package [time], in seconds. *)
Definition unixToInternal : Z := 62135596800.

Definition UnixNano (t : Time) : Z := wrap64 (t - unixToInternal * 1000000000).

(** [generateRequestID()]: [fmt.Sprintf("REQ_%d", time.Now().UnixNano())]. *)
Definition generateRequestID : Go string :=
  now <- time_Now ;; ret ("REQ_" +:+ pretty (UnixNano now)).

(** ** cmd/multi_channel_demo/main.go: the gateway *)

Module gateway.

(** [type PaymentGateway struct]; a channel is an interface value, [None]
    when nil. *)
Record PaymentGateway := {
  channels : gmap string (option interfaces.Plugin)
}.

Definition NewPaymentGateway : PaymentGateway := {| channels := ∅ |}.

Definition AddChannel (pg : PaymentGateway) (channelType : string)
    (channel : option interfaces.Plugin) : PaymentGateway :=
  {| channels := <[channelType := channel]> (channels pg) |}.

(** [channel, exists := pg.channels[channelType]]: nil and false when
    the key is missing. *)
Definition GetChannel (pg : PaymentGateway) (channelType : string)
  : option interfaces.Plugin * bool :=
  match channels pg !! channelType with
  | Some channel => (channel, true)
  | None => (None, false)
  end.

(** [for channelType := range pg.channels { channelTypes = append(channelTypes, channelType) }] *)
Definition ListChannels (pg : PaymentGateway) : list string :=
  map_fold (fun channelType _ channelTypes => (channelTypes ++ [channelType])%list)
    [] (channels pg).

End gateway.

(** * The mock channel (unnamed/part_010, the module behind "mock")

    The plugin module that the demo programs load: a [MockChannel] keeps
    an order book in memory and answers the six operations of
    [interfaces.PaymentChannel] from it.  The channel has no lock; the
    calls modelled here are made one after the other. *)

(** ** The messages of package [interfaces]

    Each struct is a module of its own so that the fields keep their
    names; an embedded [BaseRequest] or [BaseResponse] is the field
    [Base].  A pointer is an [option] with [None] for nil, and so is a
    map that may be nil.  [float64] is the binary64 of the kernel. *)

Abbreviation float64 := PrimFloat.float (only parsing).

(** A value of type [interface{}], by dynamic type; [AnInt] holds an
    [int] (64 bits), [AnOther] a value of any further type, such as an
    [int64] or a nested map. *)
Inductive any :=
| AnInt (i : Z)
| AFloat64 (f : float64)
| AString (s : string)
| ABool (b : bool)
| AnOther
| ANil.

Module CustomerInfo.
Record t := { Name : string; Email : string; Phone : string; IDNumber : string }.
End CustomerInfo.

Module RecipientInfo.
Record t := {
  Name : string; BankAccount : string; BankCode : string; BankName : string;
  Phone : string; IDNumber : string
}.
End RecipientInfo.

Module BaseRequest.
Record t := {
  MerchantID : string; ChannelID : string; RequestID : string;
  Timestamp : Time; ExtraParams : option (gmap string string)
}.
End BaseRequest.

Module BaseResponse.
Record t := {
  Success : bool; Code : string; Message : string; RequestID : string;
  Timestamp : Time; ExtraData : option (gmap string string)
}.
End BaseResponse.

Module CollectOrderRequest.
Record t := {
  Base : BaseRequest.t;
  OrderID : string; Amount : float64; Currency : string; Description : string;
  ReturnURL : string; NotifyURL : string; CustomerInfo : option CustomerInfo.t
}.
End CollectOrderRequest.

Module CollectOrderResponse.
Record t := {
  Base : BaseResponse.t;
  OrderID : string; ChannelOrderID : string; Amount : float64; Currency : string;
  PaymentURL : string; QRCode : string; Status : string
}.
End CollectOrderResponse.

Module PayoutOrderRequest.
Record t := {
  Base : BaseRequest.t;
  OrderID : string; Amount : float64; Currency : string; Description : string;
  NotifyURL : string; RecipientInfo : option RecipientInfo.t
}.
End PayoutOrderRequest.

Module PayoutOrderResponse.
Record t := {
  Base : BaseResponse.t;
  OrderID : string; ChannelOrderID : string; Amount : float64; Currency : string;
  Status : string
}.
End PayoutOrderResponse.

Module CollectQueryRequest.
Record t := { Base : BaseRequest.t; OrderID : string; ChannelOrderID : string }.
End CollectQueryRequest.

Module CollectQueryResponse.
Record t := {
  Base : BaseResponse.t;
  OrderID : string; ChannelOrderID : string; Amount : float64; Currency : string;
  Status : string; PaidAt : option Time
}.
End CollectQueryResponse.

Module PayoutQueryRequest.
Record t := { Base : BaseRequest.t; OrderID : string; ChannelOrderID : string }.
End PayoutQueryRequest.

Module PayoutQueryResponse.
Record t := {
  Base : BaseResponse.t;
  OrderID : string; ChannelOrderID : string; Amount : float64; Currency : string;
  Status : string; CompletedAt : option Time
}.
End PayoutQueryResponse.

Module BalanceInquiryRequest.
Record t := { Base : BaseRequest.t; AccountType : string }.
End BalanceInquiryRequest.

Module BalanceInquiryResponse.
Record t := {
  Base : BaseResponse.t;
  Balance : float64; Currency : string; AccountType : string; LastUpdated : Time
}.
End BalanceInquiryResponse.

Module CallbackRequest.
Record t := {
  Base : BaseRequest.t;
  CallbackType : string; CallbackData : option (gmap string any); Signature : string
}.
End CallbackRequest.

Module CallbackResponse.
Record t := { Base : BaseResponse.t; Processed : bool; Message : string }.
End CallbackResponse.

(** [type MockOrder struct] *)
Module MockOrder.
Record t := {
  OrderID : string;
  ChannelOrderID : string;
  Amount : float64;
  Currency : string;
  Status : string;
  CreatedAt : Time;
  PaidAt : option Time;
  CompletedAt : option Time;
  CustomerInfo : option CustomerInfo.t;
  RecipientInfo : option RecipientInfo.t
}.
End MockOrder.

Module mock.
Import PrimFloat.

(** [type MockChannel struct].  [config] is only read by key, and a nil
    map reads like an empty one, so nil is [∅]; [orders] is the map that
    [NewPlugin] makes.  The map holds [*MockOrder]; the module hands no
    such pointer out (a response copies the fields), so the order is
    kept by value and a write through the pointer is a write at its
    key. *)
Record MockChannel := {
  config : gmap string any;
  orders : gmap string MockOrder.t
}.

(** What the module reads and writes besides its receiver: the clock
    ([wall], the last reading, and [lag], how many nanoseconds later
    each further reading comes), the generator behind [rand.Float64]
    ([fortune], the numbers it will draw), the pauses asked of
    [time.Sleep] ([naps]), and how many nanoseconds longer than asked
    each pause lasts ([oversleep], by the number of earlier pauses). *)
Record World := {
  mc : MockChannel;
  wall : Time;
  lag : nat -> nat;
  reads : nat;
  fortune : nat -> float64;
  draws : nat;
  naps : list Z;
  oversleep : nat -> nat
}.

Definition with_mc (c : MockChannel) (w : World) : World :=
  {| mc := c; wall := wall w; lag := lag w; reads := reads w;
     fortune := fortune w; draws := draws w; naps := naps w;
     oversleep := oversleep w |}.

Definition M (A : Type) : Type := World -> outcome A * World.

Definition ret {A} (a : A) : M A := fun w => (Returns a, w).

Definition bind {A B} (m : M A) (k : A -> M B) : M B := fun w =>
  match m w with
  | (Returns a, w1) => k a w1
  | (Panics msg, w1) => (Panics msg, w1)
  | (Blocks, w1) => (Blocks, w1)
  end.

Declare Scope mock_scope.
Delimit Scope mock_scope with mock.
Notation "x <- m ;; k" := (bind m (fun x => k))
  (at level 100, m at level 90, right associativity) : mock_scope.
Notation "m ;; k" := (bind m (fun _ => k))
  (at level 100, right associativity) : mock_scope.
Local Open Scope mock_scope.

Definition panic {A} (msg : string) : M A := fun w => (Panics msg, w).

(** Reading a field through a pointer. *)
Definition deref {A} (p : option A) : M A :=
  match p with
  | Some a => ret a
  | None => panic "runtime error: invalid memory address or nil pointer dereference"
  end.

Definition receiver : M MockChannel := fun w => (Returns (mc w), w).

Definition store_config (c : gmap string any) : M unit := fun w =>
  (Returns tt, with_mc {| config := c; orders := orders (mc w) |} w).

(** [mc.orders[orderID] = mockOrder], and a write to a field of the order
    stored under [orderID]. *)
Definition store_order (orderID : string) (mockOrder : MockOrder.t) : M unit := fun w =>
  (Returns tt,
   with_mc {| config := config (mc w); orders := <[orderID := mockOrder]> (orders (mc w)) |} w).

(** [time.Now()]: the clock never runs backwards. *)
Definition time_Now : M Time := fun w =>
  let now := wall w + Z.of_nat (lag w (reads w)) in
  (Returns now,
   {| mc := mc w; wall := now; lag := lag w; reads := S (reads w);
      fortune := fortune w; draws := draws w; naps := naps w;
      oversleep := oversleep w |}).

(** [time.Sleep(d)] pauses for at least [d]: the clock moves on by [d],
    when [d] is positive, and by what the pause lasts longer than asked,
    which the code cannot know. *)
Definition time_Sleep (d : Z) : M unit := fun w =>
  (Returns tt,
   {| mc := mc w;
      wall := wall w + Z.max d 0 + Z.of_nat (oversleep w (length (naps w)));
      lag := lag w; reads := reads w;
      fortune := fortune w; draws := draws w; naps := (naps w ++ [d])%list;
      oversleep := oversleep w |}).

(** [t.Sub(u)], a [Duration]: the difference in nanoseconds, cut off at
    the ends of [int64]. *)
Definition time_Sub (t u : Time) : Z :=
  Z.max (- 2 ^ 63) (Z.min (2 ^ 63 - 1) (t - u)).

Definition time_Since (t : Time) : M Z :=
  now <- time_Now ;; ret (time_Sub now t).

Definition Millisecond : Z := 1000000.
Definition Second : Z := 1000000000.

Definition rand_Float64 : M float64 := fun w =>
  (Returns (fortune w (draws w)),
   {| mc := mc w; wall := wall w; lag := lag w; reads := reads w;
      fortune := fortune w; draws := S (draws w); naps := naps w;
      oversleep := oversleep w |}).

(** *** The methods of [*MockChannel]; the [ctx] argument is never used *)

Definition NewPlugin : MockChannel := {| config := ∅; orders := ∅ |}.

Definition Initialize (c : gmap string any) : M (option string) :=
  store_config c ;; ret None.

Definition ValidateConfig (c : gmap string any) : option string :=
  if match c !! "mock_delay_ms" with
     | Some (AnInt delayInt) => (delayInt <? 0)%Z || (10000 <? delayInt)%Z
     | _ => false
     end
  then Some "mock_delay_ms must be between 0 and 10000"
  else
    if match c !! "success_rate" with
       | Some (AFloat64 rateFloat) => ltb rateFloat 0%float || ltb 1%float rateFloat
       | _ => false
       end
    then Some "success_rate must be between 0.0 and 1.0"
    else None.

(** [time.Duration(delayInt) * time.Millisecond] is a product of
    [int64]. *)
Definition simulateDelay : M unit :=
  self <- receiver ;;
  match config self !! "mock_delay_ms" with
  | Some (AnInt delayInt) => time_Sleep (wrap64 (delayInt * Millisecond))
  | _ => ret tt
  end.

(** The literal [0.95] is the binary64 nearest to it. *)
Definition shouldSucceed : M bool :=
  self <- receiver ;;
  match config self !! "success_rate" with
  | Some (AFloat64 rateFloat) => r <- rand_Float64 ;; ret (ltb r rateFloat)
  | _ => r <- rand_Float64 ;; ret (ltb r 0x1.e666666666666p-1%float)
  end.

Definition reply (success : bool) (code message requestID : string) (now : Time)
  : BaseResponse.t :=
  {| BaseResponse.Success := success; BaseResponse.Code := code;
     BaseResponse.Message := message; BaseResponse.RequestID := requestID;
     BaseResponse.Timestamp := now; BaseResponse.ExtraData := None |}.

Definition CollectOrder (reqp : option CollectOrderRequest.t)
  : M (option CollectOrderResponse.t * option string) :=
  simulateDelay ;;
  stamp <- time_Now ;;
  let channelOrderID := "MOCK_" +:+ pretty (UnixNano stamp) in
  req <- deref reqp ;;
  created <- time_Now ;;
  let mockOrder :=
    {| MockOrder.OrderID := CollectOrderRequest.OrderID req;
       MockOrder.ChannelOrderID := channelOrderID;
       MockOrder.Amount := CollectOrderRequest.Amount req;
       MockOrder.Currency := CollectOrderRequest.Currency req;
       MockOrder.Status := "pending";
       MockOrder.CreatedAt := created;
       MockOrder.PaidAt := None;
       MockOrder.CompletedAt := None;
       MockOrder.CustomerInfo := CollectOrderRequest.CustomerInfo req;
       MockOrder.RecipientInfo := None |} in
  store_order (CollectOrderRequest.OrderID req) mockOrder ;;
  ok <- shouldSucceed ;;
  if ok then
    now <- time_Now ;;
    ret (Some {| CollectOrderResponse.Base :=
                   reply true "SUCCESS" "Mock collection order created successfully"
                     (BaseRequest.RequestID (CollectOrderRequest.Base req)) now;
                 CollectOrderResponse.OrderID := CollectOrderRequest.OrderID req;
                 CollectOrderResponse.ChannelOrderID := channelOrderID;
                 CollectOrderResponse.Amount := CollectOrderRequest.Amount req;
                 CollectOrderResponse.Currency := CollectOrderRequest.Currency req;
                 CollectOrderResponse.PaymentURL :=
                   "https://mock-payment.com/pay/" +:+ channelOrderID;
                 CollectOrderResponse.QRCode :=
                   "data:image/png;base64,MOCK_QR_" +:+ channelOrderID;
                 CollectOrderResponse.Status := "pending" |}, None)
  else
    now <- time_Now ;;
    ret (Some {| CollectOrderResponse.Base :=
                   reply false "MOCK_ERROR" "Mock collection order failed"
                     (BaseRequest.RequestID (CollectOrderRequest.Base req)) now;
                 CollectOrderResponse.OrderID := CollectOrderRequest.OrderID req;
                 CollectOrderResponse.ChannelOrderID := channelOrderID;
                 CollectOrderResponse.Amount := CollectOrderRequest.Amount req;
                 CollectOrderResponse.Currency := CollectOrderRequest.Currency req;
                 CollectOrderResponse.PaymentURL := "";
                 CollectOrderResponse.QRCode := "";
                 CollectOrderResponse.Status := "failed" |}, None).

Definition PayoutOrder (reqp : option PayoutOrderRequest.t)
  : M (option PayoutOrderResponse.t * option string) :=
  simulateDelay ;;
  stamp <- time_Now ;;
  let channelOrderID := "MOCK_PAYOUT_" +:+ pretty (UnixNano stamp) in
  req <- deref reqp ;;
  created <- time_Now ;;
  let mockOrder :=
    {| MockOrder.OrderID := PayoutOrderRequest.OrderID req;
       MockOrder.ChannelOrderID := channelOrderID;
       MockOrder.Amount := PayoutOrderRequest.Amount req;
       MockOrder.Currency := PayoutOrderRequest.Currency req;
       MockOrder.Status := "processing";
       MockOrder.CreatedAt := created;
       MockOrder.PaidAt := None;
       MockOrder.CompletedAt := None;
       MockOrder.CustomerInfo := None;
       MockOrder.RecipientInfo := PayoutOrderRequest.RecipientInfo req |} in
  store_order (PayoutOrderRequest.OrderID req) mockOrder ;;
  ok <- shouldSucceed ;;
  if ok then
    now <- time_Now ;;
    ret (Some {| PayoutOrderResponse.Base :=
                   reply true "SUCCESS" "Mock payout order created successfully"
                     (BaseRequest.RequestID (PayoutOrderRequest.Base req)) now;
                 PayoutOrderResponse.OrderID := PayoutOrderRequest.OrderID req;
                 PayoutOrderResponse.ChannelOrderID := channelOrderID;
                 PayoutOrderResponse.Amount := PayoutOrderRequest.Amount req;
                 PayoutOrderResponse.Currency := PayoutOrderRequest.Currency req;
                 PayoutOrderResponse.Status := "processing" |}, None)
  else
    now <- time_Now ;;
    ret (Some {| PayoutOrderResponse.Base :=
                   reply false "MOCK_ERROR" "Mock payout order failed"
                     (BaseRequest.RequestID (PayoutOrderRequest.Base req)) now;
                 PayoutOrderResponse.OrderID := PayoutOrderRequest.OrderID req;
                 PayoutOrderResponse.ChannelOrderID := channelOrderID;
                 PayoutOrderResponse.Amount := PayoutOrderRequest.Amount req;
                 PayoutOrderResponse.Currency := PayoutOrderRequest.Currency req;
                 PayoutOrderResponse.Status := "failed" |}, None).

Definition set_paid (mockOrder : MockOrder.t) (now : Time) : MockOrder.t :=
  {| MockOrder.OrderID := MockOrder.OrderID mockOrder;
     MockOrder.ChannelOrderID := MockOrder.ChannelOrderID mockOrder;
     MockOrder.Amount := MockOrder.Amount mockOrder;
     MockOrder.Currency := MockOrder.Currency mockOrder;
     MockOrder.Status := "completed";
     MockOrder.CreatedAt := MockOrder.CreatedAt mockOrder;
     MockOrder.PaidAt := Some now;
     MockOrder.CompletedAt := MockOrder.CompletedAt mockOrder;
     MockOrder.CustomerInfo := MockOrder.CustomerInfo mockOrder;
     MockOrder.RecipientInfo := MockOrder.RecipientInfo mockOrder |}.

Definition set_completed (mockOrder : MockOrder.t) (now : Time) : MockOrder.t :=
  {| MockOrder.OrderID := MockOrder.OrderID mockOrder;
     MockOrder.ChannelOrderID := MockOrder.ChannelOrderID mockOrder;
     MockOrder.Amount := MockOrder.Amount mockOrder;
     MockOrder.Currency := MockOrder.Currency mockOrder;
     MockOrder.Status := "completed";
     MockOrder.CreatedAt := MockOrder.CreatedAt mockOrder;
     MockOrder.PaidAt := MockOrder.PaidAt mockOrder;
     MockOrder.CompletedAt := Some now;
     MockOrder.CustomerInfo := MockOrder.CustomerInfo mockOrder;
     MockOrder.RecipientInfo := MockOrder.RecipientInfo mockOrder |}.

(** [mockOrder.Status == "pending" && time.Since(mockOrder.CreatedAt) > 5*time.Second]:
    the clock is read only when the status matches. *)
Definition due (status : string) (after : Z) (mockOrder : MockOrder.t) : M bool :=
  if String.eqb (MockOrder.Status mockOrder) status
  then elapsed <- time_Since (MockOrder.CreatedAt mockOrder) ;; ret (after <? elapsed)%Z
  else ret false.

Definition CollectQuery (reqp : option CollectQueryRequest.t)
  : M (option CollectQueryResponse.t * option string) :=
  simulateDelay ;;
  req <- deref reqp ;;
  self <- receiver ;;
  match orders self !! CollectQueryRequest.OrderID req with
  | None =>
      now <- time_Now ;;
      ret (Some {| CollectQueryResponse.Base :=
                     reply false "ORDER_NOT_FOUND" "Mock order not found"
                       (BaseRequest.RequestID (CollectQueryRequest.Base req)) now;
                   CollectQueryResponse.OrderID := "";
                   CollectQueryResponse.ChannelOrderID := "";
                   CollectQueryResponse.Amount := 0%float;
                   CollectQueryResponse.Currency := "";
                   CollectQueryResponse.Status := "";
                   CollectQueryResponse.PaidAt := None |}, None)
  | Some mockOrder =>
      isDue <- due "pending" (5 * Second) mockOrder ;;
      mockOrder <- (if isDue then
                      now <- time_Now ;;
                      store_order (CollectQueryRequest.OrderID req) (set_paid mockOrder now) ;;
                      ret (set_paid mockOrder now)
                    else ret mockOrder) ;;
      now <- time_Now ;;
      ret (Some {| CollectQueryResponse.Base :=
                     reply true "SUCCESS" "Mock collection order queried successfully"
                       (BaseRequest.RequestID (CollectQueryRequest.Base req)) now;
                   CollectQueryResponse.OrderID := MockOrder.OrderID mockOrder;
                   CollectQueryResponse.ChannelOrderID := MockOrder.ChannelOrderID mockOrder;
                   CollectQueryResponse.Amount := MockOrder.Amount mockOrder;
                   CollectQueryResponse.Currency := MockOrder.Currency mockOrder;
                   CollectQueryResponse.Status := MockOrder.Status mockOrder;
                   CollectQueryResponse.PaidAt := MockOrder.PaidAt mockOrder |}, None)
  end.

Definition PayoutQuery (reqp : option PayoutQueryRequest.t)
  : M (option PayoutQueryResponse.t * option string) :=
  simulateDelay ;;
  req <- deref reqp ;;
  self <- receiver ;;
  match orders self !! PayoutQueryRequest.OrderID req with
  | None =>
      now <- time_Now ;;
      ret (Some {| PayoutQueryResponse.Base :=
                     reply false "ORDER_NOT_FOUND" "Mock order not found"
                       (BaseRequest.RequestID (PayoutQueryRequest.Base req)) now;
                   PayoutQueryResponse.OrderID := "";
                   PayoutQueryResponse.ChannelOrderID := "";
                   PayoutQueryResponse.Amount := 0%float;
                   PayoutQueryResponse.Currency := "";
                   PayoutQueryResponse.Status := "";
                   PayoutQueryResponse.CompletedAt := None |}, None)
  | Some mockOrder =>
      isDue <- due "processing" (3 * Second) mockOrder ;;
      mockOrder <- (if isDue then
                      now <- time_Now ;;
                      store_order (PayoutQueryRequest.OrderID req) (set_completed mockOrder now) ;;
                      ret (set_completed mockOrder now)
                    else ret mockOrder) ;;
      now <- time_Now ;;
      ret (Some {| PayoutQueryResponse.Base :=
                     reply true "SUCCESS" "Mock payout order queried successfully"
                       (BaseRequest.RequestID (PayoutQueryRequest.Base req)) now;
                   PayoutQueryResponse.OrderID := MockOrder.OrderID mockOrder;
                   PayoutQueryResponse.ChannelOrderID := MockOrder.ChannelOrderID mockOrder;
                   PayoutQueryResponse.Amount := MockOrder.Amount mockOrder;
                   PayoutQueryResponse.Currency := MockOrder.Currency mockOrder;
                   PayoutQueryResponse.Status := MockOrder.Status mockOrder;
                   PayoutQueryResponse.CompletedAt := MockOrder.CompletedAt mockOrder |}, None)
  end.

(** [1000000.0 + rand.Float64()*500000.0], rounded after the product and
    after the sum. *)
Definition BalanceInquiry (reqp : option BalanceInquiryRequest.t)
  : M (option BalanceInquiryResponse.t * option string) :=
  simulateDelay ;;
  r <- rand_Float64 ;;
  let balance := (1000000 + r * 500000)%float in
  req <- deref reqp ;;
  now <- time_Now ;;
  updated <- time_Now ;;
  ret (Some {| BalanceInquiryResponse.Base :=
                 reply true "SUCCESS" "Mock balance inquiry successful"
                   (BaseRequest.RequestID (BalanceInquiryRequest.Base req)) now;
               BalanceInquiryResponse.Balance := balance;
               BalanceInquiryResponse.Currency := "CNY";
               BalanceInquiryResponse.AccountType := BalanceInquiryRequest.AccountType req;
               BalanceInquiryResponse.LastUpdated := updated |}, None).

Definition Callback (reqp : option CallbackRequest.t)
  : M (option CallbackResponse.t * option string) :=
  simulateDelay ;;
  processed <- shouldSucceed ;;
  let message := if processed then "Mock callback processed successfully"
                 else "Mock callback processing failed" in
  req <- deref reqp ;;
  now <- time_Now ;;
  ret (Some {| CallbackResponse.Base :=
                 reply processed "SUCCESS" message
                   (BaseRequest.RequestID (CallbackRequest.Base req)) now;
               CallbackResponse.Processed := processed;
               CallbackResponse.Message := message |}, None).

(** *** A caller that only asks *)

(** The calls that create no order, with the request each one is given. *)
Inductive inquiry :=
| AskCollect (req : option CollectQueryRequest.t)
| AskPayout (req : option PayoutQueryRequest.t)
| AskBalance (req : option BalanceInquiryRequest.t)
| Notify (req : option CallbackRequest.t).

(** One call, its results dropped. *)
Definition ask (q : inquiry) : M unit :=
  match q with
  | AskCollect req => CollectQuery req ;; ret tt
  | AskPayout req => PayoutQuery req ;; ret tt
  | AskBalance req => BalanceInquiry req ;; ret tt
  | Notify req => Callback req ;; ret tt
  end.

Fixpoint ask_all (qs : list inquiry) : M unit :=
  match qs with
  | [] => ret tt
  | q :: qs => ask q ;; ask_all qs
  end.

Definition is_nil (q : inquiry) : bool :=
  match q with
  | AskCollect None | AskPayout None | AskBalance None | Notify None => true
  | _ => false
  end.

(** [PayoutQuery] called [n] times in a row with the same request. *)
Fixpoint PayoutQuery_each (n : nat) (reqp : option PayoutQueryRequest.t) : M unit :=
  match n with
  | O => ret tt
  | S n => PayoutQuery reqp ;; PayoutQuery_each n reqp
  end.

(** *** What a query may do to the order book *)

Definition same_order_data (o o' : MockOrder.t) : Prop :=
  MockOrder.OrderID o' = MockOrder.OrderID o /\
  MockOrder.ChannelOrderID o' = MockOrder.ChannelOrderID o /\
  MockOrder.Amount o' = MockOrder.Amount o /\
  MockOrder.Currency o' = MockOrder.Currency o /\
  MockOrder.CreatedAt o' = MockOrder.CreatedAt o /\
  MockOrder.CustomerInfo o' = MockOrder.CustomerInfo o /\
  MockOrder.RecipientInfo o' = MockOrder.RecipientInfo o.

(** The order is as it was, or it was not completed and now is, with
    the data it was created with. *)
Definition advances (o o' : MockOrder.t) : Prop :=
  o' = o \/
  (MockOrder.Status o <> "completed" /\ MockOrder.Status o' = "completed" /\
   same_order_data o o').

(** The same order identifiers, and every order as it was or completed. *)
Definition book_advances (b b' : gmap string MockOrder.t) : Prop :=
  forall orderID,
    match b !! orderID, b' !! orderID with
    | Some o, Some o' => advances o o'
    | None, None => True
    | _, _ => False
    end.

(** *** Example data *)

(** The configuration of the demo program: a delay of 50 ms and a
    success rate of 0.9, here the binary64 nearest to it. *)
Definition demo_config : gmap string any :=
  <["mock_delay_ms" := AnInt 50]>
    (<["success_rate" := AFloat64 0x1.ccccccccccccdp-1%float]> ∅).

Definition demo_world : World :=
  {| mc := {| config := demo_config; orders := ∅ |};
     wall := 63900000000 * Second; lag := fun _ => 1000%nat; reads := 0;
     fortune := fun _ => 0.5%float; draws := 0; naps := [];
     oversleep := fun _ => 700%nat |}.

Definition demo_base : BaseRequest.t :=
  {| BaseRequest.MerchantID := "MERCHANT_001"; BaseRequest.ChannelID := "mock";
     BaseRequest.RequestID := "REQ_1"; BaseRequest.Timestamp := 63900000000 * Second;
     BaseRequest.ExtraParams := None |}.

Definition demo_collect : CollectOrderRequest.t :=
  {| CollectOrderRequest.Base := demo_base;
     CollectOrderRequest.OrderID := "ORDER_001";
     CollectOrderRequest.Amount := 100.5%float;
     CollectOrderRequest.Currency := "CNY";
     CollectOrderRequest.Description := "Test collection order";
     CollectOrderRequest.ReturnURL := "https://example.com/return";
     CollectOrderRequest.NotifyURL := "https://example.com/notify";
     CollectOrderRequest.CustomerInfo := None |}.

Definition demo_order : MockOrder.t :=
  {| MockOrder.OrderID := "ORDER_001";
     MockOrder.ChannelOrderID := "MOCK_1764403200000000000";
     MockOrder.Amount := 100.5%float;
     MockOrder.Currency := "CNY";
     MockOrder.Status := "pending";
     MockOrder.CreatedAt := 63900000000 * Second;
     MockOrder.PaidAt := None;
     MockOrder.CompletedAt := None;
     MockOrder.CustomerInfo := None;
     MockOrder.RecipientInfo := None |}.

(** The demo channel holding [demo_order], six seconds after it was
    made. *)
Definition demo_later : World :=
  {| mc := {| config := demo_config; orders := {[ "ORDER_001" := demo_order ]} |};
     wall := 63900000006 * Second; lag := fun _ => 1000%nat; reads := 0;
     fortune := fun _ => 0.5%float; draws := 0; naps := [];
     oversleep := fun _ => 700%nat |}.

Definition demo_collect_query : CollectQueryRequest.t :=
  {| CollectQueryRequest.Base := demo_base;
     CollectQueryRequest.OrderID := "ORDER_001";
     CollectQueryRequest.ChannelOrderID := "" |}.

Definition demo_payout_query : PayoutQueryRequest.t :=
  {| PayoutQueryRequest.Base := demo_base;
     PayoutQueryRequest.OrderID := "ORDER_001";
     PayoutQueryRequest.ChannelOrderID := "" |}.

End mock.

(** * Properties *)

(** ** Small facts about the monad and the world *)

(** Unfold the operations of the loader and of the monad down to case
    distinctions on the world. *)
Ltac go_unfold :=
  cbv beta iota zeta delta
    [LoadPlugin LoadPlugin_locked GetPlugin UnloadPlugin ListPlugins GetPluginInfo
     ReloadPlugin HealthCheck HealthCheck_turn GetPlugin_step mutate
     bind ret defer panic Lock Unlock RLock RUnlock this make_map map_entries
     map_index map_assign map_delete map_range new deref assign
     store_LastUsed store_UsageCount time_Now clock_shows
     plugin_Open plugin_Lookup call_newPlugin call_GetInfo
     with_mutex with_maps with_heap with_clock with_call
     pl maps heap clock disk calls plugins mutex fst snd].

Ltac go_reduce := cbv beta iota zeta delta [fst snd].

Ltac go_case H :=
  match goal with
  | |- context [match ?x with _ => _ end] =>
      lazymatch x with
      | context [match _ with _ => _ end] => fail
      | _ => destruct x eqn:H; go_reduce
      end
  end.

Lemma idle_Free w : idle w = true -> mutex (pl w) = Free.
Proof. unfold idle. by destruct (mutex (pl w)). Qed.

Lemma with_mutex_same w : with_mutex (mutex (pl w)) w = w.
Proof. by destruct w as [[? ?] ? ? ? ? ?]. Qed.

Lemma with_mutex_twice mu mu' w : with_mutex mu (with_mutex mu' w) = with_mutex mu w.
Proof. done. Qed.

Lemma unlock_restores mu w : mutex (pl w) = Free -> with_mutex Free (with_mutex mu w) = w.
Proof. intros H. rewrite with_mutex_twice, <- H. apply with_mutex_same. Qed.

Lemma lookup_channel_Some w channelID o :
  lookup_channel w channelID = Some o <->
  exists ps : gmap string loc, maps w !! plugins (pl w) = Some ps /\ ps !! channelID = o.
Proof.
  unfold lookup_channel. destruct (maps w !! plugins (pl w)) as [ps|]; simpl.
  - split; [intros [= <-]; eauto | intros (ps' & [= <-] & <-); done].
  - split; [done | intros (? & ? & ?); done].
Qed.

Lemma consistent_spec w :
  consistent w = true <->
  exists ps : gmap string loc, maps w !! plugins (pl w) = Some ps /\
    forall channelID p, ps !! channelID = Some p ->
      exists r i, heap w !! p = Some r /\ Instance r = Some i.
Proof.
  unfold consistent. destruct (maps w !! plugins (pl w)) as [ps|].
  - rewrite forallb_forall. split.
    + intros H. exists ps. split; [done|]. intros channelID p Hp.
      specialize (H (channelID, p)). unfold live_cell in H. simpl in H.
      assert (Hin : In (channelID, p) (map_to_list ps)).
      { apply list_elem_of_In, elem_of_map_to_list, Hp. }
      specialize (H Hin). destruct (heap w !! p) as [r|]; [|done].
      destruct (Instance r) as [i|] eqn:Hi; [|done]. eauto.
    + intros (ps' & [= <-] & H) [channelID p] Hin. simpl.
      apply list_elem_of_In, elem_of_map_to_list in Hin.
      destruct (H _ _ Hin) as (r & i & Hr & Hi).
      unfold live_cell. by rewrite Hr, Hi.
  - split; [done | intros (? & ? & ?); done].
Qed.

(** ** validatePluginInfo *)

Lemma validatePluginInfo_fails info :
  is_Some (validatePluginInfo info) <->
  info = None \/
  exists i, info = Some i /\
    (interfaces.Name i = "" \/ interfaces.Version i = "" \/
     interfaces.ChannelType i = "" \/ interfaces.Capabilities i = []).
Proof.
  destruct info as [i|]; simpl.
  2: { split; [by left | intros _; by eexists]. }
  destruct (String.eqb_spec (interfaces.Name i) "") as [Hn|Hn].
  { split; [intros _; right; eauto | by eexists]. }
  destruct (String.eqb_spec (interfaces.Version i) "") as [Hv|Hv].
  { split; [intros _; right; eauto | by eexists]. }
  destruct (String.eqb_spec (interfaces.ChannelType i) "") as [Hc|Hc].
  { split; [intros _; right; eauto 6 | by eexists]. }
  destruct (interfaces.Capabilities i) as [|c cs] eqn:Hcap; simpl.
  { split; [intros _; right; eauto 7 | by eexists]. }
  split; [intros [? [=]] |].
  intros [[=] | (i' & [= <-] & [?|[?|[?|?]]])]; congruence.
Qed.

(** ** What LoadPlugin does to memory *)

(** Either the maps and the cells are as before, or one validated
    record was appended and registered under [channelID]. *)
Lemma LoadPlugin_effect pluginPath channelID w :
  let w' := (LoadPlugin pluginPath channelID w).2 in
  plugins (pl w') = plugins (pl w) /\
  ((maps w' = maps w /\ heap w' = heap w) \/
   exists (ps : gmap string loc) r,
     maps w !! plugins (pl w) = Some ps /\ ps !! channelID = None /\
     validatePluginInfo (Info r) = None /\
     Path r = pluginPath /\ LoadedAt r = clock w /\ LastUsed r = 0 /\ UsageCount r = 0 /\
     heap w' = (heap w ++ [r])%list /\
     maps w' = <[plugins (pl w) := <[channelID := length (heap w)]> ps]> (maps w) /\
     (LoadPlugin pluginPath channelID w).1 = Returns None).
Proof.
  destruct w as [[m mu] ms h t d cs]. go_unfold.
  destruct mu; go_reduce; try (split; [done | by left]).
  destruct (ms !! m) as [ps|] eqn:Hps; go_reduce; [|split; [done | by left]].
  destruct (ps !! channelID) as [p|] eqn:Hp; go_reduce; [split; [done | by left]|].
  destruct (d pluginPath) as [so|err]; go_reduce; [|split; [done | by left]].
  destruct (dl.Lookup so "NewPlugin") as [[newPlugin|]|err]; go_reduce;
    try (split; [done | by left]).
  destruct (newPlugin tt) as [instance|]; go_reduce; [|split; [done | by left]].
  destruct (interfaces.GetInfo instance _) as [info|msg]; go_reduce;
    [|split; [done | by left]].
  destruct (validatePluginInfo info) as [err|] eqn:Hv; go_reduce;
    [split; [done | by left]|].
  rewrite Hps; go_reduce. split; [done|]. right.
  eexists ps, _. by repeat split.
Qed.

(** C1. [validatePluginInfo] fails exactly when the info is nil, or the
    name, the version or the channel type is empty, or there is no
    capability; and whatever [LoadPlugin] does, a record that is
    registered afterwards was registered before, or its info passes
    [validatePluginInfo]: nothing that fails validation is admitted. *)
Theorem LoadPlugin_metadata_gate :
  (forall info,
     is_Some (validatePluginInfo info) <->
     info = None \/
     exists i, info = Some i /\
       (interfaces.Name i = "" \/ interfaces.Version i = "" \/
        interfaces.ChannelType i = "" \/ interfaces.Capabilities i = [])) /\
  (forall pluginPath channelID w ch p r,
     lookup_channel (LoadPlugin pluginPath channelID w).2 ch = Some (Some p) ->
     heap (LoadPlugin pluginPath channelID w).2 !! p = Some r ->
     (lookup_channel w ch = Some (Some p) /\ heap w !! p = Some r) \/
     validatePluginInfo (Info r) = None).
Proof.
  split; [exact validatePluginInfo_fails|].
  intros pluginPath channelID w ch p r Hch Hr.
  destruct (LoadPlugin_effect pluginPath channelID w) as [Hpl [[Hm Hh]|Hnew]].
  - left. unfold lookup_channel in *. rewrite Hpl, Hm in Hch. by rewrite <- Hh.
  - destruct Hnew as (ps & r0 & Hps & Hfree & Hvalid & _ & _ & _ & _ & Hh & Hm & _).
    apply lookup_channel_Some in Hch as (ps' & Hps' & Hp).
    rewrite Hpl, Hm, list_lookup_insert_eq in Hps' by eauto using lookup_lt_Some.
    injection Hps' as <-. rewrite Hh in Hr.
    destruct (decide (p < length (heap w))%nat) as [Hlt|Hge].
    + rewrite lookup_app_l in Hr by done.
      destruct (decide (ch = channelID)) as [->|Hne].
      * rewrite lookup_insert_eq in Hp. injection Hp as <-. lia.
      * rewrite lookup_insert_ne in Hp by done. left. split; [|done].
        apply lookup_channel_Some. eauto.
    + right. rewrite lookup_app_r in Hr by lia.
      destruct (p - length (heap w))%nat; simpl in Hr; [|done].
      by injection Hr as <-.
Qed.

(** ** A channel that is registered or is not *)

(** C3. When [channelID] is registered, [LoadPlugin] with that channel
    and any path returns the already-loaded error and leaves the whole
    world as it was: no record is replaced, changed or added. *)
Theorem LoadPlugin_twice_rejected pluginPath channelID w p :
  idle w = true ->
  lookup_channel w channelID = Some (Some p) ->
  LoadPlugin pluginPath channelID w = (Returns (Some (AlreadyLoaded channelID)), w).
Proof.
  intros Hidle%idle_Free (ps & Hps & Hp)%lookup_channel_Some.
  destruct w as [[m mu] ms h t d cs]. simpl in *. subst mu.
  go_unfold. by rewrite Hps, Hp.
Qed.

(** C5. On a channel that is not registered, [GetPlugin],
    [UnloadPlugin], [ReloadPlugin] and [GetPluginInfo] each return the
    not-found error and leave the whole world as it was. *)
Theorem absent_channel_NotFound channelID w :
  idle w = true ->
  lookup_channel w channelID = Some None ->
  GetPlugin channelID w = (Returns (None, Some (NotFound channelID)), w) /\
  UnloadPlugin channelID w = (Returns (Some (NotFound channelID)), w) /\
  ReloadPlugin channelID w = (Returns (Some (NotFound channelID)), w) /\
  GetPluginInfo channelID w = (Returns (None, Some (NotFound channelID)), w).
Proof.
  intros Hidle%idle_Free (ps & Hps & Hp)%lookup_channel_Some.
  destruct w as [[m mu] ms h t d cs]. simpl in *. subst mu.
  repeat split; go_unfold; by rewrite Hps, Hp.
Qed.

Lemma LoadPlugin_metadata_gate_witness :
  lookup_channel (LoadPlugin "/plugins/mock.so" "mock" (with_clock 100 fresh_world)).2 "mock"
    = Some (Some 0%nat) /\
  heap (LoadPlugin "/plugins/mock.so" "mock" (with_clock 100 fresh_world)).2 !! 0%nat
    = Some mock_record /\
  ((lookup_channel (with_clock 100 fresh_world) "mock" = Some (Some 0%nat) /\
    heap (with_clock 100 fresh_world) !! 0%nat = Some mock_record) \/
   validatePluginInfo (Info mock_record) = None).
Proof.
  split; [reflexivity|]. split; [reflexivity|].
  apply (proj2 LoadPlugin_metadata_gate "/plugins/mock.so" "mock"
           (with_clock 100 fresh_world) "mock" 0%nat mock_record); reflexivity.
Defined.

Lemma LoadPlugin_twice_rejected_witness :
  idle mock_world = true /\
  lookup_channel mock_world "mock" = Some (Some 0%nat) /\
  LoadPlugin "/plugins/other.so" "mock" mock_world
    = (Returns (Some (AlreadyLoaded "mock")), mock_world).
Proof.
  split; [reflexivity|]. split; [reflexivity|].
  apply (LoadPlugin_twice_rejected "/plugins/other.so" "mock" mock_world 0%nat); reflexivity.
Defined.

Lemma absent_channel_NotFound_witness :
  idle mock_world = true /\
  lookup_channel mock_world "non_existent" = Some None /\
  GetPlugin "non_existent" mock_world
    = (Returns (None, Some (NotFound "non_existent")), mock_world) /\
  UnloadPlugin "non_existent" mock_world
    = (Returns (Some (NotFound "non_existent")), mock_world) /\
  ReloadPlugin "non_existent" mock_world
    = (Returns (Some (NotFound "non_existent")), mock_world) /\
  GetPluginInfo "non_existent" mock_world
    = (Returns (None, Some (NotFound "non_existent")), mock_world).
Proof.
  split; [reflexivity|]. split; [reflexivity|].
  apply (absent_channel_NotFound "non_existent" mock_world); reflexivity.
Defined.

(** After a successful [UnloadPlugin] the channel is absent again, so
    the four operations above fail on it as on a channel never loaded. *)
Lemma UnloadPlugin_removes channelID w p :
  idle w = true ->
  lookup_channel w channelID = Some (Some p) ->
  exists w', UnloadPlugin channelID w = (Returns None, w') /\
    idle w' = true /\ heap w' = heap w /\
    lookup_channel w' channelID = Some None /\
    forall ch, ch <> channelID -> lookup_channel w' ch = lookup_channel w ch.
Proof.
  intros Hidle%idle_Free (ps & Hps & Hp)%lookup_channel_Some.
  destruct w as [[m mu] ms h t d cs]. simpl in *. subst mu.
  go_unfold. rewrite Hps, Hp. go_reduce. rewrite Hps. go_reduce.
  eexists. split; [done|]. unfold lookup_channel. cbn [pl maps plugins mutex heap idle].
  rewrite list_lookup_insert_eq by eauto using lookup_lt_Some. cbn [fmap option_fmap option_map].
  repeat split; [by rewrite lookup_delete_eq|].
  intros ch Hne. by rewrite Hps, lookup_delete_ne.
Qed.

(** ** The loops over the registry *)

(** The loop of [ListPlugins] leaves in [result] every entry of the
    registry on top of what [result] held. *)
Lemma ListPlugins_loop (result : mapref) (ps : gmap string loc) :
  forall w (acc : gmap string loc),
    maps w !! result = Some acc ->
    map_fold (fun k v before => before ;; map_assign result k v) (ret tt) ps w
    = (Returns tt, with_maps (<[result := ps ∪ acc]> (maps w)) w).
Proof.
  apply (map_fold_weak_ind (fun (r : Go unit) (ps : gmap string loc) =>
    forall w (acc : gmap string loc), maps w !! result = Some acc ->
      r w = (Returns tt, with_maps (<[result := ps ∪ acc]> (maps w)) w))).
  - intros w acc Hacc. unfold ret. rewrite (left_id_L ∅ (∪)).
    rewrite list_insert_id by done. by destruct w.
  - intros k v ps' r Hk IH w acc Hacc. unfold bind. rewrite (IH w acc Hacc).
    unfold map_assign. simpl.
    rewrite list_lookup_insert_eq by eauto using lookup_lt_Some.
    by rewrite list_insert_insert_eq, insert_union_l.
Qed.

(** [ListPlugins] allocates one map, fills it with the entries of the
    registry, and returns it. *)
Lemma ListPlugins_copies w (ps : gmap string loc) :
  idle w = true ->
  maps w !! plugins (pl w) = Some ps ->
  ListPlugins w = (Returns (length (maps w)), with_maps (maps w ++ [ps]) w).
Proof.
  intros Hidle%idle_Free Hps.
  assert (Hloop := ListPlugins_loop (length (maps w)) ps
            (with_maps (maps w ++ [∅]) (with_mutex (Readers 1) w)) ∅).
  destruct w as [[m mu] ms h t d cs]. cbn [pl maps plugins mutex heap] in *. subst mu.
  specialize (Hloop (list_lookup_middle _ _ _ _ eq_refl)).
  unfold ListPlugins, map_range, RLock, RUnlock, this, make_map, map_entries.
  cbv beta iota zeta delta [bind defer ret with_mutex with_maps pl maps heap clock disk calls
    plugins mutex] in Hloop |- *.
  rewrite lookup_app_l by eauto using lookup_lt_Some. rewrite Hps, Hloop.
  rewrite (right_id_L ∅ (∪)).
  by rewrite insert_app_r_alt, Nat.sub_diag by lia.
Qed.

Lemma answered_later w w1 w2 i a c :
  calls w2 = (calls w1 ++ [c])%list -> answered w w1 i a -> answered w w2 i a.
Proof.
  intros Hc (n & Hn & Hcall & Ha). exists n. repeat split; [done| |done].
  rewrite Hc. by apply lookup_app_l_Some.
Qed.

Lemma answered_now w w1 w2 i :
  (length (calls w) <= length (calls w1))%nat ->
  calls w2 = (calls w1 ++ [CallGetInfo i])%list ->
  answered w w2 i (interfaces.GetInfo i (length (calls w1))).
Proof.
  intros Hlen Hc. exists (length (calls w1)). repeat split; [done|].
  rewrite Hc. by apply list_lookup_middle.
Qed.

(** The loop of [HealthCheck] over live cells asks every instance in
    turn.  It returns one flag per entry, each decided by the answer of
    the instance in that entry's cell, unless one of the instances
    panics: the panic ends the loop. *)
Lemma HealthCheck_loop (ps : gmap string loc) :
  forall w,
    (forall channelID p, ps !! channelID = Some p ->
       exists r i, heap w !! p = Some r /\ Instance r = Some i) ->
    exists out w',
      map_fold HealthCheck_turn (ret ∅) ps w = (out, w') /\
      calls_only w w' /\ mutex (pl w') = mutex (pl w) /\
      (length (calls w) <= length (calls w'))%nat /\
      match out with
      | Returns health =>
          (forall channelID, is_Some (health !! channelID) <-> is_Some (ps !! channelID)) /\
          (forall channelID p r i,
             ps !! channelID = Some p -> heap w !! p = Some r -> Instance r = Some i ->
             exists info, answered w w' i (interfaces.Returned info) /\
                          health !! channelID = Some (not_nil info))
      | Panics msg =>
          exists channelID p r i,
            ps !! channelID = Some p /\ heap w !! p = Some r /\ Instance r = Some i /\
            answered w w' i (interfaces.Panicked msg)
      | Blocks => False
      end.
Proof.
  apply (map_fold_weak_ind (fun (run : Go (gmap string bool)) (ps : gmap string loc) =>
    forall w,
      (forall channelID p, ps !! channelID = Some p ->
         exists r i, heap w !! p = Some r /\ Instance r = Some i) ->
      exists out w',
        run w = (out, w') /\
        calls_only w w' /\ mutex (pl w') = mutex (pl w) /\
        (length (calls w) <= length (calls w'))%nat /\
        match out with
        | Returns health =>
            (forall channelID, is_Some (health !! channelID) <-> is_Some (ps !! channelID)) /\
            (forall channelID p r i,
               ps !! channelID = Some p -> heap w !! p = Some r -> Instance r = Some i ->
               exists info, answered w w' i (interfaces.Returned info) /\
                            health !! channelID = Some (not_nil info))
        | Panics msg =>
            exists channelID p r i,
              ps !! channelID = Some p /\ heap w !! p = Some r /\ Instance r = Some i /\
              answered w w' i (interfaces.Panicked msg)
        | Blocks => False
        end)).
  - intros w _. exists (Returns ∅), w. repeat split; try done.
    + intros [? H]. by rewrite lookup_empty in H.
    + intros [? H]. by rewrite lookup_empty in H.
  - intros k p ps' run Hk IH w Hlive.
    destruct (IH w)
      as (out & w1 & Hrun & (Hpl & Hmaps & Hheap & Hclock & Hdisk) & Hmu & Hlen & Hout).
    { intros ch q Hq. apply (Hlive ch q).
      rewrite lookup_insert_ne; [done | intros ->; congruence]. }
    destruct (Hlive k p) as (rec & i & Hrec & Hi); [by rewrite lookup_insert_eq|].
    unfold HealthCheck_turn, bind at 1. rewrite Hrun.
    destruct out as [health|msg|]; [| |done].
    + unfold bind, deref, call_GetInfo, ret. rewrite Hheap, Hrec, Hi.
      pose proof (answered_now w w1 (with_call (CallGetInfo i) w1) i Hlen eq_refl) as Hnow.
      destruct Hout as [Hdom Hflags].
      destruct (interfaces.GetInfo i (length (calls w1))) as [info|msg].
      * eexists _, _. split; [done|]. split; [by repeat split|]. split; [done|].
        split; [cbn [calls with_call]; rewrite length_app; lia|]. split.
        -- intros ch. destruct (decide (ch = k)) as [->|Hne].
           ++ rewrite !lookup_insert_eq. split; eauto.
           ++ rewrite !lookup_insert_ne by done. apply Hdom.
        -- intros ch q r j Hq Hr Hj. destruct (decide (ch = k)) as [->|Hne].
           ++ rewrite lookup_insert_eq in Hq. injection Hq as <-.
              rewrite Hrec in Hr. injection Hr as <-. rewrite Hi in Hj. injection Hj as <-.
              exists info. split; [done|]. by rewrite lookup_insert_eq.
           ++ rewrite lookup_insert_ne in Hq by done.
              destruct (Hflags ch q r j Hq Hr Hj) as (info' & Hans & Hflag).
              exists info'. split; [by eapply answered_later|].
              by rewrite lookup_insert_ne.
      * eexists _, _. split; [done|]. split; [by repeat split|]. split; [done|].
        split; [cbn [calls with_call]; rewrite length_app; lia|].
        exists k, p, rec, i. by rewrite lookup_insert_eq.
    + destruct Hout as (ch & q & r & j & Hq & Hr & Hj & Hans).
      eexists _, _. split; [done|]. split; [by repeat split|]. split; [done|].
      split; [done|]. exists ch, q, r, j. repeat split; try done.
      rewrite lookup_insert_ne; [done | intros ->; congruence].
Qed.

(** [HealthCheck] around its loop: the read lock is taken and, whether
    the loop returns or panics, released. *)
Lemma HealthCheck_runs_loop w (ps : gmap string loc) out w1 :
  mutex (pl w) = Free ->
  maps w !! plugins (pl w) = Some ps ->
  map_fold HealthCheck_turn (ret ∅) ps (with_mutex (Readers 1) w) = (out, w1) ->
  mutex (pl w1) = Readers 1 ->
  out <> Blocks ->
  HealthCheck w = (out, with_mutex Free w1).
Proof.
  intros Hidle Hps Hloop Hmu Hout.
  unfold HealthCheck. unfold bind at 1. unfold RLock. rewrite Hidle.
  unfold defer. unfold bind at 1. unfold this. unfold bind at 1. unfold map_entries.
  replace (maps (with_mutex (Readers 1) w) !! plugins (pl (with_mutex (Readers 1) w)))
    with (Some ps) by (by destruct w as [[? ?] ? ? ? ? ?]).
  rewrite Hloop. unfold RUnlock. rewrite Hmu. by destruct out.
Qed.

(** ** HealthCheck *)



(** The sweep of P6: "mute" is reported dead, "mock" alive, in one call. *)
Example HealthCheck_two_channels :
  (fun health : gmap string bool => (health !! "mock", health !! "mute", health !! "other"))
    <$> match (HealthCheck sweep_world).1 with Returns health => Some health | _ => None end
  = Some (Some true, Some false, None).
Proof. reflexivity. Qed.


(** ** GetPlugin on a registered channel *)

Lemma GetPlugin_registered channelID w p r :
  idle w = true ->
  lookup_channel w channelID = Some (Some p) ->
  heap w !! p = Some r ->
  GetPlugin channelID w =
    (Returns (Instance r, None),
     with_heap (<[p := set_UsageCount (wrap64 (UsageCount r + 1))
                          (set_LastUsed (clock w) r)]> (heap w)) w).
Proof.
  intros Hidle%idle_Free (ps & Hps & Hp)%lookup_channel_Some Hr.
  destruct w as [[m mu] ms h t d cs]. cbn [pl maps plugins mutex heap clock] in *. subst mu.
  assert (Hlt : (p < length h)%nat) by eauto using lookup_lt_Some.
  go_unfold. rewrite Hps, Hp. go_reduce.
  repeat (first [rewrite Hr | rewrite list_lookup_insert_eq by (by rewrite ?length_insert)];
          go_reduce).
  by rewrite list_insert_insert_eq.
Qed.

(** ** Introspection *)

Lemma GetPluginInfo_reads_only channelID w :
  idle w = true -> consistent w = true ->
  (GetPluginInfo channelID w).1 <> Blocks /\
  calls_only w (GetPluginInfo channelID w).2 /\
  idle (GetPluginInfo channelID w).2 = true.
Proof.
  intros Hidle%idle_Free (ps & Hps & Hlive)%consistent_spec.
  destruct w as [[m mu] ms h t d cs]. cbn [pl maps plugins mutex heap clock] in *. subst mu.
  go_unfold. rewrite Hps. go_reduce.
  destruct (ps !! channelID) as [p|] eqn:Hp; go_reduce; [|done].
  destruct (Hlive _ _ Hp) as (r & i & Hr & Hi). rewrite Hr. go_reduce. rewrite Hi. go_reduce.
  by destruct (interfaces.GetInfo i (length cs)).
Qed.

Lemma HealthCheck_reads_only w :
  idle w = true -> consistent w = true ->
  (HealthCheck w).1 <> Blocks /\
  calls_only w (HealthCheck w).2 /\
  idle (HealthCheck w).2 = true.
Proof.
  intros Hidle%idle_Free (ps & Hps & Hlive)%consistent_spec.
  destruct (HealthCheck_loop ps (with_mutex (Readers 1) w))
    as (out & w1 & Hloop & (Hpl & Hmaps & Hheap & Hclock & Hdisk) & Hmu & _ & Hout).
  { intros ch p Hp. destruct w. exact (Hlive ch p Hp). }
  rewrite (HealthCheck_runs_loop w ps out w1);
    [|done|done|done|by rewrite Hmu|by destruct out].
  cbn [fst snd]. split; [by destruct out|].
  destruct w as [[m mu] ms h t d cs], w1 as [[m1 mu1] ms1 h1 t1 d1 cs1].
  cbn in *. injection Hpl as -> _. by subst.
Qed.

Lemma calls_only_same_registry w w' : calls_only w w' -> same_registry w w'.
Proof. intros (Hpl & Hmaps & Hheap & _). unfold same_registry. by rewrite Hpl, Hmaps, Hheap. Qed.

Lemma ListPlugins_same_registry w (ps : gmap string loc) :
  idle w = true ->
  maps w !! plugins (pl w) = Some ps ->
  same_registry w (with_maps (maps w ++ [ps]) w).
Proof.
  intros _ Hps. repeat split. cbn [maps with_maps pl].
  by rewrite lookup_app_l by eauto using lookup_lt_Some.
Qed.

(** No operation but [GetPlugin] writes to a cell that exists:
    [LoadPlugin] appends, [UnloadPlugin] and [ReloadPlugin] only change
    the map. *)
Lemma structural_operations_keep_cells pluginPath channelID w p r :
  heap w !! p = Some r ->
  heap (LoadPlugin pluginPath channelID w).2 !! p = Some r /\
  heap (UnloadPlugin channelID w).2 !! p = Some r /\
  heap (ReloadPlugin channelID w).2 !! p = Some r.
Proof.
  intros Hr. split; [|split].
  - destruct (LoadPlugin_effect pluginPath channelID w) as [_ [[_ ->]|Hnew]]; [done|].
    destruct Hnew as (? & ? & _ & _ & _ & _ & _ & _ & _ & -> & _).
    by apply lookup_app_l_Some.
  - destruct w as [[m mu] ms h t d cs]. cbn [heap] in Hr. go_unfold.
    destruct mu; go_reduce; try done.
    destruct (ms !! m) as [ps|] eqn:Hps; go_reduce; [|done].
    destruct (ps !! channelID); go_reduce; [|done].
    by rewrite Hps.
  - destruct w as [[m mu] ms h t d cs]. cbn [heap] in Hr. go_unfold.
    destruct mu; go_reduce; try done.
    destruct (ms !! m) as [ps|] eqn:Hps; go_reduce; [|done].
    destruct (ps !! channelID) as [q|]; go_reduce; [|done].
    rewrite Hps. go_reduce. by destruct (h !! q).
Qed.

(** C10. On an idle, consistent loader [GetPluginInfo], [ListPlugins]
    and [HealthCheck] end, whether the module code they call returns or
    panics, and leave the loader, the entries of its map and every cell
    (path, instance, info, load time, last use and usage count) as they
    were; [LoadPlugin], [UnloadPlugin] and
    [ReloadPlugin] never write to an existing cell; [GetPlugin] on a
    registered channel does: it is the one operation that changes
    [LastUsed] and [UsageCount]. *)
Theorem introspection_reads_only channelID w :
  idle w = true ->
  consistent w = true ->
  ((GetPluginInfo channelID w).1 <> Blocks /\
   same_registry w (GetPluginInfo channelID w).2) /\
  (exists snap w', ListPlugins w = (Returns snap, w') /\ same_registry w w') /\
  ((HealthCheck w).1 <> Blocks /\ same_registry w (HealthCheck w).2) /\
  (forall pluginPath p r, heap w !! p = Some r ->
     heap (LoadPlugin pluginPath channelID w).2 !! p = Some r /\
     heap (UnloadPlugin channelID w).2 !! p = Some r /\
     heap (ReloadPlugin channelID w).2 !! p = Some r) /\
  (forall p r, lookup_channel w channelID = Some (Some p) -> heap w !! p = Some r ->
     exists w', GetPlugin channelID w = (Returns (Instance r, None), w') /\
       LastUsed <$> heap w' !! p = Some (clock w) /\
       UsageCount <$> heap w' !! p = Some (wrap64 (UsageCount r + 1))).
Proof.
  intros Hidle Hcons.
  destruct (GetPluginInfo_reads_only channelID w Hidle Hcons) as (Hinfo & Hinfo' & _).
  destruct (HealthCheck_reads_only w Hidle Hcons) as (Hhealth & Hhealth' & _).
  split; [by eauto using calls_only_same_registry|].
  split; [|split; [by eauto using calls_only_same_registry|]].
  { destruct (proj1 (consistent_spec w) Hcons) as (ps & Hps & _).
    eexists _, _. split; [by apply ListPlugins_copies|]. by eapply ListPlugins_same_registry. }
  repeat split.
  - by apply structural_operations_keep_cells.
  - by apply structural_operations_keep_cells.
  - by apply structural_operations_keep_cells.
  - intros p r Hp Hr. eexists. split; [by apply GetPlugin_registered|].
    cbn [heap with_heap]. by rewrite list_lookup_insert_eq by eauto using lookup_lt_Some.
Qed.

Lemma introspection_reads_only_witness :
  idle mock_world = true /\
  consistent mock_world = true /\
  ((GetPluginInfo "mock" mock_world).1 <> Blocks /\
   same_registry mock_world (GetPluginInfo "mock" mock_world).2) /\
  (exists snap w', ListPlugins mock_world = (Returns snap, w') /\
     same_registry mock_world w') /\
  ((HealthCheck mock_world).1 <> Blocks /\
   same_registry mock_world (HealthCheck mock_world).2) /\
  (forall pluginPath p r, heap mock_world !! p = Some r ->
     heap (LoadPlugin pluginPath "mock" mock_world).2 !! p = Some r /\
     heap (UnloadPlugin "mock" mock_world).2 !! p = Some r /\
     heap (ReloadPlugin "mock" mock_world).2 !! p = Some r) /\
  (forall p r, lookup_channel mock_world "mock" = Some (Some p) ->
     heap mock_world !! p = Some r ->
     exists w', GetPlugin "mock" mock_world = (Returns (Instance r, None), w') /\
       LastUsed <$> heap w' !! p = Some (clock mock_world) /\
       UsageCount <$> heap w' !! p = Some (wrap64 (UsageCount r + 1))).
Proof.
  split; [reflexivity|]. split; [reflexivity|].
  apply (introspection_reads_only "mock" mock_world); reflexivity.
Defined.

(** ** The value returned by ListPlugins *)

(** The claim that no mutation of the returned value reaches the
    registry fails for a write through one of the returned pointers:
    the map is copied, the records are not.  After
    [snap := pl.ListPlugins(); *snap["mock"] = r] the registry's own
    record of "mock" is [r]. *)
Lemma ListPlugins_record_write_reaches_registry :
  idle mock_world = true /\
  consistent mock_world = true /\
  exists snap w1 w2,
    ListPlugins mock_world = (Returns snap, w1) /\
    mutate snap (WriteRecord "mock" (set_UsageCount 99 mock_record)) w1 = (Returns tt, w2) /\
    UsageCount <$> record_of w1 "mock" = Some 0 /\
    UsageCount <$> record_of w2 "mock" = Some 99 /\
    ~ same_registry w1 w2.
Proof.
  split; [reflexivity|]. split; [reflexivity|].
  eexists _, _, _. split; [reflexivity|]. split; [reflexivity|].
  split; [reflexivity|]. split; [reflexivity|].
  intros (_ & Hheap & _).
  apply (f_equal (fun h : list LoadedPlugin => UsageCount <$> h !! 0%nat)) in Hheap.
  vm_compute in Hheap. discriminate.
Qed.

(** C8, amended. [ListPlugins] returns a map of its own, distinct from
    the registry's, holding the same entries: setting, replacing or
    deleting entries of the returned map leaves the loader, the entries
    of its map and every cell as they were.  The entries are the
    registry's own pointers; writes through them are not covered. *)
Theorem ListPlugins_copies_the_map w (ps : gmap string loc) :
  idle w = true ->
  maps w !! plugins (pl w) = Some ps ->
  exists snap w1,
    ListPlugins w = (Returns snap, w1) /\
    same_registry w w1 /\
    snap <> plugins (pl w1) /\
    maps w1 !! snap = Some ps /\
    (forall k v, exists w2,
       mutate snap (SetEntry k v) w1 = (Returns tt, w2) /\ same_registry w1 w2) /\
    (forall k, exists w2,
       mutate snap (DeleteEntry k) w1 = (Returns tt, w2) /\ same_registry w1 w2).
Proof.
  intros Hidle Hps.
  assert (Hlt : (plugins (pl w) < length (maps w))%nat) by eauto using lookup_lt_Some.
  eexists _, _. split; [by apply ListPlugins_copies|].
  split; [by eapply ListPlugins_same_registry|].
  cbn [pl with_maps maps]. split; [lia|].
  split; [by apply list_lookup_middle|].
  assert (Hsnap : (maps w ++ [ps])%list !! length (maps w) = Some ps)
    by (by apply list_lookup_middle).
  split; intros; eexists; (split;
    [ unfold mutate, map_assign, map_delete; cbn [maps with_maps]; by rewrite Hsnap
    | repeat split; cbn [pl with_maps maps]; rewrite list_lookup_insert_ne by lia; done ]).
Qed.

Lemma ListPlugins_copies_the_map_witness :
  idle mock_world = true /\
  maps mock_world !! plugins (pl mock_world) = Some (<["mock" := 0%nat]> ∅) /\
  exists snap w1,
    ListPlugins mock_world = (Returns snap, w1) /\
    same_registry mock_world w1 /\
    snap <> plugins (pl w1) /\
    maps w1 !! snap = Some (<["mock" := 0%nat]> ∅) /\
    (forall k v, exists w2,
       mutate snap (SetEntry k v) w1 = (Returns tt, w2) /\ same_registry w1 w2) /\
    (forall k, exists w2,
       mutate snap (DeleteEntry k) w1 = (Returns tt, w2) /\ same_registry w1 w2).
Proof.
  split; [reflexivity|]. split; [reflexivity|].
  apply (ListPlugins_copies_the_map mock_world (<["mock" := 0%nat]> ∅)); reflexivity.
Defined.

(** ** ReloadPlugin *)

(** [ReloadPlugin] calls [LoadPlugin] while it holds the write lock;
    [LoadPlugin] starts by taking the same lock.  On a registered
    channel the call never comes back: the goroutine is parked with the
    record already deleted and the mutex still held. *)
Lemma ReloadPlugin_registered_blocks channelID w p r :
  idle w = true ->
  lookup_channel w channelID = Some (Some p) ->
  heap w !! p = Some r ->
  exists w',
    ReloadPlugin channelID w = (Blocks, w') /\
    mutex (pl w') = Writer /\
    lookup_channel w' channelID = Some None /\
    heap w' = heap w /\ calls w' = calls w.
Proof.
  intros Hidle%idle_Free (ps & Hps & Hp)%lookup_channel_Some Hr.
  destruct w as [[m mu] ms h t d cs]. cbn [pl maps plugins mutex heap clock] in *. subst mu.
  go_unfold. rewrite Hps, Hp. go_reduce. rewrite Hps. go_reduce. rewrite Hr. go_reduce.
  eexists. split; [done|]. unfold lookup_channel. cbn [pl maps plugins mutex heap calls].
  rewrite list_lookup_insert_eq by eauto using lookup_lt_Some.
  cbn [fmap option_fmap option_map]. by rewrite lookup_delete_eq.
Qed.

(** C4, on the code: reloading the registered channel "mock" does not
    return.  The goroutine blocks in the inner [Lock]; "mock" is no
    longer registered, nothing was loaded in its place (no call left the
    loader), and the write lock stays held, so that a later
    [ListPlugins] blocks as well. *)
Theorem ReloadPlugin_deadlocks :
  lookup_channel mock_world "mock" = Some (Some 0%nat) /\
  (ReloadPlugin "mock" mock_world).1 = Blocks /\
  lookup_channel (ReloadPlugin "mock" mock_world).2 "mock" = Some None /\
  mutex (pl (ReloadPlugin "mock" mock_world).2) = Writer /\
  calls (ReloadPlugin "mock" mock_world).2 = calls mock_world /\
  (ListPlugins (ReloadPlugin "mock" mock_world).2).1 = Blocks.
Proof. by repeat split. Qed.

(** ** A factory that returns nil *)

(** [LoadPlugin] calls the factory once and calls [GetInfo] on what it
    got: with a nil instance the call panics; the deferred [Unlock]
    runs and nothing is registered. *)
Lemma LoadPlugin_nil_instance_panics pluginPath channelID w so newPlugin :
  idle w = true ->
  lookup_channel w channelID = Some None ->
  disk w pluginPath = inl so ->
  dl.syms so "NewPlugin" = Some (dl.Factory newPlugin) ->
  newPlugin tt = None ->
  LoadPlugin pluginPath channelID w =
    (Panics nil_dereference,
     with_call (CallNewPlugin (dl.pluginpath so))
       (with_call (CallLookup (dl.pluginpath so) "NewPlugin")
          (with_call (CallOpen pluginPath) w))).
Proof.
  intros Hidle%idle_Free (ps & Hps & Hp)%lookup_channel_Some Hdisk Hsym Hnil.
  destruct w as [[m mu] ms h t d cs]. cbn [pl maps plugins mutex heap clock disk] in *.
  subst mu. go_unfold. rewrite Hps, Hp. go_reduce. rewrite Hdisk. go_reduce.
  unfold dl.Lookup. rewrite Hsym. go_reduce. by rewrite Hnil.
Qed.

(** C6, on the code: loading "/plugins/nil.so", whose factory returns
    nil, does not return an error.  The factory is called once, then
    [GetInfo] is called on the nil instance and the goroutine panics;
    the registry stays empty. *)
Theorem LoadPlugin_nil_instance :
  LoadPlugin "/plugins/nil.so" "nil" fresh_world =
    (Panics nil_dereference,
     with_call (CallNewPlugin "/plugins/nil.so")
       (with_call (CallLookup "/plugins/nil.so" "NewPlugin")
          (with_call (CallOpen "/plugins/nil.so") fresh_world))) /\
  channels (LoadPlugin "/plugins/nil.so" "nil" fresh_world).2 = Some [].
Proof. by split. Qed.

(** ** Calls of GetPlugin one after the other *)

Lemma wrap64_small z : - 2 ^ 63 <= z < 2 ^ 63 -> wrap64 z = z.
Proof. intros H. unfold wrap64. rewrite Z.mod_small; lia. Qed.

Lemma wrap64_add_l a b : wrap64 (wrap64 a + b) = wrap64 (a + b).
Proof.
  unfold wrap64. f_equal.
  replace ((a + 2 ^ 63) mod 2 ^ 64 - 2 ^ 63 + b + 2 ^ 63)
    with ((a + 2 ^ 63) mod 2 ^ 64 + b) by lia.
  rewrite Zplus_mod_idemp_l. f_equal. lia.
Qed.

Lemma wrap64_range z : - 2 ^ 63 <= wrap64 z < 2 ^ 63.
Proof. unfold wrap64. pose proof (Z.mod_pos_bound (z + 2 ^ 63) (2 ^ 64)). lia. Qed.

Lemma last_cons_default (ts : list Z) : forall t d, List.last (t :: ts) d = List.last ts t.
Proof.
  induction ts as [|t' ts IH]; intros t d; [done|].
  change (List.last (t :: t' :: ts) d) with (List.last (t' :: ts) d).
  by rewrite !IH.
Qed.

(** [k] calls in a row on a registered channel all return the stored
    instance; the count has grown by [k] (as an [int64]) and [LastUsed]
    is the time of the last call. *)
Lemma GetPlugin_each_registered channelID ts : forall w p r,
  idle w = true ->
  lookup_channel w channelID = Some (Some p) ->
  heap w !! p = Some r ->
  - 2 ^ 63 <= UsageCount r < 2 ^ 63 ->
  exists w',
    GetPlugin_each channelID ts w
      = (Returns (replicate (length ts) (Instance r, None)), w') /\
    idle w' = true /\
    lookup_channel w' channelID = Some (Some p) /\
    heap w' !! p =
      Some (set_UsageCount (wrap64 (UsageCount r + Z.of_nat (length ts)))
              (set_LastUsed (List.last ts (LastUsed r)) r)).
Proof.
  induction ts as [|t ts IH]; intros w p r Hidle Hp Hr Hrange.
  - exists w. cbn [GetPlugin_each length replicate List.last]. unfold ret.
    repeat split; try done. rewrite Hr, Z.add_0_r, wrap64_small by done.
    by destruct r.
  - set (r1 := set_UsageCount (wrap64 (UsageCount r + 1)) (set_LastUsed t r)).
    set (w1 := with_heap (<[p := r1]> (heap w)) (with_clock t w)).
    destruct (IH w1 p r1) as (w' & Hrun & Hidle' & Hp' & Hr').
    + by destruct w as [[? ?] ? ? ? ? ?].
    + by destruct w as [[? ?] ? ? ? ? ?].
    + subst w1. cbn [heap with_heap]. apply list_lookup_insert_eq. eauto using lookup_lt_Some.
    + apply wrap64_range.
    + exists w'. split; [|split; [done|split; [done|]]].
      * cbn [GetPlugin_each]. unfold bind at 1. unfold clock_shows.
        unfold bind at 1. rewrite (GetPlugin_registered channelID (with_clock t w) p r);
          [| by destruct w as [[? ?] ? ? ? ? ?] ..].
        unfold bind at 1. fold r1. change (with_heap _ (with_clock t w)) with w1.
        by rewrite Hrun.
      * rewrite Hr'. f_equal. subst r1. cbn [UsageCount LastUsed set_UsageCount set_LastUsed
          Path Plugin Instance Info LoadedAt].
        rewrite wrap64_add_l, last_cons_default. unfold set_UsageCount, set_LastUsed. cbn.
        do 2 f_equal. cbn [length]. lia.
Qed.

(** P3 for serial calls: on a record with count 0, [k] calls (fewer
    than 2^63) leave the count at [k] and [LastUsed] at the time of the
    last of them. *)
Lemma GetPlugin_each_fresh channelID t ts w p r :
  idle w = true ->
  lookup_channel w channelID = Some (Some p) ->
  heap w !! p = Some r ->
  UsageCount r = 0 ->
  Z.of_nat (length (t :: ts)) < 2 ^ 63 ->
  exists w',
    GetPlugin_each channelID (t :: ts) w
      = (Returns (replicate (length (t :: ts)) (Instance r, None)), w') /\
    UsageCount <$> record_of w' channelID = Some (Z.of_nat (length (t :: ts))) /\
    LastUsed <$> record_of w' channelID = Some (List.last ts t).
Proof.
  intros Hidle Hp Hr Hzero Hk.
  destruct (GetPlugin_each_registered channelID (t :: ts) w p r) as (w' & Hrun & _ & Hp' & Hr');
    [done | done | done | rewrite Hzero; lia |].
  exists w'. split; [done|]. unfold record_of. rewrite Hp', Hr'. cbn [fmap option_fmap option_map
    UsageCount LastUsed set_UsageCount set_LastUsed].
  rewrite Hzero, Z.add_0_l, wrap64_small, last_cons_default by lia. done.
Qed.

(** ** Goroutines inside GetPlugin *)

(** A goroutine that runs its eight steps alone does what the
    sequential [GetPlugin] does. *)
Lemma GetPlugin_steps_alone channelID w result w' :
  GetPlugin_steps 8 channelID AtRLock w = (Returns (Finished result), w') <->
  GetPlugin channelID w = (Returns result, w').
Proof.
  destruct w as [[m mu] ms h t d cs].
  cbv beta iota zeta delta [GetPlugin_steps]. go_unfold.
  repeat (let H := fresh "H" in go_case H).
  all: split; intros [=]; subst; done.
Qed.

(** C2, on the code: two goroutines call [GetPlugin("mock")] on the
    record loaded with count 0.  Goroutine 0 takes its timestamp (102),
    goroutine 1 takes a later one (105) and stores it, then goroutine 0
    stores the older one; both load count 0 before either stores.  Both
    calls succeed, and the record ends with [UsageCount = 1] and
    [LastUsed = 102]. *)
Theorem GetPlugin_concurrent_bookkeeping :
  UsageCount <$> record_of mock_world "mock" = Some 0 /\
  snd <$> schedule "mock" [0; 0; 0; 1; 1; 1]%nat (mock_world, goroutines 2)
    = Some [AtStoreLastUsed 0%nat 102; AtStoreLastUsed 0%nat 105] /\
  exists w',
    schedule "mock" [0; 0; 0; 1; 1; 1; 1; 1; 0; 0; 1; 1; 1; 0; 0; 0]%nat
      (mock_world, goroutines 2)
    = Some (w', [Finished (Instance mock_record, None);
                 Finished (Instance mock_record, None)]) /\
    idle w' = true /\
    UsageCount <$> record_of w' "mock" = Some 1 /\
    LastUsed <$> record_of w' "mock" = Some 102.
Proof.
  split; [reflexivity|]. split; [vm_compute; reflexivity|].
  eexists. split; [vm_compute; reflexivity|]. by repeat split.
Qed.

(** C9, on the code: three goroutines call [GetPlugin("mock")]; each
    loads the count before any of them stores it.  All three calls
    succeed and the count has grown by one, not by three. *)
Theorem GetPlugin_lost_update :
  exists w' pool,
    schedule "mock"
      [0; 0; 0; 0; 0; 1; 1; 1; 1; 1; 2; 2; 2; 2; 2; 0; 0; 0; 1; 1; 1; 2; 2; 2]%nat
      (mock_world, goroutines 3)
    = Some (w', pool) /\
    length pool = 3%nat /\
    forallb succeeded pool = true /\
    idle w' = true /\
    UsageCount <$> record_of mock_world "mock" = Some 0 /\
    UsageCount <$> record_of w' "mock" = Some 1.
Proof. eexists _, _. split; [vm_compute; reflexivity|]. by repeat split. Qed.

(** The same three calls one after the other count to three. *)
Example GetPlugin_three_in_a_row :
  UsageCount <$> record_of (GetPlugin_each "mock" [101; 102; 103] mock_world).2 "mock" = Some 3.
Proof. reflexivity. Qed.

(** ** What the loader keeps true

    Every world that the loader produces from an idle, consistent one
    by an operation that ends, by a return or by a panic, is idle and
    consistent again, so these two conditions hold whenever an operation
    starts. *)

Lemma fresh_world_consistent : idle fresh_world = true /\ consistent fresh_world = true.
Proof. by split. Qed.

(** [GetInfo] is the fourth outside call of a load, after [plugin.Open],
    [Lookup] and the factory. *)
Lemma fourth_call (cs : list Call) a b c :
  length (((cs ++ [a]) ++ [b]) ++ [c]) = (length cs + 3)%nat.
Proof. rewrite !length_app. simpl. lia. Qed.

(** A module that passes validation is admitted: the record is built from
    the instance, the info it returned and the clock, with count 0. *)
Lemma LoadPlugin_admits pluginPath channelID w so newPlugin instance info :
  idle w = true ->
  lookup_channel w channelID = Some None ->
  disk w pluginPath = inl so ->
  dl.syms so "NewPlugin" = Some (dl.Factory newPlugin) ->
  newPlugin tt = Some instance ->
  interfaces.GetInfo instance (length (calls w) + 3) = interfaces.Returned info ->
  validatePluginInfo info = None ->
  exists w',
    LoadPlugin pluginPath channelID w = (Returns None, w') /\
    idle w' = true /\
    lookup_channel w' channelID = Some (Some (length (heap w))) /\
    record_of w' channelID =
      Some {| Path := pluginPath; Plugin := so; Instance := Some instance;
              Info := info;
              LoadedAt := clock w; LastUsed := 0; UsageCount := 0 |} /\
    calls w' = (calls w ++ [CallOpen pluginPath; CallLookup (dl.pluginpath so) "NewPlugin";
                            CallNewPlugin (dl.pluginpath so); CallGetInfo instance])%list.
Proof.
  intros Hidle%idle_Free (ps & Hps & Hp)%lookup_channel_Some Hdisk Hsym Hnew Hinfo Hvalid.
  destruct w as [[m mu] ms h t d cs]. cbn [pl maps plugins mutex heap clock disk calls] in *.
  subst mu. go_unfold. rewrite Hps, Hp. go_reduce. rewrite Hdisk. go_reduce.
  unfold dl.Lookup. rewrite Hsym. go_reduce. rewrite Hnew. go_reduce.
  rewrite fourth_call, Hinfo. go_reduce.
  rewrite Hvalid. go_reduce. rewrite Hps. go_reduce.
  eexists. split; [done|]. split; [done|].
  assert (Hm : <[m := <[channelID := length h]> ps]> ms !! m
               = Some (<[channelID := length h]> ps))
    by (apply list_lookup_insert_eq; eauto using lookup_lt_Some).
  unfold record_of, lookup_channel. cbn [pl maps plugins mutex heap clock disk calls].
  rewrite Hm. cbn [fmap option_fmap option_map]. rewrite lookup_insert_eq.
  split; [done|]. split; [by rewrite list_lookup_middle|].
  by rewrite <- !app_assoc.
Qed.





(** ** The scenario of loader_test.go and of the specification, run *)

(** On a new loader: nothing is listed, nothing is checked, and the
    three lookups of [TestPluginLoaderOperations] fail. *)
Example new_loader_is_empty :
  channels (ListPlugins fresh_world).2 = Some [] /\
  (HealthCheck fresh_world).1 = Returns ∅ /\
  (GetPlugin "non_existent" fresh_world).1
    = Returns (None, Some (NotFound "non_existent")) /\
  (GetPluginInfo "non_existent" fresh_world).1
    = Returns (None, Some (NotFound "non_existent")) /\
  (UnloadPlugin "non_existent" fresh_world).1 = Returns (Some (NotFound "non_existent")) /\
  Error (NotFound "non_existent") = "plugin for channel non_existent not found".
Proof. by repeat split. Qed.

(** Load "mock", get it three times, load it again, unload it, get it. *)
Example load_get_unload :
  let w1 := mock_world in
  let w2 := (GetPlugin_each "mock" [101; 102; 103] w1).2 in
  let w3 := (LoadPlugin "/plugins/mock.so" "mock" w2).2 in
  let w4 := (UnloadPlugin "mock" w3).2 in
  channels w1 = Some ["mock"] /\
  UsageCount <$> record_of w2 "mock" = Some 3 /\
  LastUsed <$> record_of w2 "mock" = Some 103 /\
  (LoadPlugin "/plugins/mock.so" "mock" w2).1 = Returns (Some (AlreadyLoaded "mock")) /\
  (UnloadPlugin "mock" w3).1 = Returns None /\
  channels w4 = Some [] /\
  (GetPlugin "mock" w4).1 = Returns (None, Some (NotFound "mock")).
Proof. cbv zeta. by repeat split. Qed.

(** Modules that are turned away. *)
Example LoadPlugin_rejections :
  (LoadPlugin "/plugins/mute.so" "mute" fresh_world).1
    = Returns (Some (ValidationFailed "/plugins/mute.so" InfoIsNil)) /\
  channels (LoadPlugin "/plugins/mute.so" "mute" fresh_world).2 = Some [] /\
  (LoadPlugin "/plugins/none.so" "none" fresh_world).1
    = Returns (Some (OpenFailed "/plugins/none.so"
                       "plugin.Open(/plugins/none.so): realpath failed")) /\
  Error (ValidationFailed "/plugins/mute.so" InfoIsNil)
    = "plugin /plugins/mute.so validation failed: plugin info is nil".
Proof. by repeat split. Qed.

(** The five cases of [TestValidatePluginInfo]. *)
Example TestValidatePluginInfo :
  let info name version channelType capabilities :=
    Some {| interfaces.Name := name; interfaces.Version := version;
            interfaces.Description := ""; interfaces.Author := "";
            interfaces.ChannelType := channelType;
            interfaces.Capabilities := capabilities;
            interfaces.ConfigSchema := [] |} in
  validatePluginInfo (info "Test Plugin" "1.0.0" "test" ["collect_order"]) = None /\
  validatePluginInfo None = Some InfoIsNil /\
  validatePluginInfo (info "" "1.0.0" "test" ["collect_order"]) = Some NameRequired /\
  validatePluginInfo (info "Test Plugin" "" "test" ["collect_order"]) = Some VersionRequired /\
  validatePluginInfo (info "Test Plugin" "1.0.0" "" ["collect_order"])
    = Some ChannelTypeRequired /\
  validatePluginInfo (info "Test Plugin" "1.0.0" "test" []) = Some CapabilityRequired.
Proof. by repeat split. Qed.

(** * Further properties of the loader *)

(** ** Loading *)

(** The world a successful [LoadPlugin] leaves. *)
Lemma LoadPlugin_success_world pluginPath channelID w (ps : gmap string loc)
    so newPlugin instance info :
  idle w = true ->
  maps w !! plugins (pl w) = Some ps ->
  ps !! channelID = None ->
  disk w pluginPath = inl so ->
  dl.syms so "NewPlugin" = Some (dl.Factory newPlugin) ->
  newPlugin tt = Some instance ->
  interfaces.GetInfo instance (length (calls w) + 3) = interfaces.Returned info ->
  validatePluginInfo info = None ->
  LoadPlugin pluginPath channelID w =
    (Returns None,
     {| pl := pl w;
        maps := <[plugins (pl w) := <[channelID := length (heap w)]> ps]> (maps w);
        heap := (heap w ++ [new_record pluginPath so instance info (clock w)])%list;
        clock := clock w; disk := disk w;
        calls := (calls w ++ load_calls pluginPath so instance)%list |}).
Proof.
  intros Hidle%idle_Free Hps Hp Hdisk Hsym Hnew Hinfo Hvalid.
  destruct w as [[m mu] ms h t d cs]. cbn [pl maps plugins mutex heap clock disk calls] in *.
  subst mu. go_unfold. rewrite Hps, Hp. go_reduce. rewrite Hdisk. go_reduce.
  unfold dl.Lookup. rewrite Hsym. go_reduce. rewrite Hnew. go_reduce.
  rewrite fourth_call, Hinfo. go_reduce.
  rewrite Hvalid. go_reduce. rewrite Hps. go_reduce.
  unfold new_record, load_calls. by rewrite <- !app_assoc.
Qed.

(** X1. Loading a module that opens, exports a factory of the right
    type and yields an instance whose [GetInfo] (the fourth outside call
    of the load) returns an info that passes validation, under a channel
    that is absent: [LoadPlugin] returns nil; the channel is registered with a
    record built from the path, the instance, its info and the time of
    the load, never used and with count 0; the loader made exactly four
    outside calls, the factory and [GetInfo] once each; the other
    channels and all existing records are as before. *)
Theorem LoadPlugin_registers_module pluginPath channelID w so newPlugin instance info :
  idle w = true ->
  lookup_channel w channelID = Some None ->
  disk w pluginPath = inl so ->
  dl.syms so "NewPlugin" = Some (dl.Factory newPlugin) ->
  newPlugin tt = Some instance ->
  interfaces.GetInfo instance (length (calls w) + 3) = interfaces.Returned info ->
  validatePluginInfo info = None ->
  exists w',
    LoadPlugin pluginPath channelID w = (Returns None, w') /\
    idle w' = true /\
    record_of w' channelID = Some (new_record pluginPath so instance info (clock w)) /\
    calls w' = (calls w ++ load_calls pluginPath so instance)%list /\
    (forall ch, ch <> channelID -> lookup_channel w' ch = lookup_channel w ch) /\
    (forall p r, heap w !! p = Some r -> heap w' !! p = Some r).
Proof.
  intros Hidle (ps & Hps & Hp)%lookup_channel_Some Hdisk Hsym Hnew Hinfo Hvalid.
  eexists. split; [by eapply LoadPlugin_success_world|].
  assert (Hm : <[plugins (pl w) := <[channelID := length (heap w)]> ps]> (maps w)
               !! plugins (pl w) = Some (<[channelID := length (heap w)]> ps))
    by (apply list_lookup_insert_eq; eauto using lookup_lt_Some).
  unfold record_of, lookup_channel. cbn [pl maps heap calls idle].
  rewrite Hm, Hps. cbn [fmap option_fmap option_map]. rewrite lookup_insert_eq.
  split; [done|]. split; [by rewrite list_lookup_middle|]. split; [done|].
  split.
  - intros ch Hne. by rewrite lookup_insert_ne.
  - intros p r Hr. by apply lookup_app_l_Some.
Qed.

Lemma LoadPlugin_registers_module_witness :
  idle fresh_world = true /\
  lookup_channel fresh_world "mock" = Some None /\
  disk fresh_world "/plugins/mock.so" = inl mock_so /\
  dl.syms mock_so "NewPlugin"
    = Some (dl.Factory (fun _ => Some (MockPlugin (Some mockInfo)))) /\
  (fun _ : unit => Some (MockPlugin (Some mockInfo))) tt = Some (MockPlugin (Some mockInfo)) /\
  interfaces.GetInfo (MockPlugin (Some mockInfo)) (length (calls fresh_world) + 3)
    = interfaces.Returned (Some mockInfo) /\
  validatePluginInfo (Some mockInfo) = None /\
  exists w',
    LoadPlugin "/plugins/mock.so" "mock" fresh_world = (Returns None, w') /\
    idle w' = true /\
    record_of w' "mock"
      = Some (new_record "/plugins/mock.so" mock_so (MockPlugin (Some mockInfo))
                (Some mockInfo) (clock fresh_world)) /\
    calls w' = (calls fresh_world
                ++ load_calls "/plugins/mock.so" mock_so (MockPlugin (Some mockInfo)))%list /\
    (forall ch, ch <> "mock" -> lookup_channel w' ch = lookup_channel fresh_world ch) /\
    (forall p r, heap fresh_world !! p = Some r -> heap w' !! p = Some r).
Proof.
  do 7 (split; [reflexivity|]).
  apply (LoadPlugin_registers_module "/plugins/mock.so" "mock" fresh_world mock_so
           (fun _ => Some (MockPlugin (Some mockInfo))) (MockPlugin (Some mockInfo))
           (Some mockInfo));
    reflexivity.
Defined.



(** ** Unloading *)

(** The world a successful [UnloadPlugin] leaves. *)
Lemma UnloadPlugin_success_world channelID w (ps : gmap string loc) p :
  idle w = true ->
  maps w !! plugins (pl w) = Some ps ->
  ps !! channelID = Some p ->
  UnloadPlugin channelID w =
    (Returns None, with_maps (<[plugins (pl w) := delete channelID ps]> (maps w)) w).
Proof.
  intros Hidle%idle_Free Hps Hp.
  destruct w as [[m mu] ms h t d cs]. cbn [pl maps plugins mutex heap clock disk calls] in *.
  subst mu. go_unfold. rewrite Hps, Hp. go_reduce. by rewrite Hps.
Qed.

(** X3. [UnloadPlugin] of a registered channel returns nil and removes
    that one entry of the map: the channel is absent afterwards, every
    other channel is registered as before, and the loader, the records
    (the unloaded one included), the clock and the log of outside calls
    are untouched; the module is not called. *)
Theorem UnloadPlugin_removes_one_entry channelID w p :
  idle w = true ->
  lookup_channel w channelID = Some (Some p) ->
  exists w',
    UnloadPlugin channelID w = (Returns None, w') /\
    lookup_channel w' channelID = Some None /\
    (forall ch, ch <> channelID -> lookup_channel w' ch = lookup_channel w ch) /\
    pl w' = pl w /\ heap w' = heap w /\ clock w' = clock w /\ calls w' = calls w.
Proof.
  intros Hidle (ps & Hps & Hp)%lookup_channel_Some.
  eexists. split; [by eapply UnloadPlugin_success_world|].
  unfold lookup_channel. cbn [pl maps with_maps heap clock calls].
  rewrite list_lookup_insert_eq by eauto using lookup_lt_Some.
  rewrite Hps. cbn [fmap option_fmap option_map].
  split; [by rewrite lookup_delete_eq|]. split; [|done].
  intros ch Hne. by rewrite lookup_delete_ne.
Qed.

Lemma UnloadPlugin_removes_one_entry_witness :
  idle sweep_world = true /\
  lookup_channel sweep_world "mute" = Some (Some 1%nat) /\
  exists w',
    UnloadPlugin "mute" sweep_world = (Returns None, w') /\
    lookup_channel w' "mute" = Some None /\
    (forall ch, ch <> "mute" -> lookup_channel w' ch = lookup_channel sweep_world ch) /\
    pl w' = pl sweep_world /\ heap w' = heap sweep_world /\
    clock w' = clock sweep_world /\ calls w' = calls sweep_world.
Proof.
  split; [reflexivity|]. split; [reflexivity|].
  apply (UnloadPlugin_removes_one_entry "mute" sweep_world 1%nat); reflexivity.
Defined.

(** ** How the operations compose *)

(** X4. What was loaded is what is got: after a successful
    [LoadPlugin], [GetPlugin] on the same channel at time [t] returns
    the very instance the factory produced and no error, and the record
    then shows count 1 and [LastUsed = t]. *)
Theorem LoadPlugin_then_GetPlugin pluginPath channelID w so newPlugin instance info t :
  idle w = true ->
  lookup_channel w channelID = Some None ->
  disk w pluginPath = inl so ->
  dl.syms so "NewPlugin" = Some (dl.Factory newPlugin) ->
  newPlugin tt = Some instance ->
  interfaces.GetInfo instance (length (calls w) + 3) = interfaces.Returned info ->
  validatePluginInfo info = None ->
  exists w1 w2,
    LoadPlugin pluginPath channelID w = (Returns None, w1) /\
    (clock_shows t ;; GetPlugin channelID) w1 = (Returns (Some instance, None), w2) /\
    record_of w2 channelID
      = Some (set_UsageCount 1 (set_LastUsed t (new_record pluginPath so instance info (clock w)))).
Proof.
  intros Hidle (ps & Hps & Hp)%lookup_channel_Some Hdisk Hsym Hnew Hinfo Hvalid.
  assert (Hlt : (plugins (pl w) < length (maps w))%nat) by eauto using lookup_lt_Some.
  eexists _, _. split; [by eapply LoadPlugin_success_world|].
  unfold bind, clock_shows.
  erewrite (GetPlugin_registered channelID _ (length (heap w))
              (new_record pluginPath so instance info (clock w))).
  - split; [reflexivity|].
    unfold record_of, lookup_channel. cbn [pl maps heap with_heap with_clock].
    rewrite list_lookup_insert_eq by done. cbn [fmap option_fmap option_map].
    rewrite lookup_insert_eq, list_lookup_insert_eq by (rewrite length_app; simpl; lia).
    reflexivity.
  - by apply idle_Free in Hidle; destruct w as [[? ?] ? ? ? ? ?]; simpl in *; subst.
  - unfold lookup_channel. cbn [pl maps with_clock].
    rewrite list_lookup_insert_eq by done. cbn [fmap option_fmap option_map].
    by rewrite lookup_insert_eq.
  - cbn [heap with_clock]. by rewrite list_lookup_middle.
Qed.

Lemma LoadPlugin_then_GetPlugin_witness :
  idle fresh_world = true /\
  lookup_channel fresh_world "mock" = Some None /\
  disk fresh_world "/plugins/mock.so" = inl mock_so /\
  dl.syms mock_so "NewPlugin"
    = Some (dl.Factory (fun _ => Some (MockPlugin (Some mockInfo)))) /\
  (fun _ : unit => Some (MockPlugin (Some mockInfo))) tt = Some (MockPlugin (Some mockInfo)) /\
  interfaces.GetInfo (MockPlugin (Some mockInfo)) (length (calls fresh_world) + 3)
    = interfaces.Returned (Some mockInfo) /\
  validatePluginInfo (Some mockInfo) = None /\
  exists w1 w2,
    LoadPlugin "/plugins/mock.so" "mock" fresh_world = (Returns None, w1) /\
    (clock_shows 7 ;; GetPlugin "mock") w1
      = (Returns (Some (MockPlugin (Some mockInfo)), None), w2) /\
    record_of w2 "mock"
      = Some (set_UsageCount 1 (set_LastUsed 7
                (new_record "/plugins/mock.so" mock_so (MockPlugin (Some mockInfo))
                   (Some mockInfo) (clock fresh_world)))).
Proof.
  do 7 (split; [reflexivity|]).
  apply (LoadPlugin_then_GetPlugin "/plugins/mock.so" "mock" fresh_world mock_so
           (fun _ => Some (MockPlugin (Some mockInfo))) (MockPlugin (Some mockInfo))
           (Some mockInfo) 7);
    reflexivity.
Defined.

(** X5. Load then unload is a round trip on the registry: after a
    successful [LoadPlugin] and [UnloadPlugin] of the same channel the
    map holds exactly the entries it held before, the loader is idle and
    every earlier record is unchanged (the record that was loaded stays
    in memory, no longer registered). *)
Theorem LoadPlugin_then_UnloadPlugin pluginPath channelID w so newPlugin instance info :
  idle w = true ->
  lookup_channel w channelID = Some None ->
  disk w pluginPath = inl so ->
  dl.syms so "NewPlugin" = Some (dl.Factory newPlugin) ->
  newPlugin tt = Some instance ->
  interfaces.GetInfo instance (length (calls w) + 3) = interfaces.Returned info ->
  validatePluginInfo info = None ->
  exists w1 w2,
    LoadPlugin pluginPath channelID w = (Returns None, w1) /\
    UnloadPlugin channelID w1 = (Returns None, w2) /\
    idle w2 = true /\
    pl w2 = pl w /\
    maps w2 !! plugins (pl w2) = maps w !! plugins (pl w) /\
    (forall p r, heap w !! p = Some r -> heap w2 !! p = Some r) /\
    heap w2 !! length (heap w) = Some (new_record pluginPath so instance info (clock w)).
Proof.
  intros Hidle (ps & Hps & Hp)%lookup_channel_Some Hdisk Hsym Hnew Hinfo Hvalid.
  assert (Hlt : (plugins (pl w) < length (maps w))%nat) by eauto using lookup_lt_Some.
  eexists _, _. split; [by eapply LoadPlugin_success_world|].
  split.
  { eapply UnloadPlugin_success_world.
    - by apply idle_Free in Hidle; destruct w as [[? ?] ? ? ? ? ?]; simpl in *; subst.
    - cbn [pl maps]. by apply list_lookup_insert_eq.
    - by rewrite lookup_insert_eq. }
  cbn [pl maps heap with_maps idle].
  rewrite list_insert_insert_eq, delete_insert_id by done.
  rewrite list_lookup_insert_eq by done.
  repeat split; [done|done|..].
  - intros p r Hr. by apply lookup_app_l_Some.
  - by rewrite list_lookup_middle.
Qed.

Lemma LoadPlugin_then_UnloadPlugin_witness :
  idle mock_world = true /\
  lookup_channel mock_world "second" = Some None /\
  disk mock_world "/plugins/mock.so" = inl mock_so /\
  dl.syms mock_so "NewPlugin"
    = Some (dl.Factory (fun _ => Some (MockPlugin (Some mockInfo)))) /\
  (fun _ : unit => Some (MockPlugin (Some mockInfo))) tt = Some (MockPlugin (Some mockInfo)) /\
  interfaces.GetInfo (MockPlugin (Some mockInfo)) (length (calls mock_world) + 3)
    = interfaces.Returned (Some mockInfo) /\
  validatePluginInfo (Some mockInfo) = None /\
  exists w1 w2,
    LoadPlugin "/plugins/mock.so" "second" mock_world = (Returns None, w1) /\
    UnloadPlugin "second" w1 = (Returns None, w2) /\
    idle w2 = true /\
    pl w2 = pl mock_world /\
    maps w2 !! plugins (pl w2) = maps mock_world !! plugins (pl mock_world) /\
    (forall p r, heap mock_world !! p = Some r -> heap w2 !! p = Some r) /\
    heap w2 !! length (heap mock_world)
      = Some (new_record "/plugins/mock.so" mock_so (MockPlugin (Some mockInfo))
                (Some mockInfo) (clock mock_world)).
Proof.
  do 7 (split; [reflexivity|]).
  apply (LoadPlugin_then_UnloadPlugin "/plugins/mock.so" "second" mock_world mock_so
           (fun _ => Some (MockPlugin (Some mockInfo))) (MockPlugin (Some mockInfo))
           (Some mockInfo));
    reflexivity.
Defined.

(** X6. Unloading a channel and loading it again from its recorded
    path does return, unlike [ReloadPlugin]: the channel ends up
    registered with a new record (time of the new load, never used,
    count 0) in a new cell, and the old record is left as it was. *)
Theorem UnloadPlugin_then_LoadPlugin channelID w p r so newPlugin instance info :
  idle w = true ->
  lookup_channel w channelID = Some (Some p) ->
  heap w !! p = Some r ->
  disk w (Path r) = inl so ->
  dl.syms so "NewPlugin" = Some (dl.Factory newPlugin) ->
  newPlugin tt = Some instance ->
  interfaces.GetInfo instance (length (calls w) + 3) = interfaces.Returned info ->
  validatePluginInfo info = None ->
  exists w1 w2,
    UnloadPlugin channelID w = (Returns None, w1) /\
    LoadPlugin (Path r) channelID w1 = (Returns None, w2) /\
    idle w2 = true /\
    lookup_channel w2 channelID = Some (Some (length (heap w))) /\
    record_of w2 channelID = Some (new_record (Path r) so instance info (clock w)) /\
    heap w2 !! p = Some r /\
    (forall ch, ch <> channelID -> lookup_channel w2 ch = lookup_channel w ch).
Proof.
  intros Hidle (ps & Hps & Hp)%lookup_channel_Some Hr Hdisk Hsym Hnew Hinfo Hvalid.
  assert (Hlt : (plugins (pl w) < length (maps w))%nat) by eauto using lookup_lt_Some.
  eexists _, _. split; [by eapply UnloadPlugin_success_world|].
  split.
  { eapply (LoadPlugin_success_world _ _ _ (delete channelID ps));
      [exact Hidle | | | exact Hdisk | exact Hsym | exact Hnew | exact Hinfo | exact Hvalid].
    - cbn [pl maps with_maps]. by apply list_lookup_insert_eq.
    - by rewrite lookup_delete_eq. }
  unfold record_of, lookup_channel. cbn [pl maps heap with_maps idle clock].
  rewrite list_insert_insert_eq, !list_lookup_insert_eq by done.
  rewrite Hps. cbn [fmap option_fmap option_map]. rewrite lookup_insert_eq.
  split; [exact Hidle|].
  split; [done|]. split; [by rewrite list_lookup_middle|].
  split; [by apply lookup_app_l_Some|].
  intros ch Hne. by rewrite lookup_insert_ne, lookup_delete_ne.
Qed.

Lemma UnloadPlugin_then_LoadPlugin_witness :
  idle mock_world = true /\
  lookup_channel mock_world "mock" = Some (Some 0%nat) /\
  heap mock_world !! 0%nat = Some mock_record /\
  disk mock_world (Path mock_record) = inl mock_so /\
  dl.syms mock_so "NewPlugin"
    = Some (dl.Factory (fun _ => Some (MockPlugin (Some mockInfo)))) /\
  (fun _ : unit => Some (MockPlugin (Some mockInfo))) tt = Some (MockPlugin (Some mockInfo)) /\
  interfaces.GetInfo (MockPlugin (Some mockInfo)) (length (calls mock_world) + 3)
    = interfaces.Returned (Some mockInfo) /\
  validatePluginInfo (Some mockInfo) = None /\
  exists w1 w2,
    UnloadPlugin "mock" mock_world = (Returns None, w1) /\
    LoadPlugin (Path mock_record) "mock" w1 = (Returns None, w2) /\
    idle w2 = true /\
    lookup_channel w2 "mock" = Some (Some (length (heap mock_world))) /\
    record_of w2 "mock"
      = Some (new_record (Path mock_record) mock_so (MockPlugin (Some mockInfo))
                (Some mockInfo) (clock mock_world)) /\
    heap w2 !! 0%nat = Some mock_record /\
    (forall ch, ch <> "mock" -> lookup_channel w2 ch = lookup_channel mock_world ch).
Proof.
  do 8 (split; [reflexivity|]).
  apply (UnloadPlugin_then_LoadPlugin "mock" mock_world 0%nat mock_record mock_so
           (fun _ => Some (MockPlugin (Some mockInfo))) (MockPlugin (Some mockInfo))
           (Some mockInfo));
    reflexivity.
Defined.

(** ** Lookups *)

(** X7. [GetPlugin] on a registered channel writes two fields of one
    record and nothing else: the record keeps its path, plugin handle,
    instance, info and load time, gets [LastUsed = now] and the count
    plus one (as an [int64]); every other record, the maps, the loader,
    the clock and the log of outside calls are as before, so the module
    is not called. *)
Theorem GetPlugin_writes_two_fields channelID w p r :
  idle w = true ->
  lookup_channel w channelID = Some (Some p) ->
  heap w !! p = Some r ->
  exists w' r',
    GetPlugin channelID w = (Returns (Instance r, None), w') /\
    heap w' !! p = Some r' /\
    Path r' = Path r /\ Plugin r' = Plugin r /\ Instance r' = Instance r /\
    Info r' = Info r /\ LoadedAt r' = LoadedAt r /\
    LastUsed r' = clock w /\ UsageCount r' = wrap64 (UsageCount r + 1) /\
    (forall q, q <> p -> heap w' !! q = heap w !! q) /\
    pl w' = pl w /\ maps w' = maps w /\ clock w' = clock w /\ calls w' = calls w.
Proof.
  intros Hidle Hp Hr. eexists _, _.
  split; [by apply GetPlugin_registered|].
  cbn [heap with_heap pl maps clock calls].
  split; [apply list_lookup_insert_eq; eauto using lookup_lt_Some|].
  repeat split. intros q Hq. by rewrite list_lookup_insert_ne.
Qed.

Lemma GetPlugin_writes_two_fields_witness :
  idle sweep_world = true /\
  lookup_channel sweep_world "mute" = Some (Some 1%nat) /\
  heap sweep_world !! 1%nat = Some mute_record /\
  exists w' r',
    GetPlugin "mute" sweep_world = (Returns (Instance mute_record, None), w') /\
    heap w' !! 1%nat = Some r' /\
    Path r' = Path mute_record /\ Plugin r' = Plugin mute_record /\
    Instance r' = Instance mute_record /\
    Info r' = Info mute_record /\ LoadedAt r' = LoadedAt mute_record /\
    LastUsed r' = clock sweep_world /\
    UsageCount r' = wrap64 (UsageCount mute_record + 1) /\
    (forall q, q <> 1%nat -> heap w' !! q = heap sweep_world !! q) /\
    pl w' = pl sweep_world /\ maps w' = maps sweep_world /\
    clock w' = clock sweep_world /\ calls w' = calls sweep_world.
Proof.
  do 3 (split; [reflexivity|]).
  apply (GetPlugin_writes_two_fields "mute" sweep_world 1%nat mute_record); reflexivity.
Defined.

(** X8. [GetPluginInfo] answers from the module, not from the record:
    on a registered channel with a non-nil instance it calls [GetInfo]
    of the instance and returns what that call returns, with a nil
    error, whatever info the record holds (nil included, when the
    instance answers nil); when the call panics, [GetPluginInfo] panics
    with the module's message.  Either way it makes that one outside
    call, releases the lock and changes nothing else. *)
Theorem GetPluginInfo_asks_the_instance channelID w p r instance :
  idle w = true ->
  lookup_channel w channelID = Some (Some p) ->
  heap w !! p = Some r ->
  Instance r = Some instance ->
  GetPluginInfo channelID w
    = (match interfaces.GetInfo instance (length (calls w)) with
       | interfaces.Returned info => Returns (info, None)
       | interfaces.Panicked msg => Panics msg
       end,
       with_call (CallGetInfo instance) w).
Proof.
  intros Hidle%idle_Free (ps & Hps & Hp)%lookup_channel_Some Hr Hi.
  destruct w as [[m mu] ms h t d cs]. cbn [pl maps plugins mutex heap clock disk calls] in *.
  subst mu. go_unfold. rewrite Hps, Hp. go_reduce. rewrite Hr. go_reduce. rewrite Hi.
  go_reduce. by destruct (interfaces.GetInfo instance (length cs)).
Qed.

Lemma GetPluginInfo_asks_the_instance_witness :
  idle sweep_world = true /\
  lookup_channel sweep_world "mute" = Some (Some 1%nat) /\
  heap sweep_world !! 1%nat = Some mute_record /\
  Instance mute_record = Some (MockPlugin None) /\
  Info mute_record = Some mockInfo /\
  GetPluginInfo "mute" sweep_world
    = (Returns (None, None), with_call (CallGetInfo (MockPlugin None)) sweep_world).
Proof.
  do 5 (split; [reflexivity|]).
  apply (GetPluginInfo_asks_the_instance "mute" sweep_world 1%nat mute_record (MockPlugin None));
    reflexivity.
Defined.

(** X9. [k] calls of [GetPlugin] made one after the other on a
    registered channel all return the stored instance and no error; the
    count has then grown by [k], wrapping around as an [int64], and
    [LastUsed] is the time of the last call (unchanged for [k = 0]). *)
Theorem GetPlugin_serial_calls channelID ts w p r :
  idle w = true ->
  lookup_channel w channelID = Some (Some p) ->
  heap w !! p = Some r ->
  - 2 ^ 63 <= UsageCount r < 2 ^ 63 ->
  exists w',
    GetPlugin_each channelID ts w
      = (Returns (replicate (length ts) (Instance r, None)), w') /\
    idle w' = true /\
    UsageCount <$> record_of w' channelID
      = Some (wrap64 (UsageCount r + Z.of_nat (length ts))) /\
    LastUsed <$> record_of w' channelID = Some (List.last ts (LastUsed r)) /\
    (UsageCount r + Z.of_nat (length ts) < 2 ^ 63 ->
     UsageCount <$> record_of w' channelID = Some (UsageCount r + Z.of_nat (length ts))).
Proof.
  intros Hidle Hp Hr Hrange.
  destruct (GetPlugin_each_registered channelID ts w p r Hidle Hp Hr Hrange)
    as (w' & Hrun & Hidle' & Hp' & Hr').
  exists w'. split; [done|]. split; [done|].
  unfold record_of. rewrite Hp', Hr'.
  cbn [fmap option_fmap option_map UsageCount LastUsed set_UsageCount set_LastUsed].
  repeat split. intros Hsmall. by rewrite wrap64_small by lia.
Qed.

Lemma GetPlugin_serial_calls_witness :
  idle mock_world = true /\
  lookup_channel mock_world "mock" = Some (Some 0%nat) /\
  heap mock_world !! 0%nat = Some mock_record /\
  - 2 ^ 63 <= UsageCount mock_record < 2 ^ 63 /\
  exists w',
    GetPlugin_each "mock" [101; 102; 103] mock_world
      = (Returns (replicate (length [101; 102; 103]) (Instance mock_record, None)), w') /\
    idle w' = true /\
    UsageCount <$> record_of w' "mock"
      = Some (wrap64 (UsageCount mock_record + Z.of_nat (length [101; 102; 103]))) /\
    LastUsed <$> record_of w' "mock"
      = Some (List.last [101; 102; 103] (LastUsed mock_record)) /\
    (UsageCount mock_record + Z.of_nat (length [101; 102; 103]) < 2 ^ 63 ->
     UsageCount <$> record_of w' "mock"
       = Some (UsageCount mock_record + Z.of_nat (length [101; 102; 103]))).
Proof.
  do 3 (split; [reflexivity|]). split; [simpl; lia|].
  apply (GetPlugin_serial_calls "mock" [101; 102; 103] mock_world 0%nat mock_record);
    [reflexivity | reflexivity | reflexivity | simpl; lia].
Defined.

(** ** The snapshot of ListPlugins and later changes *)

(** [LoadPlugin], [UnloadPlugin], [ReloadPlugin] and [GetPlugin] write
    to no map but the loader's own. *)
Lemma operations_write_own_map pluginPath channelID w (m : mapref) :
  m <> plugins (pl w) ->
  maps (LoadPlugin pluginPath channelID w).2 !! m = maps w !! m /\
  maps (UnloadPlugin channelID w).2 !! m = maps w !! m /\
  maps (ReloadPlugin channelID w).2 !! m = maps w !! m /\
  maps (GetPlugin channelID w).2 !! m = maps w !! m.
Proof.
  intros Hm. split; [|split; [|split]].
  - destruct (LoadPlugin_effect pluginPath channelID w) as [_ [[-> _]|Hnew]]; [done|].
    destruct Hnew as (? & ? & _ & _ & _ & _ & _ & _ & _ & _ & -> & _).
    by rewrite list_lookup_insert_ne.
  - destruct w as [[m0 mu] ms h t d cs]. cbn [pl plugins maps] in *. go_unfold.
    destruct mu; go_reduce; try done.
    destruct (ms !! m0) as [ps|] eqn:Hps; go_reduce; [|done].
    destruct (ps !! channelID); go_reduce; [|done].
    rewrite Hps. go_reduce. by rewrite list_lookup_insert_ne.
  - destruct w as [[m0 mu] ms h t d cs]. cbn [pl plugins maps] in *. go_unfold.
    destruct mu; go_reduce; try done.
    destruct (ms !! m0) as [ps|] eqn:Hps; go_reduce; [|done].
    destruct (ps !! channelID) as [q|]; go_reduce; [|done].
    rewrite Hps. go_reduce.
    destruct (h !! q); go_reduce; by rewrite list_lookup_insert_ne.
  - destruct w as [[m0 mu] ms h t d cs]. cbn [pl plugins maps] in *. go_unfold.
    repeat (let H := fresh "H" in go_case H); done.
Qed.

(** X10. The map returned by [ListPlugins] is a picture of the moment:
    it holds the entries the registry had then, and a later
    [LoadPlugin], [UnloadPlugin], [ReloadPlugin] or [GetPlugin] on any
    channel does not add to it, remove from it or change an entry. *)
Theorem ListPlugins_result_does_not_follow w (ps : gmap string loc) pluginPath channelID :
  idle w = true ->
  maps w !! plugins (pl w) = Some ps ->
  exists snap w1,
    ListPlugins w = (Returns snap, w1) /\
    maps w1 !! snap = Some ps /\
    maps (LoadPlugin pluginPath channelID w1).2 !! snap = Some ps /\
    maps (UnloadPlugin channelID w1).2 !! snap = Some ps /\
    maps (ReloadPlugin channelID w1).2 !! snap = Some ps /\
    maps (GetPlugin channelID w1).2 !! snap = Some ps.
Proof.
  intros Hidle Hps.
  assert (Hlt : (plugins (pl w) < length (maps w))%nat) by eauto using lookup_lt_Some.
  eexists _, _. split; [by apply ListPlugins_copies|].
  assert (Hsnap : maps (with_maps (maps w ++ [ps]) w) !! length (maps w) = Some ps)
    by (cbn [maps with_maps]; by apply list_lookup_middle).
  split; [done|].
  destruct (operations_write_own_map pluginPath channelID
              (with_maps (maps w ++ [ps]) w) (length (maps w)))
    as (-> & -> & -> & ->); [cbn [pl with_maps]; lia|done].
Qed.

Lemma ListPlugins_result_does_not_follow_witness :
  idle mock_world = true /\
  maps mock_world !! plugins (pl mock_world) = Some (<["mock" := 0%nat]> ∅) /\
  exists snap w1,
    ListPlugins mock_world = (Returns snap, w1) /\
    maps w1 !! snap = Some (<["mock" := 0%nat]> ∅) /\
    maps (LoadPlugin "/plugins/mock.so" "mock" w1).2 !! snap = Some (<["mock" := 0%nat]> ∅) /\
    maps (UnloadPlugin "mock" w1).2 !! snap = Some (<["mock" := 0%nat]> ∅) /\
    maps (ReloadPlugin "mock" w1).2 !! snap = Some (<["mock" := 0%nat]> ∅) /\
    maps (GetPlugin "mock" w1).2 !! snap = Some (<["mock" := 0%nat]> ∅).
Proof.
  split; [reflexivity|]. split; [reflexivity|].
  apply (ListPlugins_result_does_not_follow mock_world (<["mock" := 0%nat]> ∅)
           "/plugins/mock.so" "mock"); reflexivity.
Defined.

(** ** Using the loader from one goroutine *)







(** ** Goroutines inside GetPlugin, whatever the schedule *)

Lemma tally_insert at_stage pool : forall i pc pc',
  pool !! i = Some pc ->
  (tally at_stage (<[i := pc']> pool) + (if at_stage pc then 1 else 0)
   = tally at_stage pool + (if at_stage pc' then 1 else 0))%nat.
Proof.
  induction pool as [|x pool IH]; intros [|i] pc pc' Hi; try done.
  - injection Hi as ->. cbn [tally]. simpl. lia.
  - cbn [tally]. simpl. specialize (IH i pc pc' Hi). lia.
Qed.

Lemma tally_le_length at_stage pool : (tally at_stage pool <= length pool)%nat.
Proof. induction pool as [|x pool IH]; simpl; [lia|]. destruct (at_stage x); lia. Qed.

Lemma tally_replicate at_stage n pc :
  tally at_stage (replicate n pc) = if at_stage pc then n else 0%nat.
Proof. induction n as [|n IH]; simpl; [by destruct (at_stage pc)|]. rewrite IH. by destruct (at_stage pc). Qed.

Lemma tally_finished pool :
  forallb finished pool = true ->
  tally holds_RLock pool = 0%nat /\ tally has_stored pool = length pool.
Proof.
  induction pool as [|pc pool IH]; [done|]. cbn [forallb tally length].
  intros [Hpc Hpool]%andb_prop. destruct (IH Hpool) as [-> ->].
  by destruct pc.
Qed.

Lemma pc_sound_later p result first stored stored' pc :
  (stored <= stored')%nat ->
  pc_sound p result first stored pc -> pc_sound p result first stored' pc.
Proof. intros Hle. destruct pc; cbn [pc_sound]; try done. intros [-> ?]. split; [done|lia]. Qed.

(** One scheduled step keeps [race_invariant] and does not panic. *)
Lemma schedule_one_keeps_invariant channelID w0 p r0 n i cfg :
  lookup_channel w0 channelID = Some (Some p) ->
  - 2 ^ 63 <= UsageCount r0 ->
  UsageCount r0 + Z.of_nat n < 2 ^ 63 ->
  race_invariant w0 p r0 n cfg ->
  exists cfg', schedule_one channelID i cfg = Some cfg' /\ race_invariant w0 p r0 n cfg'.
Proof.
  intros (ps & Hps & Hp)%lookup_channel_Some Hlow Hhigh.
  destruct w0 as [[m0 mu0] ms0 h0 t0 d0 cs0]. cbn [pl plugins mutex maps heap calls disk] in *.
  destruct cfg as [w pool]. intros Hinv.
  unfold schedule_one. destruct (pool !! i) as [pc|] eqn:Hi; [|by exists (w, pool)].
  destruct Hinv as (Hlen & Hpl & Hmu & Hmaps & Hcalls & Hdisk & Hothers &
          (r & Hr & HPath & HPlugin & HInstance & HInfo & HLoadedAt & Hcount & Hcount1) & Hall).
  pose proof (Forall_lookup_1 _ _ _ _ Hall Hi) as Hpc.
  assert (Hlt : (p < length (heap w))%nat) by eauto using lookup_lt_Some.
  destruct w as [[m mu] ms h t d cs].
  cbn [pl plugins mutex maps heap calls disk] in *. subst m mu ms cs d.
  assert (Hstore := fun pc' => tally_insert has_stored pool i pc pc' Hi).
  assert (Hhold := fun pc' => tally_insert holds_RLock pool i pc pc' Hi).
  assert (Hle := fun pc' => tally_le_length has_stored (<[i := pc']> pool)).
  destruct pc as [| |q|q now|q|q count|q|res|res]; cbn [pc_sound] in Hpc.
  - (* pl.mutex.RLock() *)
    specialize (Hstore AtLookup). specialize (Hhold AtLookup). cbn [has_stored holds_RLock] in *.
    go_unfold. destruct (tally holds_RLock pool) as [|k] eqn:Hk; go_reduce.
    all: eexists; split; [reflexivity|]; cbn [race_invariant].
    all: rewrite length_insert.
    all: replace (tally has_stored (<[i:=AtLookup]> pool)) with (tally has_stored pool) by lia.
    all: replace (tally holds_RLock (<[i:=AtLookup]> pool)) with (S (tally holds_RLock pool)) by lia.
    all: rewrite Hk; cbn [pl plugins mutex maps heap calls disk mutex_with].
    all: repeat split; try done; try (by exists r); by apply Forall_insert.
  - (* pl.plugins[channelID] *)
    specialize (Hstore (AtNow p)). specialize (Hhold (AtNow p)). cbn [has_stored holds_RLock] in *.
    go_unfold. rewrite Hps, Hp. go_reduce.
    eexists; split; [reflexivity|]; cbn [race_invariant].
    rewrite length_insert.
    replace (tally has_stored (<[i:=AtNow p]> pool)) with (tally has_stored pool) by lia.
    replace (tally holds_RLock (<[i:=AtNow p]> pool)) with (tally holds_RLock pool) by lia.
    cbn [pl plugins mutex maps heap calls disk mutex_with].
    repeat split; try done; try (by exists r); by apply Forall_insert.
  - (* time.Now() *)
    subst q.
    specialize (Hstore (AtStoreLastUsed p t)). specialize (Hhold (AtStoreLastUsed p t)).
    cbn [has_stored holds_RLock] in *.
    go_unfold.
    eexists; split; [reflexivity|]; cbn [race_invariant].
    rewrite length_insert.
    replace (tally has_stored (<[i:=AtStoreLastUsed p t]> pool))
      with (tally has_stored pool) by lia.
    replace (tally holds_RLock (<[i:=AtStoreLastUsed p t]> pool))
      with (tally holds_RLock pool) by lia.
    cbn [pl plugins mutex maps heap calls disk mutex_with].
    repeat split; try done; try (by exists r); by apply Forall_insert.
  - (* loadedPlugin.LastUsed = now *)
    subst q.
    specialize (Hstore (AtLoadCount p)). specialize (Hhold (AtLoadCount p)).
    cbn [has_stored holds_RLock] in *.
    go_unfold. rewrite Hr. go_reduce. rewrite Hr. go_reduce.
    eexists; split; [reflexivity|]; cbn [race_invariant].
    rewrite length_insert.
    replace (tally has_stored (<[i:=AtLoadCount p]> pool)) with (tally has_stored pool) by lia.
    replace (tally holds_RLock (<[i:=AtLoadCount p]> pool))
      with (tally holds_RLock pool) by lia.
    cbn [pl plugins mutex maps heap calls disk mutex_with].
    repeat split; try done; [| |by apply Forall_insert].
    + intros q Hq. rewrite list_lookup_insert_ne by done. by apply Hothers.
    + exists (set_LastUsed now r). by rewrite list_lookup_insert_eq.
  - (* the load of UsageCount++ *)
    subst q.
    specialize (Hstore (AtStoreCount p (UsageCount r))).
    specialize (Hhold (AtStoreCount p (UsageCount r))).
    cbn [has_stored holds_RLock] in *.
    go_unfold. rewrite Hr. go_reduce.
    eexists; split; [reflexivity|]; cbn [race_invariant].
    rewrite length_insert.
    replace (tally has_stored (<[i:=AtStoreCount p (UsageCount r)]> pool))
      with (tally has_stored pool) by lia.
    replace (tally holds_RLock (<[i:=AtStoreCount p (UsageCount r)]> pool))
      with (tally holds_RLock pool) by lia.
    cbn [pl plugins mutex maps heap calls disk mutex_with].
    repeat split; try done; try (by exists r); by apply Forall_insert.
  - (* the store of UsageCount++ *)
    destruct Hpc as [-> Hloaded].
    specialize (Hstore (AtReturn p)). specialize (Hhold (AtReturn p)).
    specialize (Hle (AtReturn p)). rewrite length_insert in Hle.
    cbn [has_stored holds_RLock] in *.
    go_unfold. rewrite Hr. go_reduce. rewrite Hr. go_reduce.
    eexists; split; [reflexivity|]; cbn [race_invariant].
    rewrite length_insert.
    replace (tally has_stored (<[i:=AtReturn p]> pool))
      with (S (tally has_stored pool)) in * by lia.
    replace (tally holds_RLock (<[i:=AtReturn p]> pool))
      with (tally holds_RLock pool) by lia.
    cbn [pl plugins mutex maps heap calls disk mutex_with].
    repeat split; try done.
    + intros q Hq. rewrite list_lookup_insert_ne by done. by apply Hothers.
    + exists (set_UsageCount (wrap64 (count + 1)) r).
      rewrite list_lookup_insert_eq by done. cbn [set_UsageCount Path Plugin Instance Info
        LoadedAt UsageCount].
      rewrite wrap64_small by lia. repeat split; try done; lia.
    + apply Forall_insert; [|done].
      eapply Forall_impl; [exact Hall|]. intros pc. apply pc_sound_later. lia.
  - (* return loadedPlugin.Instance, nil *)
    subst q.
    specialize (Hstore (AtRUnlock (Instance r, None))).
    specialize (Hhold (AtRUnlock (Instance r, None))).
    cbn [has_stored holds_RLock] in *.
    go_unfold. rewrite Hr. go_reduce.
    eexists; split; [reflexivity|]; cbn [race_invariant].
    rewrite length_insert.
    replace (tally has_stored (<[i:=AtRUnlock (Instance r, None)]> pool))
      with (tally has_stored pool) by lia.
    replace (tally holds_RLock (<[i:=AtRUnlock (Instance r, None)]> pool))
      with (tally holds_RLock pool) by lia.
    cbn [pl plugins mutex maps heap calls disk mutex_with].
    repeat split; try done; try (by exists r).
    apply Forall_insert; [done|]. cbn [pc_sound]. by rewrite HInstance.
  - (* the deferred pl.mutex.RUnlock() *)
    specialize (Hstore (Finished res)). specialize (Hhold (Finished res)).
    cbn [has_stored holds_RLock] in *.
    go_unfold. destruct (tally holds_RLock pool) as [|[|k]] eqn:Hk; [lia|..]; go_reduce.
    all: eexists; split; [reflexivity|]; cbn [race_invariant].
    all: rewrite length_insert.
    all: replace (tally has_stored (<[i:=Finished res]> pool))
           with (tally has_stored pool) by lia.
    1: replace (tally holds_RLock (<[i:=Finished res]> pool)) with 0%nat by lia.
    2: replace (tally holds_RLock (<[i:=Finished res]> pool)) with (S k) by lia.
    all: cbn [pl plugins mutex maps heap calls disk mutex_with].
    all: repeat split; try done; try (by exists r); by apply Forall_insert.
  - (* returned *)
    go_unfold. rewrite list_insert_id by done.
    eexists; split; [reflexivity|]; cbn [race_invariant].
    cbn [pl plugins mutex maps heap calls disk mutex_with].
    repeat split; try done. by exists r.
Qed.

Lemma schedule_keeps_invariant channelID w0 p r0 n order : forall cfg,
  lookup_channel w0 channelID = Some (Some p) ->
  - 2 ^ 63 <= UsageCount r0 ->
  UsageCount r0 + Z.of_nat n < 2 ^ 63 ->
  race_invariant w0 p r0 n cfg ->
  exists cfg', schedule channelID order cfg = Some cfg' /\ race_invariant w0 p r0 n cfg'.
Proof.
  induction order as [|i order IH]; intros cfg Hp Hlow Hhigh Hinv; [by exists cfg|].
  destruct (schedule_one_keeps_invariant channelID w0 p r0 n i cfg Hp Hlow Hhigh Hinv)
    as (cfg1 & Hone & Hinv1).
  cbn [schedule]. rewrite Hone. by apply IH.
Qed.

Lemma race_invariant_start w p r n :
  idle w = true ->
  heap w !! p = Some r ->
  race_invariant w p r n (w, goroutines n).
Proof.
  intros Hidle%idle_Free Hr. unfold goroutines. cbn [race_invariant].
  rewrite length_replicate, !tally_replicate. cbn [holds_RLock has_stored mutex_with].
  repeat split; try done.
  - exists r. repeat split; try done; lia.
  - by apply Forall_replicate.
Qed.

(** X12. Goroutines that call [GetPlugin] on a registered channel at
    the same time are safe in every schedule: no step panics; the
    loader's map, the other records and the log of outside calls stay
    as they were; the record keeps its path, instance, info and load
    time; every goroutine that has finished got the stored instance and
    no error; the mutex counts exactly the goroutines between [RLock]
    and [RUnlock], and it is free once all have finished. *)
Theorem GetPlugin_goroutines_are_safe channelID w p r n order :
  idle w = true ->
  lookup_channel w channelID = Some (Some p) ->
  heap w !! p = Some r ->
  - 2 ^ 63 <= UsageCount r ->
  UsageCount r + Z.of_nat n < 2 ^ 63 ->
  exists w' pool',
    schedule channelID order (w, goroutines n) = Some (w', pool') /\
    length pool' = n /\
    plugins (pl w') = plugins (pl w) /\ maps w' = maps w /\ calls w' = calls w /\
    mutex (pl w') = mutex_with (tally holds_RLock pool') /\
    (forallb finished pool' = true -> idle w' = true) /\
    (forall q, q <> p -> heap w' !! q = heap w !! q) /\
    (exists r', heap w' !! p = Some r' /\ Path r' = Path r /\ Instance r' = Instance r /\
                Info r' = Info r /\ LoadedAt r' = LoadedAt r) /\
    (forall i result, pool' !! i = Some (Finished result) -> result = (Instance r, None)).
Proof.
  intros Hidle Hp Hr Hlow Hhigh.
  destruct (schedule_keeps_invariant channelID w p r n order (w, goroutines n) Hp Hlow Hhigh)
    as ([w' pool'] & Hrun & Hinv); [by apply race_invariant_start|].
  destruct Hinv as (Hlen & Hpl & Hmu & Hmaps & Hcalls & Hdisk & Hothers &
          (r' & Hr' & HPath & HPlugin & HInstance & HInfo & HLoadedAt & _) & Hall).
  exists w', pool'. repeat split; try done.
  - intros [Hfree _]%tally_finished. unfold idle. by rewrite Hmu, Hfree.
  - by exists r'.
  - intros i result Hi. exact (Forall_lookup_1 _ _ _ _ Hall Hi).
Qed.

Lemma GetPlugin_goroutines_are_safe_witness :
  idle mock_world = true /\
  lookup_channel mock_world "mock" = Some (Some 0%nat) /\
  heap mock_world !! 0%nat = Some mock_record /\
  - 2 ^ 63 <= UsageCount mock_record /\
  UsageCount mock_record + Z.of_nat 3 < 2 ^ 63 /\
  exists w' pool',
    schedule "mock" [0; 1; 2; 2; 1; 0; 0; 0; 1; 2; 0; 0; 0; 0]%nat (mock_world, goroutines 3)
      = Some (w', pool') /\
    length pool' = 3%nat /\
    plugins (pl w') = plugins (pl mock_world) /\ maps w' = maps mock_world /\
    calls w' = calls mock_world /\
    mutex (pl w') = mutex_with (tally holds_RLock pool') /\
    (forallb finished pool' = true -> idle w' = true) /\
    (forall q, q <> 0%nat -> heap w' !! q = heap mock_world !! q) /\
    (exists r', heap w' !! 0%nat = Some r' /\ Path r' = Path mock_record /\
                Instance r' = Instance mock_record /\
                Info r' = Info mock_record /\ LoadedAt r' = LoadedAt mock_record) /\
    (forall i result, pool' !! i = Some (Finished result) ->
       result = (Instance mock_record, None)).
Proof.
  do 3 (split; [reflexivity|]). split; [simpl; lia|]. split; [simpl; lia|].
  apply (GetPlugin_goroutines_are_safe "mock" mock_world 0%nat mock_record 3
           [0; 1; 2; 2; 1; 0; 0; 0; 1; 2; 0; 0; 0; 0]%nat);
    [reflexivity | reflexivity | reflexivity | simpl; lia | simpl; lia].
Defined.

(** X13. What the race on [UsageCount++] can cost: when [n >= 1]
    goroutines have all finished their [GetPlugin] on one registered
    channel, in whatever schedule, the count has grown by at least 1
    and at most [n]. *)
Theorem GetPlugin_race_bounds channelID w p r n order w' pool' :
  idle w = true ->
  lookup_channel w channelID = Some (Some p) ->
  heap w !! p = Some r ->
  - 2 ^ 63 <= UsageCount r ->
  UsageCount r + Z.of_nat n < 2 ^ 63 ->
  (1 <= n)%nat ->
  schedule channelID order (w, goroutines n) = Some (w', pool') ->
  forallb finished pool' = true ->
  exists r',
    record_of w' channelID = Some r' /\
    UsageCount r + 1 <= UsageCount r' <= UsageCount r + Z.of_nat n.
Proof.
  intros Hidle Hp Hr Hlow Hhigh Hn Hrun Hdone.
  destruct (schedule_keeps_invariant channelID w p r n order (w, goroutines n) Hp Hlow Hhigh)
    as (cfg' & Hrun' & Hinv); [by apply race_invariant_start|].
  rewrite Hrun in Hrun'. injection Hrun' as <-.
  destruct Hinv as (Hlen & Hpl & Hmu & Hmaps & Hcalls & Hdisk & Hothers &
          (r' & Hr' & _ & _ & _ & _ & _ & Hcount & Hcount1) & Hall).
  destruct (tally_finished pool' Hdone) as [_ Hstored]. rewrite Hstored, Hlen in *.
  exists r'. split; [|lia].
  unfold record_of, lookup_channel in *. rewrite Hmaps, Hpl.
  destruct (maps w !! plugins (pl w)) as [ps|]; [|done]. simpl in *.
  injection Hp as ->. done.
Qed.

Lemma GetPlugin_race_bounds_witness :
  idle mock_world = true /\
  lookup_channel mock_world "mock" = Some (Some 0%nat) /\
  heap mock_world !! 0%nat = Some mock_record /\
  - 2 ^ 63 <= UsageCount mock_record /\
  UsageCount mock_record + Z.of_nat 2 < 2 ^ 63 /\
  (1 <= 2)%nat /\
  schedule "mock" [0; 0; 0; 1; 1; 1; 1; 1; 0; 0; 1; 1; 1; 0; 0; 0]%nat
    (mock_world, goroutines 2)
    = Some (with_clock 116
              (with_heap [set_UsageCount 1 (set_LastUsed 102 mock_record)] mock_world),
            [Finished (Instance mock_record, None); Finished (Instance mock_record, None)]) /\
  forallb finished
    [Finished (Instance mock_record, None); Finished (Instance mock_record, None)] = true /\
  exists r',
    record_of (with_clock 116
                 (with_heap [set_UsageCount 1 (set_LastUsed 102 mock_record)] mock_world))
      "mock" = Some r' /\
    UsageCount mock_record + 1 <= UsageCount r' <= UsageCount mock_record + Z.of_nat 2.
Proof.
  do 3 (split; [reflexivity|]). split; [simpl; lia|]. split; [simpl; lia|].
  split; [lia|]. split; [vm_compute; reflexivity|]. split; [reflexivity|].
  apply (GetPlugin_race_bounds "mock" mock_world 0%nat mock_record 2
           [0; 0; 0; 1; 1; 1; 1; 1; 0; 0; 1; 1; 1; 0; 0; 0]%nat
           (with_clock 116
              (with_heap [set_UsageCount 1 (set_LastUsed 102 mock_record)] mock_world))
           [Finished (Instance mock_record, None); Finished (Instance mock_record, None)]);
    [reflexivity | reflexivity | reflexivity | simpl; lia | simpl; lia | lia
    | vm_compute; reflexivity | reflexivity].
Defined.

(** A step that returns brings the goroutine nearer to its end, and a
    step blocks only while a writer holds the mutex. *)
Lemma GetPlugin_step_advances channelID pc w pc' w' :
  GetPlugin_step channelID pc w = (Returns pc', w') ->
  (steps_left pc' <= steps_left pc - 1)%nat.
Proof.
  destruct w as [[m mu] ms h t d cs]. destruct pc; go_unfold.
  all: repeat (let H := fresh "H" in go_case H).
  all: intros [= <- <-]; simpl; lia.
Qed.

Lemma GetPlugin_step_blocks channelID pc w w' :
  GetPlugin_step channelID pc w = (Blocks, w') -> mutex (pl w) = Writer.
Proof.
  destruct w as [[m mu] ms h t d cs]. destruct pc; go_unfold.
  all: repeat (let H := fresh "H" in go_case H).
  all: by intros [=].
Qed.

Lemma schedule_one_turn channelID i w pool cfg' :
  mutex (pl w) <> Writer ->
  schedule_one channelID i (w, pool) = Some cfg' ->
  (forall j, j <> i -> cfg'.2 !! j = pool !! j) /\
  (forall pc, pool !! i = Some pc ->
     exists pc', cfg'.2 !! i = Some pc' /\ (steps_left pc' <= steps_left pc - 1)%nat).
Proof.
  intros Hmu. unfold schedule_one. destruct (pool !! i) as [pc|] eqn:Hi.
  2: { intros [= <-]. split; [done|]. by intros pc. }
  destruct (GetPlugin_step channelID pc w) as [[pc'|msg|] w1] eqn:Hstep; [| done |].
  - intros [= <-]. cbn [snd]. split.
    + intros j Hj. by rewrite list_lookup_insert_ne.
    + intros pc0 [= <-]. exists pc'.
      rewrite list_lookup_insert_eq by eauto using lookup_lt_Some.
      split; [done|]. by eapply GetPlugin_step_advances.
  - by apply GetPlugin_step_blocks in Hstep.
Qed.

Lemma turns_cons i j order :
  turns i (j :: order) = ((if Nat.eqb i j then 1 else 0) + turns i order)%nat.
Proof. unfold turns. simpl. by destruct (Nat.eqb i j). Qed.

Lemma mutex_with_not_Writer k : mutex_with k <> Writer.
Proof. by destruct k. Qed.

Lemma schedule_turns channelID w0 p r0 n order : forall cfg cfg',
  lookup_channel w0 channelID = Some (Some p) ->
  - 2 ^ 63 <= UsageCount r0 ->
  UsageCount r0 + Z.of_nat n < 2 ^ 63 ->
  race_invariant w0 p r0 n cfg ->
  schedule channelID order cfg = Some cfg' ->
  forall i pc, cfg.2 !! i = Some pc ->
    exists pc', cfg'.2 !! i = Some pc' /\
      (steps_left pc' <= steps_left pc - turns i order)%nat.
Proof.
  induction order as [|j order IH]; intros cfg cfg' Hp Hlow Hhigh Hinv Hrun i pc Hi.
  - injection Hrun as <-. exists pc. split; [done|]. unfold turns. simpl. lia.
  - destruct (schedule_one_keeps_invariant channelID w0 p r0 n j cfg Hp Hlow Hhigh Hinv)
      as (cfg1 & Hone & Hinv1).
    cbn [schedule] in Hrun. rewrite Hone in Hrun.
    destruct cfg as [w pool].
    assert (Hmu : mutex (pl w) <> Writer).
    { destruct Hinv as (_ & _ & -> & _). apply mutex_with_not_Writer. }
    destruct (schedule_one_turn channelID j w pool cfg1 Hmu Hone) as [Hother Hthis].
    rewrite turns_cons. destruct (Nat.eqb_spec i j) as [->|Hne].
    + destruct (Hthis pc Hi) as (pc1 & Hi1 & Hless).
      destruct (IH cfg1 cfg' Hp Hlow Hhigh Hinv1 Hrun j pc1 Hi1) as (pc' & Hi' & Hless').
      exists pc'. split; [done|lia].
    + cbn [snd] in Hi. rewrite <- (Hother i Hne) in Hi.
      destruct (IH cfg1 cfg' Hp Hlow Hhigh Hinv1 Hrun i pc Hi) as (pc' & Hi' & Hless').
      exists pc'. split; [done|lia].
Qed.

(** X14. Readers do not wait for one another: in every schedule of
    goroutines calling [GetPlugin] on a registered channel, a goroutine
    has finished, with the stored instance and no error, once the
    scheduler has picked it eight times, whatever the other goroutines
    did in between. *)
Theorem GetPlugin_finishes_in_eight_turns channelID w p r n order w' pool' i :
  idle w = true ->
  lookup_channel w channelID = Some (Some p) ->
  heap w !! p = Some r ->
  - 2 ^ 63 <= UsageCount r ->
  UsageCount r + Z.of_nat n < 2 ^ 63 ->
  schedule channelID order (w, goroutines n) = Some (w', pool') ->
  (i < n)%nat ->
  (8 <= turns i order)%nat ->
  pool' !! i = Some (Finished (Instance r, None)).
Proof.
  intros Hidle Hp Hr Hlow Hhigh Hrun Hi Hturns.
  pose proof (race_invariant_start w p r n Hidle Hr) as Hstart.
  destruct (schedule_turns channelID w p r n order (w, goroutines n) (w', pool')
              Hp Hlow Hhigh Hstart Hrun i AtRLock) as (pc' & Hi' & Hleft).
  { cbn [snd]. unfold goroutines. by apply lookup_replicate_2. }
  destruct (schedule_keeps_invariant channelID w p r n order (w, goroutines n) Hp Hlow Hhigh
              Hstart) as (cfg' & Hrun' & Hinv).
  rewrite Hrun in Hrun'. injection Hrun' as <-.
  destruct Hinv as (_ & _ & _ & _ & _ & _ & _ & _ & Hall).
  cbn [snd] in Hi'. pose proof (Forall_lookup_1 _ _ _ _ Hall Hi') as Hsound.
  destruct pc'; cbn [steps_left] in Hleft; try lia.
  cbn [pc_sound] in Hsound. by subst.
Qed.

Lemma GetPlugin_finishes_in_eight_turns_witness :
  idle mock_world = true /\
  lookup_channel mock_world "mock" = Some (Some 0%nat) /\
  heap mock_world !! 0%nat = Some mock_record /\
  - 2 ^ 63 <= UsageCount mock_record /\
  UsageCount mock_record + Z.of_nat 2 < 2 ^ 63 /\
  schedule "mock" [0; 1; 1; 0; 1; 1; 1; 1; 0; 1; 1; 1]%nat (mock_world, goroutines 2)
    = Some (with_clock 112
              (with_mutex (Readers 1)
                 (with_heap [set_UsageCount 1 (set_LastUsed 104 mock_record)] mock_world)),
            [AtStoreLastUsed 0%nat 108; Finished (Instance mock_record, None)]) /\
  (1 < 2)%nat /\
  (8 <= turns 1 [0; 1; 1; 0; 1; 1; 1; 1; 0; 1; 1; 1])%nat /\
  [AtStoreLastUsed 0%nat 108; Finished (Instance mock_record, None)] !! 1%nat
    = Some (Finished (Instance mock_record, None)).
Proof.
  do 3 (split; [reflexivity|]). split; [simpl; lia|]. split; [simpl; lia|].
  split; [vm_compute; reflexivity|]. split; [lia|]. split; [vm_compute; lia|].
  apply (GetPlugin_finishes_in_eight_turns "mock" mock_world 0%nat mock_record 2
           [0; 1; 1; 0; 1; 1; 1; 1; 0; 1; 1; 1]%nat
           (with_clock 112
              (with_mutex (Readers 1)
                 (with_heap [set_UsageCount 1 (set_LastUsed 104 mock_record)] mock_world)))
           [AtStoreLastUsed 0%nat 108; Finished (Instance mock_record, None)] 1%nat);
    [reflexivity | reflexivity | reflexivity | simpl; lia | simpl; lia
    | vm_compute; reflexivity | lia | vm_compute; lia].
Defined.

(** ** The stages of LoadPlugin *)

(** X15. On an absent channel [LoadPlugin] stops at the first stage
    that fails and says which: the file does not open (the cause is
    wrapped, nothing else was called); the file exports no [NewPlugin]
    (the factory was not called); [NewPlugin] is not a
    [func() interfaces.Plugin]; the info that the instance returns
    fails validation (the instance was created and asked, then dropped).
    In each case the error is returned and only the log of outside calls
    has grown.  When [GetInfo] of the instance panics instead, the load
    ends with that panic, and again only the log has grown. *)
Theorem LoadPlugin_stops_at_first_failure pluginPath channelID w :
  idle w = true ->
  lookup_channel w channelID = Some None ->
  (forall err, disk w pluginPath = inr err ->
     LoadPlugin pluginPath channelID w
       = (Returns (Some (OpenFailed pluginPath err)), with_call (CallOpen pluginPath) w)) /\
  (forall so, disk w pluginPath = inl so -> dl.syms so "NewPlugin" = None ->
     LoadPlugin pluginPath channelID w
       = (Returns (Some (MissingNewPlugin pluginPath
                           ("plugin: symbol NewPlugin not found in plugin "
                            +:+ dl.pluginpath so))),
          with_call (CallLookup (dl.pluginpath so) "NewPlugin")
            (with_call (CallOpen pluginPath) w))) /\
  (forall so, disk w pluginPath = inl so -> dl.syms so "NewPlugin" = Some dl.OtherSymbol ->
     LoadPlugin pluginPath channelID w
       = (Returns (Some (WrongSignature pluginPath)),
          with_call (CallLookup (dl.pluginpath so) "NewPlugin")
            (with_call (CallOpen pluginPath) w))) /\
  (forall so newPlugin instance info err,
     disk w pluginPath = inl so ->
     dl.syms so "NewPlugin" = Some (dl.Factory newPlugin) ->
     newPlugin tt = Some instance ->
     interfaces.GetInfo instance (length (calls w) + 3) = interfaces.Returned info ->
     validatePluginInfo info = Some err ->
     LoadPlugin pluginPath channelID w
       = (Returns (Some (ValidationFailed pluginPath err)),
          with_call (CallGetInfo instance)
            (with_call (CallNewPlugin (dl.pluginpath so))
               (with_call (CallLookup (dl.pluginpath so) "NewPlugin")
                  (with_call (CallOpen pluginPath) w))))) /\
  (forall so newPlugin instance msg,
     disk w pluginPath = inl so ->
     dl.syms so "NewPlugin" = Some (dl.Factory newPlugin) ->
     newPlugin tt = Some instance ->
     interfaces.GetInfo instance (length (calls w) + 3) = interfaces.Panicked msg ->
     LoadPlugin pluginPath channelID w
       = (Panics msg,
          with_call (CallGetInfo instance)
            (with_call (CallNewPlugin (dl.pluginpath so))
               (with_call (CallLookup (dl.pluginpath so) "NewPlugin")
                  (with_call (CallOpen pluginPath) w))))).
Proof.
  intros Hidle%idle_Free (ps & Hps & Hp)%lookup_channel_Some.
  destruct w as [[m mu] ms h t d cs]. cbn [pl maps plugins mutex heap clock disk calls] in *.
  subst mu. repeat split.
  - intros err Hdisk. go_unfold. rewrite Hps, Hp. go_reduce. by rewrite Hdisk.
  - intros so Hdisk Hsym. go_unfold. rewrite Hps, Hp. go_reduce. rewrite Hdisk. go_reduce.
    unfold dl.Lookup. by rewrite Hsym.
  - intros so Hdisk Hsym. go_unfold. rewrite Hps, Hp. go_reduce. rewrite Hdisk. go_reduce.
    unfold dl.Lookup. by rewrite Hsym.
  - intros so newPlugin instance info err Hdisk Hsym Hnew Hinfo Hinvalid.
    go_unfold. rewrite Hps, Hp. go_reduce. rewrite Hdisk. go_reduce.
    unfold dl.Lookup. rewrite Hsym. go_reduce. rewrite Hnew. go_reduce.
    rewrite fourth_call, Hinfo. go_reduce. by rewrite Hinvalid.
  - intros so newPlugin instance msg Hdisk Hsym Hnew Hpanic.
    go_unfold. rewrite Hps, Hp. go_reduce. rewrite Hdisk. go_reduce.
    unfold dl.Lookup. rewrite Hsym. go_reduce. rewrite Hnew. go_reduce.
    by rewrite fourth_call, Hpanic.
Qed.

Lemma LoadPlugin_stops_at_first_failure_witness :
  idle mock_world = true /\
  lookup_channel mock_world "mute" = Some None /\
  LoadPlugin "/plugins/none.so" "mute" mock_world
    = (Returns (Some (OpenFailed "/plugins/none.so"
                        "plugin.Open(/plugins/none.so): realpath failed")),
       with_call (CallOpen "/plugins/none.so") mock_world) /\
  LoadPlugin "/plugins/mute.so" "mute" mock_world
    = (Returns (Some (ValidationFailed "/plugins/mute.so" InfoIsNil)),
       with_call (CallGetInfo (MockPlugin None))
         (with_call (CallNewPlugin "/plugins/mute.so")
            (with_call (CallLookup "/plugins/mute.so" "NewPlugin")
               (with_call (CallOpen "/plugins/mute.so") mock_world)))).
Proof.
  split; [reflexivity|]. split; [reflexivity|].
  destruct (LoadPlugin_stops_at_first_failure "/plugins/none.so" "mute" mock_world)
    as (Hopen & _); [reflexivity | reflexivity |].
  destruct (LoadPlugin_stops_at_first_failure "/plugins/mute.so" "mute" mock_world)
    as (_ & _ & _ & Hinvalid & _); [reflexivity | reflexivity |].
  split.
  - apply Hopen. reflexivity.
  - apply (Hinvalid mute_so (fun _ => Some (MockPlugin None)) (MockPlugin None) None
             InfoIsNil); reflexivity.
Defined.

(** ** Helpers of the demo programs *)

Lemma append_cons c (s t : string) : String c s +:+ t = String c (s +:+ t).
Proof. reflexivity. Qed.

Lemma append_nil_r (s : string) : s +:+ "" = s.
Proof. induction s as [|c s IH]; [done|]. by rewrite append_cons, IH. Qed.

Lemma append_assoc (s1 s2 s3 : string) : (s1 +:+ s2) +:+ s3 = s1 +:+ (s2 +:+ s3).
Proof. induction s1 as [|c s1 IH]; [done|]. by rewrite !append_cons, IH. Qed.

Lemma length_append (s1 s2 : string) :
  String.length (s1 +:+ s2) = (String.length s1 + String.length s2)%nat.
Proof. induction s1 as [|c s1 IH]; [done|]. rewrite append_cons. simpl. by rewrite IH. Qed.

Lemma repeatString_loop_result n s : forall result,
  repeatString_loop n s result = result +:+ repeatString_loop n s "".
Proof.
  induction n as [|n IH]; intros result; cbn [repeatString_loop].
  - by rewrite append_nil_r.
  - rewrite (IH (result +:+ s)), (IH ("" +:+ s)). change ("" +:+ s) with s.
    by rewrite append_assoc.
Qed.

Lemma repeatString_loop_plus a b s :
  repeatString_loop (a + b) s "" = repeatString_loop a s "" +:+ repeatString_loop b s "".
Proof.
  induction a as [|a IH]; [done|]. cbn [Nat.add repeatString_loop].
  change ("" +:+ s) with s.
  rewrite (repeatString_loop_result (a + b)), (repeatString_loop_result a), IH.
  by rewrite append_assoc.
Qed.

(** X16. [repeatString(s, count)] is [count] copies of [s]: its length
    is [count] times the length of [s], a count that is zero or negative
    gives the empty string (no panic), and counts add up:
    [repeatString(s, a + b)] is [repeatString(s, a)] followed by
    [repeatString(s, b)] for non-negative [a] and [b]. *)
Theorem repeatString_copies s :
  (forall count,
     String.length (repeatString s count) = (Z.to_nat count * String.length s)%nat) /\
  (forall count, count <= 0 -> repeatString s count = "") /\
  (forall a b, 0 <= a -> 0 <= b ->
     repeatString s (a + b) = repeatString s a +:+ repeatString s b).
Proof.
  unfold repeatString. split; [|split].
  - intros count. induction (Z.to_nat count) as [|n IH]; [done|].
    cbn [repeatString_loop]. change ("" +:+ s) with s.
    rewrite repeatString_loop_result, length_append, IH. lia.
  - intros count Hcount. by replace (Z.to_nat count) with 0%nat by lia.
  - intros a b Ha Hb. rewrite Z2Nat.inj_add by done. apply repeatString_loop_plus.
Qed.

Lemma repeatString_copies_witness :
  repeatString "=" (-3) = "" /\
  repeatString "ab" (2 + 1) = repeatString "ab" 2 +:+ repeatString "ab" 1.
Proof.
  destruct (repeatString_copies "=") as (_ & Hempty & _).
  destruct (repeatString_copies "ab") as (_ & _ & Hsum).
  split; [apply Hempty; lia|apply Hsum; lia].
Defined.


Lemma wrap64_inj_near a b :
  Z.abs (a - b) < 2 ^ 64 -> wrap64 a = wrap64 b -> a = b.
Proof.
  unfold wrap64. intros Hab Heq.
  assert (H : (a + 2 ^ 63) mod 2 ^ 64 = (b + 2 ^ 63) mod 2 ^ 64) by lia.
  pose proof (Z.div_mod (a + 2 ^ 63) (2 ^ 64) ltac:(lia)) as Ha.
  pose proof (Z.div_mod (b + 2 ^ 63) (2 ^ 64) ltac:(lia)) as Hb.
  rewrite H in Ha. lia.
Qed.

Lemma UnixNano_inj_near t u :
  Z.abs (t - u) < 2 ^ 64 -> UnixNano t = UnixNano u -> t = u.
Proof.
  unfold UnixNano. intros Htu Heq. apply wrap64_inj_near in Heq; lia.
Qed.

(** X17. Two request ids made by [generateRequestID] at clock readings
    less than 2^64 nanoseconds (584 years) apart are equal exactly when
    the clock showed the same nanosecond at both calls: ids taken at
    different readings differ, ids taken within one reading collide. *)
Theorem generateRequestID_equal_iff_same_reading w1 w2 :
  Z.abs (clock w1 - clock w2) < 2 ^ 64 ->
  (generateRequestID w1).1 = (generateRequestID w2).1 <-> clock w1 = clock w2.
Proof.
  intros Hnear. unfold generateRequestID, bind, time_Now, ret. cbn [fst]. split.
  - intros Heq.
    assert (H : "REQ_" +:+ pretty (UnixNano (clock w1))
                = "REQ_" +:+ pretty (UnixNano (clock w2))) by congruence.
    apply (inj (String.append "REQ_")) in H. apply (inj pretty) in H.
    by apply UnixNano_inj_near.
  - by intros ->.
Qed.

Lemma generateRequestID_equal_iff_same_reading_witness :
  Z.abs (clock mock_world - clock (with_clock 7 mock_world)) < 2 ^ 64 /\
  ((generateRequestID mock_world).1 = (generateRequestID (with_clock 7 mock_world)).1
   <-> clock mock_world = clock (with_clock 7 mock_world)).
Proof.
  split; [vm_compute; reflexivity|].
  apply (generateRequestID_equal_iff_same_reading mock_world (with_clock 7 mock_world)).
  vm_compute; reflexivity.
Defined.

(** ** The gateway of cmd/multi_channel_demo *)

Lemma ListChannels_keys (pg : gateway.PaymentGateway) :
  gateway.ListChannels pg = reverse (map_to_list (gateway.channels pg)).*1.
Proof.
  unfold gateway.ListChannels. rewrite map_fold_foldr.
  induction (map_to_list (gateway.channels pg)) as [|[k v] l IH]; [done|].
  cbn [foldr fmap list_fmap uncurry fst]. rewrite IH. by rewrite reverse_cons.
Qed.

(** X18. The channel types that [ListChannels] returns are exactly the
    keys for which [GetChannel] answers true, each listed once; so the
    loop of [main], which calls [GetChannel] on every listed type and
    ignores the flag, always finds the channel.  [AddChannel] makes its
    type answer with the channel given (the last one added wins) and
    leaves the other types alone. *)
Theorem gateway_lists_what_it_holds (pg : gateway.PaymentGateway) :
  NoDup (gateway.ListChannels pg) /\
  (forall channelType,
     channelType ∈ gateway.ListChannels pg <->
     (gateway.GetChannel pg channelType).2 = true) /\
  (forall channelType, (gateway.GetChannel gateway.NewPaymentGateway channelType)
                       = (None, false)) /\
  (forall channelType channel,
     gateway.GetChannel (gateway.AddChannel pg channelType channel) channelType
       = (channel, true) /\
     channelType ∈ gateway.ListChannels (gateway.AddChannel pg channelType channel) /\
     forall other, other <> channelType ->
       gateway.GetChannel (gateway.AddChannel pg channelType channel) other
         = gateway.GetChannel pg other).
Proof.
  assert (Hin : forall (pg : gateway.PaymentGateway) channelType,
            channelType ∈ gateway.ListChannels pg <->
            (gateway.GetChannel pg channelType).2 = true).
  { intros pg' channelType. rewrite ListChannels_keys, elem_of_reverse, list_elem_of_fmap.
    unfold gateway.GetChannel. split.
    - intros ([k v] & -> & Hkv). apply elem_of_map_to_list in Hkv. cbn [fst]. by rewrite Hkv.
    - destruct (gateway.channels pg' !! channelType) as [v|] eqn:Hv; [intros _|done].
      exists (channelType, v). split; [done|]. by apply elem_of_map_to_list. }
  split; [|split; [|split]].
  - rewrite ListChannels_keys, reverse_Permutation. apply NoDup_fst_map_to_list.
  - apply Hin.
  - intros channelType. unfold gateway.GetChannel, gateway.NewPaymentGateway.
    cbn [gateway.channels]. by rewrite lookup_empty.
  - intros channelType channel.
    assert (Hget : gateway.GetChannel (gateway.AddChannel pg channelType channel) channelType
                   = (channel, true)).
    { unfold gateway.GetChannel, gateway.AddChannel. cbn [gateway.channels].
      by rewrite lookup_insert_eq. }
    split; [done|]. split; [apply Hin; by rewrite Hget|].
    intros other Hother. unfold gateway.GetChannel, gateway.AddChannel.
    cbn [gateway.channels]. by rewrite lookup_insert_ne.
Qed.

Lemma gateway_lists_what_it_holds_witness :
  gateway.GetChannel (gateway.AddChannel gateway.NewPaymentGateway "alipay" None) "mock"
  = gateway.GetChannel gateway.NewPaymentGateway "mock".
Proof.
  destruct (gateway_lists_what_it_holds gateway.NewPaymentGateway) as (_ & _ & _ & Hadd).
  destruct (Hadd "alipay" None) as (_ & _ & Hother). apply Hother. discriminate.
Defined.


(** * Properties of the mock channel *)

Ltac mock_unfold :=
  cbv beta iota zeta delta
    [mock.CollectOrder mock.PayoutOrder mock.CollectQuery mock.PayoutQuery
     mock.BalanceInquiry mock.Callback mock.Initialize mock.simulateDelay
     mock.shouldSucceed mock.due mock.time_Since mock.time_Now mock.time_Sleep
     mock.rand_Float64 mock.bind mock.ret mock.panic mock.deref mock.receiver
     mock.store_order mock.store_config mock.with_mc mock.reply mock.ask
     mock.mc mock.wall mock.lag mock.reads mock.fortune mock.draws mock.naps
     mock.oversleep
     mock.config mock.orders fst snd].

Ltac mock_case :=
  match goal with
  | |- context [match ?x with _ => _ end] =>
      lazymatch x with
      | context [match _ with _ => _ end] => fail
      | _ => destruct x eqn:?; mock_unfold
      end
  end.

Lemma wrap64_delay ms : 0 <= ms <= 10000 -> wrap64 (ms * mock.Millisecond) = ms * mock.Millisecond.
Proof. intros H. apply wrap64_small. unfold mock.Millisecond. lia. Qed.

Lemma time_Sub_late (after t u : Z) :
  0 <= after < 2 ^ 63 - 1 -> (after <? mock.time_Sub t u)%Z = (after <? t - u)%Z.
Proof. unfold mock.time_Sub. intros H. apply eq_true_iff_eq. rewrite !Z.ltb_lt. lia. Qed.

(** [simulateDelay] returns, leaves the channel alone and moves the
    clock forward or not at all. *)
Lemma simulateDelay_returns w :
  exists w', mock.simulateDelay w = (Returns tt, w') /\
    mock.mc w' = mock.mc w /\ mock.lag w' = mock.lag w /\
    mock.reads w' = mock.reads w /\ mock.fortune w' = mock.fortune w /\
    mock.draws w' = mock.draws w /\ mock.wall w <= mock.wall w'.
Proof.
  destruct w as [[c o] t l r f d n z]. mock_unfold.
  destruct (c !! "mock_delay_ms") as [[]|]; eexists; (split; [reflexivity|]);
    mock_unfold; repeat split; lia.
Qed.

(** X19. With a configuration that [ValidateConfig] accepts,
    [simulateDelay] asks [time.Sleep] at most once and for at most ten
    seconds: when [mock_delay_ms] is an [int] it asks for exactly that
    many milliseconds, between 0 and 10000 (the product does not
    overflow), and the clock has then moved on by at least that much;
    otherwise it does not sleep at all.  The channel is left alone.  How
    much longer than asked a pause lasts is not in the hands of the
    code. *)
Theorem ValidateConfig_bounds_delay c w :
  mock.ValidateConfig c = None ->
  mock.config (mock.mc w) = c ->
  exists w', mock.simulateDelay w = (Returns tt, w') /\
    mock.mc w' = mock.mc w /\
    match c !! "mock_delay_ms" with
    | Some (AnInt ms) =>
        0 <= ms <= 10000 /\
        mock.naps w' = (mock.naps w ++ [ms * mock.Millisecond])%list /\
        ms * mock.Millisecond <= 10 * mock.Second /\
        mock.wall w + ms * mock.Millisecond <= mock.wall w'
    | _ => w' = w
    end.
Proof.
  destruct w as [[c' o] t l r f d n z]. cbn [mock.mc mock.config]. intros Hv ->.
  unfold mock.ValidateConfig in Hv. mock_unfold.
  destruct (c !! "mock_delay_ms") as [[ms| | | | |]|] eqn:Hd;
    try (eexists; split; [reflexivity|]; by mock_unfold).
  destruct ((ms <? 0)%Z || (10000 <? ms)%Z) eqn:Hb; [done|].
  apply orb_false_iff in Hb as [H1%Z.ltb_ge H2%Z.ltb_ge].
  eexists; split; [reflexivity|]. mock_unfold.
  rewrite wrap64_delay by lia. unfold mock.Millisecond, mock.Second.
  repeat split; lia.
Qed.

Lemma ValidateConfig_bounds_delay_witness :
  exists w', mock.simulateDelay mock.demo_world = (Returns tt, w') /\
    mock.mc w' = mock.mc mock.demo_world /\
    match mock.demo_config !! "mock_delay_ms" with
    | Some (AnInt ms) =>
        0 <= ms <= 10000 /\
        mock.naps w' = (mock.naps mock.demo_world ++ [ms * mock.Millisecond])%list /\
        ms * mock.Millisecond <= 10 * mock.Second /\
        mock.wall mock.demo_world + ms * mock.Millisecond <= mock.wall w'
    | _ => w' = mock.demo_world
    end.
Proof.
  apply (ValidateConfig_bounds_delay mock.demo_config mock.demo_world).
  - vm_compute; reflexivity.
  - reflexivity.
Defined.

(** X20. [CollectOrder] and [PayoutOrder] never refuse and never fail to
    record: whatever the configuration, the order book and the draw of
    [shouldSucceed], the call returns a response and a nil error, and the
    book then holds under the request's [OrderID] a new order in status
    "pending" (resp. "processing") with the request's amount, currency
    and customer (resp. recipient) and the [ChannelOrderID] of the
    response, replacing what was stored under that identifier.  This is
    so also when the response says [Success] false and status "failed".
    Other orders and the configuration are untouched. *)
Theorem orders_are_always_recorded w :
  (forall req, exists resp w' created,
     mock.CollectOrder (Some req) w = (Returns (Some resp, None), w') /\
     mock.orders (mock.mc w') =
       <[CollectOrderRequest.OrderID req :=
           {| MockOrder.OrderID := CollectOrderRequest.OrderID req;
              MockOrder.ChannelOrderID := CollectOrderResponse.ChannelOrderID resp;
              MockOrder.Amount := CollectOrderRequest.Amount req;
              MockOrder.Currency := CollectOrderRequest.Currency req;
              MockOrder.Status := "pending";
              MockOrder.CreatedAt := created;
              MockOrder.PaidAt := None;
              MockOrder.CompletedAt := None;
              MockOrder.CustomerInfo := CollectOrderRequest.CustomerInfo req;
              MockOrder.RecipientInfo := None |}]> (mock.orders (mock.mc w)) /\
     mock.config (mock.mc w') = mock.config (mock.mc w) /\
     mock.wall w <= created <= BaseResponse.Timestamp (CollectOrderResponse.Base resp) /\
     BaseResponse.RequestID (CollectOrderResponse.Base resp)
       = BaseRequest.RequestID (CollectOrderRequest.Base req) /\
     CollectOrderResponse.OrderID resp = CollectOrderRequest.OrderID req /\
     (BaseResponse.Success (CollectOrderResponse.Base resp) = true /\
      CollectOrderResponse.Status resp = "pending" \/
      BaseResponse.Success (CollectOrderResponse.Base resp) = false /\
      CollectOrderResponse.Status resp = "failed")) /\
  (forall req, exists resp w' created,
     mock.PayoutOrder (Some req) w = (Returns (Some resp, None), w') /\
     mock.orders (mock.mc w') =
       <[PayoutOrderRequest.OrderID req :=
           {| MockOrder.OrderID := PayoutOrderRequest.OrderID req;
              MockOrder.ChannelOrderID := PayoutOrderResponse.ChannelOrderID resp;
              MockOrder.Amount := PayoutOrderRequest.Amount req;
              MockOrder.Currency := PayoutOrderRequest.Currency req;
              MockOrder.Status := "processing";
              MockOrder.CreatedAt := created;
              MockOrder.PaidAt := None;
              MockOrder.CompletedAt := None;
              MockOrder.CustomerInfo := None;
              MockOrder.RecipientInfo := PayoutOrderRequest.RecipientInfo req |}]>
         (mock.orders (mock.mc w)) /\
     mock.config (mock.mc w') = mock.config (mock.mc w) /\
     mock.wall w <= created <= BaseResponse.Timestamp (PayoutOrderResponse.Base resp) /\
     BaseResponse.RequestID (PayoutOrderResponse.Base resp)
       = BaseRequest.RequestID (PayoutOrderRequest.Base req) /\
     PayoutOrderResponse.OrderID resp = PayoutOrderRequest.OrderID req /\
     (BaseResponse.Success (PayoutOrderResponse.Base resp) = true /\
      PayoutOrderResponse.Status resp = "processing" \/
      BaseResponse.Success (PayoutOrderResponse.Base resp) = false /\
      PayoutOrderResponse.Status resp = "failed")).
Proof.
  destruct w as [[c o] t l r f d n z]. split; intros req; mock_unfold; repeat mock_case;
    (eexists _, _, _; split; [reflexivity|]);
    cbn; (repeat split; try lia); auto.
Qed.

(** X21. A query for an order identifier that the book does not hold is
    answered, not refused: [CollectQuery] and [PayoutQuery] return a
    response with [Success] false and code "ORDER_NOT_FOUND", the
    request's [RequestID], every order field at its zero value, and a nil
    error; the channel is left as it was. *)
Theorem unknown_order_is_reported w cq pq :
  mock.orders (mock.mc w) !! CollectQueryRequest.OrderID cq = None ->
  mock.orders (mock.mc w) !! PayoutQueryRequest.OrderID pq = None ->
  (exists now w',
     mock.CollectQuery (Some cq) w
     = (Returns (Some {| CollectQueryResponse.Base :=
                           mock.reply false "ORDER_NOT_FOUND" "Mock order not found"
                             (BaseRequest.RequestID (CollectQueryRequest.Base cq)) now;
                         CollectQueryResponse.OrderID := "";
                         CollectQueryResponse.ChannelOrderID := "";
                         CollectQueryResponse.Amount := PrimFloat.zero;
                         CollectQueryResponse.Currency := "";
                         CollectQueryResponse.Status := "";
                         CollectQueryResponse.PaidAt := None |}, None), w') /\
     mock.mc w' = mock.mc w /\ mock.wall w <= now) /\
  (exists now w',
     mock.PayoutQuery (Some pq) w
     = (Returns (Some {| PayoutQueryResponse.Base :=
                           mock.reply false "ORDER_NOT_FOUND" "Mock order not found"
                             (BaseRequest.RequestID (PayoutQueryRequest.Base pq)) now;
                         PayoutQueryResponse.OrderID := "";
                         PayoutQueryResponse.ChannelOrderID := "";
                         PayoutQueryResponse.Amount := PrimFloat.zero;
                         PayoutQueryResponse.Currency := "";
                         PayoutQueryResponse.Status := "";
                         PayoutQueryResponse.CompletedAt := None |}, None), w') /\
     mock.mc w' = mock.mc w /\ mock.wall w <= now).
Proof.
  destruct w as [[c o] t l r f d n z]. cbn [mock.mc mock.orders mock.wall].
  intros Hc Hp. split; mock_unfold;
    destruct (c !! "mock_delay_ms") as [[]|]; mock_unfold; rewrite ?Hc, ?Hp;
    (eexists _, _; split; [reflexivity|]); split; try done; lia.
Qed.

Lemma unknown_order_is_reported_witness :
  exists now w',
    mock.CollectQuery (Some mock.demo_collect_query) mock.demo_world
    = (Returns (Some {| CollectQueryResponse.Base :=
                          mock.reply false "ORDER_NOT_FOUND" "Mock order not found" "REQ_1" now;
                        CollectQueryResponse.OrderID := "";
                        CollectQueryResponse.ChannelOrderID := "";
                        CollectQueryResponse.Amount := PrimFloat.zero;
                        CollectQueryResponse.Currency := "";
                        CollectQueryResponse.Status := "";
                        CollectQueryResponse.PaidAt := None |}, None), w') /\
    mock.mc w' = mock.mc mock.demo_world /\ mock.wall mock.demo_world <= now.
Proof.
  apply (unknown_order_is_reported mock.demo_world mock.demo_collect_query
           mock.demo_payout_query); reflexivity.
Defined.

(** X22. The completion rule of [CollectQuery].  For a stored order in
    status "pending" the query reads the clock once after its delay; if
    that reading is more than five seconds after [CreatedAt] the order
    is completed in the book, [PaidAt] is set to the next reading of the
    clock, and the response shows "completed" with that [PaidAt];
    otherwise the channel is unchanged and the response shows "pending".
    The response is a success either way and repeats the stored data. *)
Theorem CollectQuery_completion_rule w req mockOrder :
  mock.orders (mock.mc w) !! CollectQueryRequest.OrderID req = Some mockOrder ->
  MockOrder.Status mockOrder = "pending" ->
  exists resp w',
    mock.CollectQuery (Some req) w = (Returns (Some resp, None), w') /\
    BaseResponse.Success (CollectQueryResponse.Base resp) = true /\
    CollectQueryResponse.OrderID resp = MockOrder.OrderID mockOrder /\
    CollectQueryResponse.ChannelOrderID resp = MockOrder.ChannelOrderID mockOrder /\
    CollectQueryResponse.Amount resp = MockOrder.Amount mockOrder /\
    CollectQueryResponse.Currency resp = MockOrder.Currency mockOrder /\
    let seen := mock.wall (mock.simulateDelay w).2 + Z.of_nat (mock.lag w (mock.reads w)) in
    if decide (5 * mock.Second < seen - MockOrder.CreatedAt mockOrder)
    then exists paid,
        seen <= paid <= BaseResponse.Timestamp (CollectQueryResponse.Base resp) /\
        mock.orders (mock.mc w')
        = <[CollectQueryRequest.OrderID req := mock.set_paid mockOrder paid]>
            (mock.orders (mock.mc w)) /\
        mock.config (mock.mc w') = mock.config (mock.mc w) /\
        CollectQueryResponse.Status resp = "completed" /\
        CollectQueryResponse.PaidAt resp = Some paid
    else mock.mc w' = mock.mc w /\
         CollectQueryResponse.Status resp = "pending" /\
         CollectQueryResponse.PaidAt resp = MockOrder.PaidAt mockOrder.
Proof.
  destruct w as [[c o] t l r f d n z]. cbn [mock.mc mock.orders mock.wall].
  intros Ho Hs. mock_unfold.
  destruct (c !! "mock_delay_ms") as [[]|]; mock_unfold; rewrite Ho; mock_unfold;
    rewrite Hs; cbn [String.eqb Ascii.eqb Bool.eqb]; mock_unfold;
    rewrite time_Sub_late by (unfold mock.Second; lia);
    (case_decide as Hlate;
     [apply Z.ltb_lt in Hlate as Hb | apply Z.ltb_nlt in Hlate as Hb]; rewrite Hb);
    mock_unfold; (eexists _, _; split; [reflexivity|]); cbn;
    repeat split; try done; eexists; repeat split; try done; lia.
Qed.

Lemma CollectQuery_completion_rule_witness :
  exists resp w',
    mock.CollectQuery (Some mock.demo_collect_query) mock.demo_later
    = (Returns (Some resp, None), w') /\
    CollectQueryResponse.Status resp = "completed" /\
    CollectQueryResponse.PaidAt resp
    = Some (63900000006 * mock.Second + 50 * mock.Millisecond + 700 + 2000).
Proof.
  destruct (CollectQuery_completion_rule mock.demo_later mock.demo_collect_query
              mock.demo_order eq_refl eq_refl)
    as (resp & w' & Hrun & _ & _ & _ & _ & _ & Hrule).
  exists resp, w'. split; [exact Hrun|].
  vm_compute in Hrun. injection Hrun as <- <-. by vm_compute.
Defined.

(** ** Queries and the order book *)

Lemma advances_refl o : mock.advances o o.
Proof. by left. Qed.

Lemma advances_trans o1 o2 o3 :
  mock.advances o1 o2 -> mock.advances o2 o3 -> mock.advances o1 o3.
Proof.
  intros [->|(Hn & Hc & Hd)] [->|(Hn' & Hc' & Hd')];
    [by left|by right|by right|congruence].
Qed.

Lemma book_advances_refl b : mock.book_advances b b.
Proof. intros orderID. destruct (b !! orderID); [apply advances_refl|done]. Qed.

Lemma book_advances_trans b1 b2 b3 :
  mock.book_advances b1 b2 -> mock.book_advances b2 b3 -> mock.book_advances b1 b3.
Proof.
  intros H12 H23 orderID. specialize (H12 orderID). specialize (H23 orderID).
  destruct (b1 !! orderID), (b2 !! orderID), (b3 !! orderID); try done.
  by eapply advances_trans.
Qed.

Lemma book_advances_insert b orderID o o' :
  b !! orderID = Some o -> mock.advances o o' ->
  mock.book_advances b (<[orderID := o']> b).
Proof.
  intros Hb Ha other. destruct (decide (other = orderID)) as [->|Hne].
  - by rewrite lookup_insert_eq, Hb.
  - rewrite lookup_insert_ne by done. destruct (b !! other); [apply advances_refl|done].
Qed.

Lemma set_paid_advances o now status :
  String.eqb (MockOrder.Status o) status = true -> status <> "completed" ->
  mock.advances o (mock.set_paid o now).
Proof.
  intros Hs%String.eqb_eq Hne. right. unfold mock.same_order_data. cbn.
  repeat split; congruence.
Qed.

Lemma set_completed_advances o now status :
  String.eqb (MockOrder.Status o) status = true -> status <> "completed" ->
  mock.advances o (mock.set_completed o now).
Proof.
  intros Hs%String.eqb_eq Hne. right. unfold mock.same_order_data. cbn.
  repeat split; congruence.
Qed.

Ltac book_solve :=
  first
    [ apply book_advances_refl
    | eapply book_advances_insert;
      [eassumption
      |first [eapply set_paid_advances | eapply set_completed_advances];
       [eassumption|discriminate]] ].

(** One call that creates no order: where it leaves the channel and the
    clock, and that it returns when it is given a request. *)
Lemma ask_frame q w :
  mock.book_advances (mock.orders (mock.mc w)) (mock.orders (mock.mc (mock.ask q w).2)) /\
  mock.config (mock.mc (mock.ask q w).2) = mock.config (mock.mc w) /\
  mock.wall w <= mock.wall (mock.ask q w).2 /\
  (mock.is_nil q = false -> (mock.ask q w).1 = Returns tt).
Proof.
  destruct w as [[c o] t l r f d n z].
  destruct q as [[req|]|[req|]|[req|]|[req|]]; mock_unfold; repeat mock_case;
    cbn; (split; [book_solve|]); (split; [done|]); (split; [lia|]); done.
Qed.

(** X23. Queries, balance inquiries and callbacks keep the order book:
    any sequence of [CollectQuery], [PayoutQuery], [BalanceInquiry] and
    [Callback] calls, each given a request, returns from every call, and
    afterwards the book holds exactly the order identifiers it held
    before; each order is either exactly as it was or has gone from a
    status other than "completed" to "completed", keeping its
    identifiers, amount, currency, creation time, customer and
    recipient.  So no order is created or dropped by asking, and a
    completed order (with its [PaidAt] and [CompletedAt]) is final.  The
    configuration is untouched and the clock has not gone back. *)
Theorem inquiries_keep_the_book qs w :
  forallb (fun q => negb (mock.is_nil q)) qs = true ->
  exists w',
    mock.ask_all qs w = (Returns tt, w') /\
    mock.book_advances (mock.orders (mock.mc w)) (mock.orders (mock.mc w')) /\
    mock.config (mock.mc w') = mock.config (mock.mc w) /\
    mock.wall w <= mock.wall w'.
Proof.
  revert w. induction qs as [|q qs IH]; intros w Hqs.
  - exists w. repeat split; [apply book_advances_refl|lia].
  - cbn [forallb] in Hqs. apply andb_true_iff in Hqs as [Hq%negb_true_iff Hqs].
    destruct (ask_frame q w) as (Hbook & Hconfig & Hwall & Hret).
    specialize (Hret Hq). cbn [mock.ask_all]. unfold mock.bind at 1.
    destruct (mock.ask q w) as [out w1]. cbn [fst snd] in *. subst out.
    destruct (IH w1 Hqs) as (w' & Hrun & Hbook' & Hconfig' & Hwall').
    exists w'. repeat split; [done| |congruence|lia].
    by eapply book_advances_trans.
Qed.

Lemma inquiries_keep_the_book_witness :
  exists w',
    mock.ask_all [mock.AskPayout (Some mock.demo_payout_query);
                  mock.AskCollect (Some mock.demo_collect_query);
                  mock.AskCollect (Some mock.demo_collect_query)] mock.demo_later
    = (Returns tt, w') /\
    mock.book_advances (mock.orders (mock.mc mock.demo_later)) (mock.orders (mock.mc w')) /\
    mock.config (mock.mc w') = mock.config (mock.mc mock.demo_later) /\
    mock.wall mock.demo_later <= mock.wall w'.
Proof.
  apply (inquiries_keep_the_book
           [mock.AskPayout (Some mock.demo_payout_query);
            mock.AskCollect (Some mock.demo_collect_query);
            mock.AskCollect (Some mock.demo_collect_query)] mock.demo_later).
  reflexivity.
Defined.

Lemma ex2_and_l {A B} (P : Prop) (Q : A -> B -> Prop) :
  P -> (exists a b, Q a b) -> exists a b, P /\ Q a b.
Proof. intros HP (a & b & HQ). by exists a, b. Qed.

(** X24. An order is served whatever [CollectOrder] said about it.  A
    [CollectQuery] for the [OrderID] of a preceding [CollectOrder]
    succeeds and reports the order of that request: its amount and
    currency and the [ChannelOrderID] of the order response, in status
    "pending" with no [PaidAt], or "completed" with one.  It never
    reports "failed": this holds also when the order response had
    [Success] false and status "failed". *)
Theorem reported_failure_is_not_recorded w req q :
  CollectQueryRequest.OrderID q = CollectOrderRequest.OrderID req ->
  exists placed w1 found w2,
    mock.CollectOrder (Some req) w = (Returns (Some placed, None), w1) /\
    mock.CollectQuery (Some q) w1 = (Returns (Some found, None), w2) /\
    BaseResponse.Success (CollectQueryResponse.Base found) = true /\
    CollectQueryResponse.OrderID found = CollectOrderRequest.OrderID req /\
    CollectQueryResponse.ChannelOrderID found = CollectOrderResponse.ChannelOrderID placed /\
    CollectQueryResponse.Amount found = CollectOrderRequest.Amount req /\
    CollectQueryResponse.Currency found = CollectOrderRequest.Currency req /\
    (CollectQueryResponse.Status found = "pending" /\
     CollectQueryResponse.PaidAt found = None \/
     CollectQueryResponse.Status found = "completed" /\
     exists paid, CollectQueryResponse.PaidAt found = Some paid /\
                  mock.wall w + 5 * mock.Second < paid).
Proof.
  destruct w as [[c o] t l r f d n z]. intros Hid. mock_unfold.
  destruct (c !! "mock_delay_ms") as [[]|] eqn:Hd; mock_unfold;
    destruct (c !! "success_rate") as [[]|] eqn:Hr; mock_unfold;
    mock_case;
    (eexists _, _; apply ex2_and_l; [reflexivity|]);
    mock_unfold; rewrite Hd; mock_unfold; rewrite Hid, lookup_insert_eq; mock_unfold;
    cbn [MockOrder.Status MockOrder.CreatedAt String.eqb Ascii.eqb Bool.eqb]; mock_unfold;
    rewrite time_Sub_late by (unfold mock.Second; lia);
    match goal with |- context [(?a <? ?b)%Z] => destruct (Z.ltb_spec a b) end;
    mock_unfold; (eexists _, _; split; [reflexivity|]); cbn;
    (repeat split; try done);
    first [by left | right; split; [done|]; eexists; split; [done|]; unfold mock.Second in *; lia].
Qed.

Lemma reported_failure_is_not_recorded_witness :
  exists placed w1 found w2,
    mock.CollectOrder (Some mock.demo_collect) mock.demo_world
    = (Returns (Some placed, None), w1) /\
    mock.CollectQuery (Some mock.demo_collect_query) w1 = (Returns (Some found, None), w2) /\
    BaseResponse.Success (CollectQueryResponse.Base found) = true /\
    CollectQueryResponse.ChannelOrderID found = CollectOrderResponse.ChannelOrderID placed.
Proof.
  destruct (reported_failure_is_not_recorded mock.demo_world mock.demo_collect
              mock.demo_collect_query eq_refl)
    as (placed & w1 & found & w2 & Hplaced & Hfound & Hsuccess & _ & Hid & _).
  by exists placed, w1, found, w2.
Defined.

Lemma PayoutQuery_other_status w q mockOrder :
  mock.orders (mock.mc w) !! PayoutQueryRequest.OrderID q = Some mockOrder ->
  MockOrder.Status mockOrder <> "processing" ->
  exists resp w',
    mock.PayoutQuery (Some q) w = (Returns (Some resp, None), w') /\
    BaseResponse.Success (PayoutQueryResponse.Base resp) = true /\
    PayoutQueryResponse.Status resp = MockOrder.Status mockOrder /\
    PayoutQueryResponse.CompletedAt resp = MockOrder.CompletedAt mockOrder /\
    mock.mc w' = mock.mc w.
Proof.
  destruct w as [[c o] t l r f d n z]. cbn [mock.mc mock.orders].
  intros Ho Hs%String.eqb_neq. mock_unfold.
  destruct (c !! "mock_delay_ms") as [[]|]; mock_unfold; rewrite Ho; mock_unfold;
    rewrite Hs; mock_unfold; by eexists _, _.
Qed.

(** X25. [PayoutQuery] does not ask what kind of order it is given, and
    completes only orders in status "processing".  Asked about a stored
    order in any other status (as every order made by [CollectOrder]
    is: "pending", later "completed"), it answers with [Success] true,
    that status and the order's [CompletedAt], and changes nothing; so
    however often and however late it is asked, such an order stays as
    it is. *)
Theorem PayoutQuery_leaves_other_orders w q mockOrder n :
  mock.orders (mock.mc w) !! PayoutQueryRequest.OrderID q = Some mockOrder ->
  MockOrder.Status mockOrder <> "processing" ->
  (exists resp w',
     mock.PayoutQuery (Some q) w = (Returns (Some resp, None), w') /\
     BaseResponse.Success (PayoutQueryResponse.Base resp) = true /\
     PayoutQueryResponse.Status resp = MockOrder.Status mockOrder /\
     PayoutQueryResponse.CompletedAt resp = MockOrder.CompletedAt mockOrder /\
     mock.mc w' = mock.mc w) /\
  (exists w', mock.PayoutQuery_each n (Some q) w = (Returns tt, w') /\
              mock.mc w' = mock.mc w).
Proof.
  intros Ho Hs. split; [by apply PayoutQuery_other_status|].
  revert w Ho. induction n as [|n IH]; intros w Ho; [by exists w|].
  destruct (PayoutQuery_other_status w q mockOrder Ho Hs)
    as (resp & w1 & Hrun & _ & _ & _ & Hmc).
  cbn [mock.PayoutQuery_each]. unfold mock.bind at 1. rewrite Hrun.
  destruct (IH w1) as (w' & Hrest & Hmc'); [by rewrite Hmc|].
  exists w'. split; [done|congruence].
Qed.

Lemma PayoutQuery_leaves_other_orders_witness :
  exists w', mock.PayoutQuery_each 3 (Some mock.demo_payout_query) mock.demo_later
             = (Returns tt, w') /\
             mock.mc w' = mock.mc mock.demo_later.
Proof.
  apply (PayoutQuery_leaves_other_orders mock.demo_later mock.demo_payout_query
           mock.demo_order 3); [reflexivity|discriminate].
Defined.

(** X26. A nil request makes each of the six operations panic with a nil
    pointer dereference, after the delay; the order book and the
    configuration are as before ([CollectOrder] and [PayoutOrder] panic
    before they store anything). *)
Theorem nil_request_panics w :
  let msg := "runtime error: invalid memory address or nil pointer dereference" in
  let unchanged (w' : mock.World) := mock.mc w' = mock.mc w in
  ((mock.CollectOrder None w).1 = Panics msg /\ unchanged (mock.CollectOrder None w).2) /\
  ((mock.PayoutOrder None w).1 = Panics msg /\ unchanged (mock.PayoutOrder None w).2) /\
  ((mock.CollectQuery None w).1 = Panics msg /\ unchanged (mock.CollectQuery None w).2) /\
  ((mock.PayoutQuery None w).1 = Panics msg /\ unchanged (mock.PayoutQuery None w).2) /\
  ((mock.BalanceInquiry None w).1 = Panics msg /\ unchanged (mock.BalanceInquiry None w).2) /\
  ((mock.Callback None w).1 = Panics msg /\ unchanged (mock.Callback None w).2).
Proof.
  destruct w as [[c o] t l r f d n z]. cbv zeta. mock_unfold.
  destruct (c !! "mock_delay_ms") as [[]|]; mock_unfold;
    destruct (c !! "success_rate") as [[]|]; mock_unfold; done.
Qed.
